(** * PgBouncer k8s operator: reconciliation, supervision and backend relation

    A shallow embedding of [src/charm.py] (class [PgBouncerK8sCharm]) and
    [src/relations/backend_database.py] (class [BackendDatabaseRequires]).

    Python methods become functions in a small state/exception/trace monad
    [M]: the mutable world (container files, supervised services, peer
    databags, unit status) is threaded explicitly, a raised Python exception
    is a [Raise] result that keeps the effects done so far, and every request
    sent to an external collaborator (Pebble, PostgreSQL, the hook framework)
    is recorded as an [Event]. *)

From stdpp Require Import gmap strings list fin_maps pretty.

Set Warnings "-clear-no-such-hyp".

Local Open Scope string_scope.
Local Open Scope list_scope.

(** ** Python string helpers *)

(** The double quote character, for f-strings such as ['"{user}" "{hash}"']. *)
Definition dq : string := String (Ascii.ascii_of_nat 34) EmptyString.

(** The newline of a Python ["\n"]. *)
Definition nl : string := String (Ascii.ascii_of_nat 10) EmptyString.

(** [s.startswith(p)]. *)
Fixpoint starts_with (p s : string) : bool :=
  match p, s with
  | EmptyString, _ => true
  | String a p', String b s' => if decide (a = b) then starts_with p' s' else false
  | String _ _, EmptyString => false
  end.

(** [s.replace(old, new)] for a non-empty [old]: leftmost, non-overlapping
    occurrences.  [skip] counts the characters of a match still to drop. *)
Fixpoint replace_from (old new : string) (skip : nat) (s : string) : string :=
  match s with
  | EmptyString => EmptyString
  | String c s' =>
      match skip with
      | S k => replace_from old new k s'
      | O =>
          if starts_with old s
          then new +:+ replace_from old new (String.length old - 1) s'
          else String c (replace_from old new 0 s')
      end
  end.

Definition str_replace (old new s : string) : string := replace_from old new 0 s.

(** ** Data model *)

(** A relation or peer databag: string keys, string values. *)
Abbreviation Databag := (gmap string string).

(** [pgb.PgbConfig]: a mapping from section names to key/value pairs.  Python
    compares two of them as mappings, which is equality of [gmap]s. *)
Abbreviation PgbConfig := (gmap string (gmap string string)).

Inductive Exn : Set :=
| FileNotFoundError
| ConnectionError      (* ops.pebble.ConnectionError *)
| KeyError
| AttributeError       (* attribute access on None *)
| TypeError
| PathError            (* ops.pebble.PathError *)
| Psycopg2Error
| PostgreSQLError.     (* errors of the PostgreSQL helper library *)

#[global] Instance Exn_eq_dec : EqDecision Exn.
Proof. solve_decision. Defined.

Inductive ServiceStatus : Set := ACTIVE | INACTIVE | ERROR.

#[global] Instance ServiceStatus_eq_dec : EqDecision ServiceStatus.
Proof. solve_decision. Defined.

Inductive Status : Set :=
| UnknownStatus
| ActiveStatus (msg : string)
| BlockedStatus (msg : string)
| WaitingStatus (msg : string)
| MaintenanceStatus (msg : string).

Definition status_message (s : Status) : string :=
  match s with
  | UnknownStatus => EmptyString
  | ActiveStatus m | BlockedStatus m | WaitingStatus m | MaintenanceStatus m => m
  end.

(** One entry of a Pebble layer: summary, command, startup and ordering (user,
    group and override are the same constants everywhere and left out). *)
Record ServiceSpec : Set := {
  svc_summary : string;
  svc_command : string;
  svc_startup : string;
  svc_after : list string
}.

#[global] Instance ServiceSpec_eq_dec : EqDecision ServiceSpec.
Proof. solve_decision. Defined.

(** Requests sent to the outside world, in the order they are made. *)
Inductive Event : Type :=
| EvPush (path contents : string) (perm : N)   (* perm 0: none given *)
| EvMakeDir (path : string)
| EvRemovePath (path : string)
| EvAddLayer (services : gmap string ServiceSpec)
| EvReplan
| EvStop (service : string)
| EvRestart (service : string)
| EvDefer
| EvExecute (dbname sql : string)
| EvCreateUser (user hashed : string) (admin : bool)
| EvDeleteUser (user : string)
| EvSetWorkloadVersion (version : string)
| EvRelationWrite (relation : nat) (key value : string).

#[global] Instance Event_eq_dec : EqDecision Event.
Proof. solve_decision. Defined.

(** A juju unit: [unit.app] and the number after the slash. *)
Record Unit : Set := { u_app : string; u_id : nat }.

#[global] Instance Unit_eq_dec : EqDecision Unit.
Proof. solve_decision. Defined.

(** The backend-database relation as [ops] presents it.  [remote_data] is the
    databag of the remote application, absent when [relation.data] has no
    application key besides our own. *)
Record BackendRelation : Type := {
  rel_id : nat;
  rel_remote_app : string;
  remote_data : option Databag;
  local_app_data : Databag
}.

(** What a hook reads but cannot change while it runs. *)
Record Env : Type := {
  is_leader : bool;                 (* self.unit.is_leader() *)
  app_name : string;                (* self.app.name *)
  unit_id : nat;
  cores : nat;                      (* os.cpu_count() *)
  planned_units : nat;              (* self.app.planned_units() *)
  peer_units : nat;                 (* len(self.peers.relation.units) *)
  can_connect : bool;               (* container.can_connect() *)
  db_reachable : bool;              (* the backend accepts connections *)
  backend_relation : option BackendRelation;
  listen_port : string;             (* self.config["listen_port"] *)
  db_relations : list nat;          (* self.model.relations.get("db", []) *)
  db_admin_relations : list nat;
  client_relations : list nat;
  certificates_relations : list nat;
  tls_files : option string * option string * option string;
  pgbouncer_version : string
}.

Definition charm_unit (env : Env) : Unit :=
  {| u_app := app_name env; u_id := unit_id env |}.

(** What a hook can change. *)
Record World : Type := {
  fs : gmap string string;          (* files of the workload container *)
  dirs : gset string;
  plan : gmap string ServiceStatus; (* container.get_services(): name -> current *)
  peer_app : Databag;               (* peer relation, application databag *)
  peer_unit : Databag;              (* peer relation, this unit's databag *)
  unit_status : Status;
  rng : nat;                        (* how many passwords were drawn so far *)
  client_data : gmap nat Databag    (* databags of the client relations *)
}.

Definition set_fs (f : gmap string string) (w : World) : World :=
  {| fs := f; dirs := dirs w; plan := plan w; peer_app := peer_app w;
     peer_unit := peer_unit w; unit_status := unit_status w; rng := rng w;
     client_data := client_data w |}.

Definition set_dirs (d : gset string) (w : World) : World :=
  {| fs := fs w; dirs := d; plan := plan w; peer_app := peer_app w;
     peer_unit := peer_unit w; unit_status := unit_status w; rng := rng w;
     client_data := client_data w |}.

Definition set_plan (p : gmap string ServiceStatus) (w : World) : World :=
  {| fs := fs w; dirs := dirs w; plan := p; peer_app := peer_app w;
     peer_unit := peer_unit w; unit_status := unit_status w; rng := rng w;
     client_data := client_data w |}.

Definition set_peer_app (d : Databag) (w : World) : World :=
  {| fs := fs w; dirs := dirs w; plan := plan w; peer_app := d;
     peer_unit := peer_unit w; unit_status := unit_status w; rng := rng w;
     client_data := client_data w |}.

Definition set_peer_unit (d : Databag) (w : World) : World :=
  {| fs := fs w; dirs := dirs w; plan := plan w; peer_app := peer_app w;
     peer_unit := d; unit_status := unit_status w; rng := rng w;
     client_data := client_data w |}.

Definition set_unit_status (s : Status) (w : World) : World :=
  {| fs := fs w; dirs := dirs w; plan := plan w; peer_app := peer_app w;
     peer_unit := peer_unit w; unit_status := s; rng := rng w;
     client_data := client_data w |}.

Definition set_rng (n : nat) (w : World) : World :=
  {| fs := fs w; dirs := dirs w; plan := plan w; peer_app := peer_app w;
     peer_unit := peer_unit w; unit_status := unit_status w; rng := n;
     client_data := client_data w |}.

(** ** The hook monad *)

Inductive Res (A : Type) : Type :=
| Ok (a : A)
| Raise (e : Exn).
Arguments Ok {A} a.
Arguments Raise {A} e.

(** A computation returns or raises, leaves a world behind and emits events. *)
Definition M (A : Type) : Type := World -> Res A * World * list Event.

Definition ret {A} (a : A) : M A := fun w => (Ok a, w, []).

Definition bind {A B} (m : M A) (k : A -> M B) : M B :=
  fun w =>
    match m w with
    | (Ok a, w1, e1) =>
        match k a w1 with
        | (r, w2, e2) => (r, w2, e1 ++ e2)
        end
    | (Raise e, w1, e1) => (Raise e, w1, e1)
    end.

Definition raise {A} (e : Exn) : M A := fun w => (Raise e, w, []).

(** A value or an exception computed without touching the world. *)
Definition lift {A} (r : Res A) : M A := fun w => (r, w, []).

(** [try: m  except e: h] *)
Definition try_except {A} (m : M A) (e : Exn) (h : M A) : M A :=
  fun w =>
    match m w with
    | (Raise e', w1, e1) =>
        if decide (e' = e)
        then match h w1 with (r, w2, e2) => (r, w2, e1 ++ e2) end
        else (Raise e', w1, e1)
    | r => r
    end.

Definition get : M World := fun w => (Ok w, w, []).
Definition modify (f : World -> World) : M unit := fun w => (Ok tt, f w, []).
Definition emit (ev : Event) : M unit := fun w => (Ok tt, w, [ev]).

Notation "x <- m ;; k" := (bind m (fun x => k))
  (at level 100, m at next level, right associativity, only parsing).
Notation "m ;;; k" := (bind m (fun _ => k))
  (at level 100, right associativity, only parsing).

(** [for x in xs: body(x)] *)
Fixpoint for_each {A} (xs : list A) (body : A -> M unit) : M unit :=
  match xs with
  | [] => ret tt
  | x :: xs' => body x ;;; for_each xs' body
  end.

Definition result {A} (r : Res A * World * list Event) : Res A := r.1.1.
Definition world_of {A} (r : Res A * World * list Event) : World := r.1.2.
Definition events {A} (r : Res A * World * list Event) : list Event := r.2.

(** The value a run returned, [d] when it raised. *)
Definition value {A} (d : A) (r : Res A * World * list Event) : A :=
  match result r with
  | Ok a => a
  | Raise _ => d
  end.

(** Whether a run returned. *)
Definition returned {A} (r : Res A * World * list Event) : bool :=
  match result r with
  | Ok _ => true
  | Raise _ => false
  end.

(** [cfg[section]]: a missing section is a [KeyError]. *)
Definition cfg_section (section : string) (cfg : PgbConfig) : M (gmap string string) :=
  match cfg !! section with
  | Some kv => ret kv
  | None => raise KeyError
  end.

(** [cfg[section][key] = value] *)
Definition cfg_set (section key value : string) (cfg : PgbConfig) : M PgbConfig :=
  kv <- cfg_section section cfg ;;
  ret (<[section := <[key := value]> kv]> cfg).

(** [cfg[section].pop(key, None)] *)
Definition cfg_pop (section key : string) (cfg : PgbConfig) : M PgbConfig :=
  kv <- cfg_section section cfg ;;
  ret (<[section := delete key kv]> cfg).

(** [str(x)] of an optional string inside an f-string. *)
Definition py_str (o : option string) : string := default "None" o.

(** Truth value of an optional string: [None] and the empty string are false. *)
Definition truthy (o : option string) : bool :=
  match o with
  | Some (String _ _) => true
  | _ => false
  end.

Definition colon : Ascii.ascii := Ascii.ascii_of_nat 58.

(** [s.split(":")[0]] *)
Fixpoint before_colon (s : string) : string :=
  match s with
  | EmptyString => EmptyString
  | String c s' => if decide (c = colon) then EmptyString else String c (before_colon s')
  end.

(** ** What the charm imports from files that are not part of the two modules *)

(** [PostgreSQL(primary_host=..., current_host=..., user=..., password=...,
    database=...)] *)
Record PostgreSQL : Set := {
  primary_host : string;
  current_host : string;
  pg_user : string;
  pg_password : string;
  pg_database : string
}.

(** The constants of [constants.py], the functions of the [pgb] library, the
    files shipped next to the code and the per-relation updaters of
    [relations/db.py] and [relations/pgbouncer_provider.py].  None of them is
    defined in the two modules embedded here, so the development is
    parametric in them. *)
Class Deps : Type := {
  (* constants.py *)
  PGB : string;
  PG : string;
  PGB_DIR : string;
  PGB_LOG_DIR : string;
  INI_PATH : string;
  AUTH_FILE_PATH : string;
  BACKEND_RELATION_NAME : string;
  MONITORING_PASSWORD_KEY : string;
  AUTH_FILE_DATABAG_KEY : string;
  CFG_FILE_DATABAG_KEY : string;
  PG_USER : string;
  PG_GROUP : string;
  METRICS_PORT : string;
  EXTENSIONS_BLOCKING_MESSAGE : string;
  TLS_KEY_FILE : string;
  TLS_CA_FILE : string;
  TLS_CERT_FILE : string;
  (* charms.pgbouncer_k8s.v0.pgb *)
  cfg_parse : string -> PgbConfig;              (* PgbConfig(text) *)
  cfg_render : PgbConfig -> string;             (* config.render() *)
  cfg_add_user : string -> bool -> PgbConfig -> PgbConfig;  (* add_user(user, stats) *)
  cfg_remove_user : string -> PgbConfig -> PgbConfig;
  DEFAULT_CONFIG : PgbConfig;
  generate_password : nat -> string;            (* the n-th password drawn *)
  get_hashed_password : string -> string -> string;
  (* files read with open() *)
  install_script : string;
  uninstall_script : string;
  logrotate_config : nat -> string;             (* templates/logrotate.j2 rendered *)
  (* relations/db.py and relations/pgbouncer_provider.py *)
  db_update_connection_info : Env -> bool -> nat -> string -> M unit;
  client_update_connection_info : Env -> nat -> M unit;
  db_update_postgres_endpoints : Env -> bool -> nat -> M unit;
  client_update_postgres_endpoints : Env -> nat -> M unit;
  (* relations/peers.py, a method the specification does not describe *)
  peers_remove_user : Env -> string -> M unit
}.

(** ** The peer shared-state store *)

Module Peers.
Section Peers.
Context `{Deps}.

(** The scope argument, ["app"] or ["unit"]. *)
Inductive Scope : Set := AppScope | UnitScope.

(** Modelled from the spec: [relations/peers.py] is not among the sources.
    The peer shared-state store holds key/value entries that every replica
    may read (section 6). *)
Definition get_secret (scope : Scope) (key : string) : M (option string) :=
  w <- get ;;
  ret (match scope with
       | AppScope => peer_app w !! key
       | UnitScope => peer_unit w !! key
       end).

(** Modelled from the spec: write access to the shared entries is gated to
    the elected leader; a replica may always write its own unit entries. *)
Definition set_secret (env : Env) (scope : Scope) (key value : string) : M unit :=
  match scope with
  | AppScope =>
      if is_leader env
      then modify (fun w => set_peer_app (<[key := value]> (peer_app w)) w)
      else ret tt
  | UnitScope => modify (fun w => set_peer_unit (<[key := value]> (peer_unit w)) w)
  end.

(** Modelled from the spec: [fetch()] returns the last published canonical
    config, or nothing when none was published. *)
Definition get_cfg : M (option PgbConfig) :=
  w <- get ;;
  ret (cfg_parse <$> peer_app w !! CFG_FILE_DATABAG_KEY).

(** Modelled from the spec: [publish(blob)] stores the serialized canonical
    config when called by the leader and does nothing for a follower. *)
Definition update_cfg (env : Env) (cfg : PgbConfig) : M unit :=
  if is_leader env
  then modify (fun w => set_peer_app (<[CFG_FILE_DATABAG_KEY := cfg_render cfg]> (peer_app w)) w)
  else ret tt.

(** Modelled from the spec: the shared credential-file entry, written or
    cleared by the leader only. *)
Definition update_auth_file (env : Env) (auth_file : option string) : M unit :=
  if is_leader env
  then modify (fun w =>
         set_peer_app (match auth_file with
                       | Some a => <[AUTH_FILE_DATABAG_KEY := a]> (peer_app w)
                       | None => delete AUTH_FILE_DATABAG_KEY (peer_app w)
                       end) w)
  else ret tt.

(** [self.charm.peers.unit_databag.update({key: value})] *)
Definition unit_databag_update (key value : string) : M unit :=
  modify (fun w => set_peer_unit (<[key := value]> (peer_unit w)) w).

End Peers.
End Peers.

Section Charm.
Context `{Deps}.

(** ** The workload container (the [ops] container API)

    [can_connect] tells whether Pebble answers; when it does not, every
    other call on the container raises [ConnectionError].  The supervisor
    itself is a black box: a request to it is recorded, and the status it
    reports for a service stays what the world says. *)

Definition pebble (m : M unit) (env : Env) : M unit :=
  if can_connect env then m else raise ConnectionError.

Definition container_exists (env : Env) (path : string) : M bool :=
  if can_connect env
  then w <- get ;; ret (bool_decide (path ∈ dirs w) || bool_decide (is_Some (fs w !! path)))
  else raise ConnectionError.

Definition container_make_dir (env : Env) (path : string) : M unit :=
  pebble (emit (EvMakeDir path) ;;; modify (fun w => set_dirs ({[path]} ∪ dirs w) w)) env.

Definition container_push (env : Env) (path contents : string) (perm : N) : M unit :=
  pebble (emit (EvPush path contents perm) ;;;
          modify (fun w => set_fs (<[path := contents]> (fs w)) w)) env.

(** [container.pull(path).read()]: a missing file is a [PathError]. *)
Definition container_pull (env : Env) (path : string) : M string :=
  if can_connect env
  then w <- get ;;
       match fs w !! path with
       | Some contents => ret contents
       | None => raise PathError
       end
  else raise ConnectionError.


Definition container_get_services (env : Env) : M (gmap string ServiceStatus) :=
  if can_connect env then w <- get ;; ret (plan w) else raise ConnectionError.

(** [container.add_layer(PGB, layer, combine=True)]: services that were not
    planned yet appear in the plan, not started. *)
Definition container_add_layer (env : Env) (layer : gmap string ServiceSpec) : M unit :=
  pebble (emit (EvAddLayer layer) ;;;
          modify (fun w => set_plan (plan w ∪ ((fun _ => INACTIVE) <$> layer)) w)) env.

Definition container_replan (env : Env) : M unit := pebble (emit EvReplan) env.
Definition container_stop (env : Env) (service : string) : M unit :=
  pebble (emit (EvStop service)) env.
Definition container_restart (env : Env) (service : string) : M unit :=
  pebble (emit (EvRestart service)) env.

(** ** [charm.py]: the supervised services (lines 70-81) *)

Record Service : Set := {
  name : string;
  id : nat;
  dir : string;
  ini_path : string;
  log_dir : string
}.

Definition make_service (service_id : nat) : Service :=
  {| name := PGB +:+ "_" +:+ pretty service_id;
     id := service_id;
     dir := PGB_DIR +:+ "/instance_" +:+ pretty service_id;
     ini_path := PGB_DIR +:+ "/instance_" +:+ pretty service_id +:+ "/pgbouncer.ini";
     log_dir := PGB_LOG_DIR +:+ "/instance_" +:+ pretty service_id |}.

(** [self._services], built once from [self._cores = os.cpu_count()]. *)
Definition _services (env : Env) : list Service :=
  make_service <$> seq 0 (cores env).

Definition _metrics_service : string := "metrics_server".

(** ** [charm.py]: file management (lines 474-541) *)

Definition push_file (env : Env) (path file_contents : string) (perms : N) : M unit :=
  if negb (can_connect env)
  then modify (set_unit_status
                 (WaitingStatus "Unable to push config to container - container unavailable."))
  else container_push env path file_contents perms.

Definition _read_file (env : Env) (filepath : string) : M string :=
  if negb (can_connect env)
  then raise FileNotFoundError
  else try_except (container_pull env filepath) PathError (raise FileNotFoundError).


Definition read_pgb_config (env : Env) : M PgbConfig :=
  text <- _read_file env INI_PATH ;; ret (cfg_parse text).

Definition read_auth_file (env : Env) : M string := _read_file env AUTH_FILE_PATH.

(** ** [backend_database.py]: the properties (lines 113-213) *)

(** [postgres_databag]: the remote application's databag, [None] without a
    relation or without a remote application key. *)
Definition postgres_databag (env : Env) : option Databag :=
  match backend_relation env with
  | Some r => remote_data r
  | None => None
  end.

(** [postgres]: [databag.get] on a missing databag is an [AttributeError]. *)
Definition postgres (env : Env) : Res (option PostgreSQL) :=
  match backend_relation env with
  | None => Ok None
  | Some _ =>
      match postgres_databag env with
      | None => Raise AttributeError
      | Some databag =>
          match databag !! "endpoints", databag !! "username", databag !! "password" with
          | Some endpoint, Some user, Some password =>
              Ok (Some {| primary_host := before_colon endpoint;
                          current_host := before_colon endpoint;
                          pg_user := user;
                          pg_password := password;
                          pg_database := PGB |})
          | _, _, _ => Ok None
          end
      end
  end.

(** [f"pgbouncer_auth_{username}".replace("-", "_")] *)
Definition auth_name (username : string) : string :=
  str_replace "-" "_" ("pgbouncer_auth_" +:+ username).

Definition auth_user (env : Env) : Res (option string) :=
  match postgres_databag env with
  | None => Raise AttributeError
  | Some databag =>
      match databag !! "username" with
      | None => Ok None
      | Some username => Ok (Some (auth_name username))
      end
  end.

Definition stats_user (env : Env) : string :=
  str_replace "-" "_" ("pgbouncer_stats_" +:+ app_name env).

(** [self.postgres._connect_to_database(dbname)]: an attribute of [None]
    when the relation gives no connection data, a [psycopg2.Error] when the
    backend does not answer. *)
Definition connect_to_database (env : Env) (dbname : string) : M unit :=
  pg <- lift (postgres env) ;;
  match pg with
  | None => raise AttributeError
  | Some _ => if db_reachable env then ret tt else raise Psycopg2Error
  end.

Definition ready (env : Env) : M bool :=
  pg <- lift (postgres env) ;;
  match pg with
  | None => ret false
  | Some _ =>
      cfg <- try_except (c <- read_pgb_config env ;; ret (Some c)) FileNotFoundError (ret None) ;;
      match cfg with
      | None => ret false
      | Some cfg =>
          section <- cfg_section "pgbouncer" cfg ;;
          if negb (bool_decide (is_Some (section !! "auth_query")))
          then ret false
          else
            auth <- try_except (a <- read_auth_file env ;; ret (Some a))
                               FileNotFoundError (ret None) ;;
            match auth with
            | None => ret false
            | Some _ =>
                try_except (connect_to_database env PGB ;;;
                            emit (EvExecute PGB "SELECT version();") ;;;
                            ret true)
                           Psycopg2Error (ret false)
            end
      end
  end.

(** ** [charm.py]: supervision (lines 318-399) *)

Definition service_status_str (s : ServiceStatus) : string :=
  match s with
  | ACTIVE => "ServiceStatus.ACTIVE"
  | INACTIVE => "ServiceStatus.INACTIVE"
  | ERROR => "ServiceStatus.ERROR"
  end.

(** The loop of [check_pgb_running] over the service names. *)
Fixpoint check_services (env : Env) (pebble_services : gmap string ServiceStatus)
    (services : list string) : M bool :=
  match services with
  | [] => ret true
  | service :: rest =>
      match pebble_services !! service with
      | None => raise ConnectionError
      | Some _ =>
          current <- container_get_services env ;;
          match current !! service with
          | None => raise AttributeError
          | Some pgb_service_status =>
              if decide (pgb_service_status = ACTIVE)
              then check_services env pebble_services rest
              else
                modify (set_unit_status
                          (BlockedStatus ("PgBouncer service " +:+ service +:+
                                          " not running: service status = " +:+
                                          service_status_str pgb_service_status))) ;;;
                ret false
          end
      end
  end.

Definition check_pgb_running (env : Env) : M bool :=
  if negb (can_connect env)
  then modify (set_unit_status (BlockedStatus "PgBouncer container currently unavailable")) ;;;
       ret false
  else
    pebble_services <- container_get_services env ;;
    backend_ready <- ready env ;;
    check_services env pebble_services
      ((name <$> _services env) ++ (if backend_ready then [_metrics_service] else [])).

Definition reload_pgbouncer (env : Env) : M unit :=
  pebble_services <- container_get_services env ;;
  for_each (_services env) (fun service =>
    match pebble_services !! name service with
    | None => raise ConnectionError
    | Some _ => container_restart env (name service)
    end) ;;;
  _ <- check_pgb_running env ;;
  ret tt.

Definition _generate_monitoring_service (env : Env) (enabled : bool) : M ServiceSpec :=
  if enabled
  then
    stats_password <- Peers.get_secret Peers.AppScope MONITORING_PASSWORD_KEY ;;
    ret {| svc_summary := "postgresql metrics exporter";
           svc_command :=
             "pgbouncer_exporter --web.listen-address=:" +:+ METRICS_PORT +:+
             " --pgBouncer.connectionString=" +:+ dq +:+ "postgres://" +:+
             stats_user env +:+ ":" +:+ py_str stats_password +:+ "@localhost:" +:+
             listen_port env +:+ "/pgbouncer?sslmode=disable" +:+ dq;
           svc_startup := "enabled";
           svc_after := name <$> _services env |}
  else
    ret {| svc_summary := "postgresql metrics exporter";
           svc_command := "true";
           svc_startup := "disabled";
           svc_after := name <$> _services env |}.

Definition toggle_monitoring_layer (env : Env) (enabled : bool) : M unit :=
  service <- _generate_monitoring_service env enabled ;;
  container_add_layer env {[ _metrics_service := service ]} ;;;
  (if enabled then container_replan env else container_stop env _metrics_service) ;;;
  _ <- check_pgb_running env ;;
  ret tt.

(** ** [charm.py]: [render_pgb_config] and [render_auth_file] (lines 543-595) *)

(** The body of the loop of [render_pgb_config]: the copy [s_config] of
    the config with the three per-instance keys set. *)
Definition instance_config (service : Service) (config : PgbConfig) : M PgbConfig :=
  s_config <- cfg_set PGB "unix_socket_dir" (dir service) config ;;
  s_config <- cfg_set PGB "logfile" (log_dir service +:+ "/pgbouncer.log") s_config ;;
  cfg_set PGB "pidfile" (dir service +:+ "/pgbouncer.pid") s_config.

(** Lines 568-581 of [render_pgb_config], after the early return. *)
Definition push_pgb_config (env : Env) (config : PgbConfig) (reload : bool) : M unit :=
  Peers.update_cfg env config ;;;
  for_each (_services env) (fun service =>
    s_config <- instance_config service config ;;
    push_file env (ini_path service) (cfg_render s_config) 256%N) ;;;
  push_file env INI_PATH (cfg_render config) 256%N ;;;
  if reload then reload_pgbouncer env else ret tt.

Definition render_pgb_config (env : Env) (config : PgbConfig) (reload : bool) : M unit :=
  unchanged <- try_except (current <- read_pgb_config env ;;
                           ret (bool_decide (config = current)))
                          FileNotFoundError (ret false) ;;
  if unchanged then ret tt else push_pgb_config env config reload.

Definition render_auth_file (env : Env) (auth_file : string) (reload : bool) : M unit :=
  push_file env AUTH_FILE_PATH auth_file 256%N ;;;
  Peers.update_auth_file env (Some auth_file) ;;;
  if reload then reload_pgbouncer env else ret tt.

(** ** [charm.py]: relation utilities (lines 601-648) *)

Definition update_client_connection_info (env : Env) (port : option string) : M unit :=
  pg <- lift (postgres env) ;;
  match pg with
  | None => ret tt
  | Some _ =>
      let port := if truthy port then py_str port else listen_port env in
      for_each (db_relations env) (fun relation =>
        db_update_connection_info env false relation port) ;;;
      for_each (db_admin_relations env) (fun relation =>
        db_update_connection_info env true relation port) ;;;
      for_each (client_relations env) (fun relation =>
        client_update_connection_info env relation)
  end.

Definition update_postgres_endpoints (env : Env) (reload : bool) : M unit :=
  pg <- lift (postgres env) ;;
  match pg with
  | None => ret tt
  | Some _ =>
      if negb (is_leader env)
      then ret tt
      else
        for_each (db_relations env) (fun relation =>
          db_update_postgres_endpoints env false relation) ;;;
        for_each (db_admin_relations env) (fun relation =>
          db_update_postgres_endpoints env true relation) ;;;
        for_each (client_relations env) (fun relation =>
          client_update_postgres_endpoints env relation) ;;;
        if reload then reload_pgbouncer env else ret tt
  end.

(** ** [charm.py]: the lifecycle hooks (lines 98-316) *)

Definition update_status (env : Env) : M unit :=
  pg <- lift (postgres env) ;;
  match pg with
  | None =>
      modify (set_unit_status
                (BlockedStatus "waiting for backend database relation to initialise"))
  | Some _ =>
      backend_ready <- ready env ;;
      if negb backend_ready
      then modify (set_unit_status (BlockedStatus "backend database relation not ready"))
      else
        w <- get ;;
        if decide (status_message (unit_status w) = EXTENSIONS_BLOCKING_MESSAGE)
        then ret tt
        else
          try_except
            (running <- check_pgb_running env ;;
             if running then modify (set_unit_status (ActiveStatus EmptyString)) else ret tt)
            ConnectionError
            (modify (set_unit_status (WaitingStatus "pgbouncer not running")))
  end.

Definition pooler_entry (service : Service) : ServiceSpec :=
  {| svc_summary := "pgbouncer service " +:+ pretty (id service);
     svc_command := "pgbouncer -R " +:+ ini_path service;
     svc_startup := "enabled";
     svc_after := [] |}.

Definition logrotate_entry (env : Env) : ServiceSpec :=
  {| svc_summary := EmptyString;
     svc_command := "sh -c 'logrotate -v /etc/logrotate.conf; sleep 5'";
     svc_startup := "enabled";
     svc_after := name <$> _services env |}.

(** The [services] dictionary of [_pgbouncer_layer]. *)
Definition _pgbouncer_layer (env : Env) : M (gmap string ServiceSpec) :=
  pg <- lift (postgres env) ;;
  metrics <- _generate_monitoring_service env (bool_decide (is_Some pg)) ;;
  ret (foldl (fun pebble_services service =>
                <[name service := pooler_entry service]> pebble_services)
             (<[_metrics_service := metrics]> {[ "logrotate" := logrotate_entry env ]})
             (_services env)).

(** [all(self.tls.get_tls_files())] *)
Definition tls_enabled (env : Env) : bool :=
  match tls_files env with
  | (key, ca, cert) => truthy key && truthy ca && truthy cert
  end.

Definition tls_keys_set (config : PgbConfig) : M PgbConfig :=
  config <- cfg_set "pgbouncer" "client_tls_key_file" (PGB_DIR +:+ "/" +:+ TLS_KEY_FILE) config ;;
  config <- cfg_set "pgbouncer" "client_tls_ca_file" (PGB_DIR +:+ "/" +:+ TLS_CA_FILE) config ;;
  config <- cfg_set "pgbouncer" "client_tls_cert_file" (PGB_DIR +:+ "/" +:+ TLS_CERT_FILE) config ;;
  cfg_set "pgbouncer" "client_tls_sslmode" "prefer" config.

Definition tls_keys_pop (config : PgbConfig) : M PgbConfig :=
  config <- cfg_pop "pgbouncer" "client_tls_key_file" config ;;
  config <- cfg_pop "pgbouncer" "client_tls_cert_file" config ;;
  config <- cfg_pop "pgbouncer" "client_tls_ca_file" config ;;
  cfg_pop "pgbouncer" "client_tls_sslmode" config.

Definition update_config (env : Env) : M bool :=
  config <- try_except (c <- read_pgb_config env ;; ret (Some c))
                       FileNotFoundError (ret None) ;;
  match config with
  | None => ret false
  | Some config =>
      config <- (if tls_enabled env then tls_keys_set config else tls_keys_pop config) ;;
      render_pgb_config env config true ;;;
      ret true
  end.

Definition push_optional (env : Env) (path : string) (contents : option string) : M unit :=
  match contents with
  | Some c => push_file env path c 256%N
  | None => ret tt
  end.

Definition push_tls_files_to_workload (env : Env) (do_update_config : bool) : M bool :=
  match tls_files env with
  | (key, ca, cert) =>
      push_optional env (PGB_DIR +:+ "/" +:+ TLS_KEY_FILE) key ;;;
      push_optional env (PGB_DIR +:+ "/" +:+ TLS_CA_FILE) ca ;;;
      push_optional env (PGB_DIR +:+ "/" +:+ TLS_CERT_FILE) cert ;;;
      if do_update_config then update_config env else ret true
  end.

(** [if not container.exists(path): container.make_dir(path, ...)] *)
Definition ensure_dir (env : Env) (path : string) : M unit :=
  present <- container_exists env path ;;
  if present then ret tt else container_make_dir env path.

(** A [PgbConfig] is false when it is an empty mapping, like [None]. *)
Definition config_truthy (config : option PgbConfig) : bool :=
  match config with
  | Some c => negb (bool_decide (c = ∅))
  | None => false
  end.

Definition _init_config (env : Env) : M bool :=
  config <- try_except (c <- read_pgb_config env ;; ret (Some c))
                       FileNotFoundError Peers.get_cfg ;;
  match (if config_truthy config then config
         else if is_leader env then Some DEFAULT_CONFIG else None) with
  | None => ret false
  | Some config =>
      for_each (_services env) (fun service =>
        ensure_dir env (dir service) ;;;
        ensure_dir env (log_dir service)) ;;;
      render_pgb_config env config false ;;;
      container_push env "/etc/logrotate.d/pgbouncer" (logrotate_config (cores env)) 0%N ;;;
      ret true
  end.

(** [self.version]: the output of [pgbouncer --version], empty when the
    container cannot be reached. *)
Definition version (env : Env) : string :=
  if can_connect env then pgbouncer_version env else EmptyString.

Definition _on_pgbouncer_pebble_ready (env : Env) : M unit :=
  initialised <- _init_config env ;;
  if negb initialised
  then emit EvDefer
  else
    if negb (bool_decide (certificates_relations env = [])) && negb (tls_enabled env)
    then modify (set_unit_status (WaitingStatus "Waiting for certificates")) ;;;
         emit EvDefer
    else
      (if tls_enabled env
       then _ <- push_tls_files_to_workload env false ;; ret tt
       else ret tt) ;;;
      pebble_layer <- _pgbouncer_layer env ;;
      container_add_layer env pebble_layer ;;;
      container_replan env ;;;
      update_status env ;;;
      emit (EvSetWorkloadVersion (version env)) ;;;
      update_postgres_endpoints env true.

(** ** [backend_database.py]: the hooks (lines 215-404) *)

(** [pgb.generate_password()]: the next password of the random source. *)
Definition draw_password : M string :=
  w <- get ;;
  modify (set_rng (S (rng w))) ;;;
  ret (generate_password (rng w)).

(** [self.postgres.create_user(user, password, admin=True)] *)
Definition postgres_create_user (env : Env) (user hashed : string) (admin : bool) : M unit :=
  pg <- lift (postgres env) ;;
  match pg with
  | None => raise AttributeError
  | Some _ =>
      if db_reachable env then emit (EvCreateUser user hashed admin) else raise PostgreSQLError
  end.

(** [self.postgres.delete_user(user)] *)
Definition postgres_delete_user (env : Env) (user : Res (option string)) : M unit :=
  pg <- lift (postgres env) ;;
  match pg with
  | None => raise AttributeError
  | Some _ =>
      user <- lift user ;;
      if db_reachable env then emit (EvDeleteUser (py_str user)) else raise PostgreSQLError
  end.

(** The loop shared by [initialise_auth_function] and
    [remove_auth_function]: run [script], with ["auth_user"] replaced by the
    name of the auth user, in every database of [dbs]. *)
Definition run_auth_script (env : Env) (script : string) (dbs : list string) : M unit :=
  for_each dbs (fun dbname =>
    connect_to_database env dbname ;;;
    user <- lift (auth_user env) ;;
    match user with
    | None => raise TypeError
    | Some user => emit (EvExecute dbname (str_replace "auth_user" user script))
    end).

Definition initialise_auth_function (env : Env) (dbs : list string) : M unit :=
  run_auth_script env install_script dbs.

Definition remove_auth_function (env : Env) (dbs : list string) : M unit :=
  run_auth_script env uninstall_script dbs.

(** One line of the credential file. *)
Definition auth_line (user hashed : string) : string :=
  dq +:+ user +:+ dq +:+ " " +:+ dq +:+ hashed +:+ dq.

(** Lines 249-255: reuse the stored monitoring password or draw one. *)
Definition monitoring_password (env : Env) : M string :=
  stored <- Peers.get_secret Peers.AppScope MONITORING_PASSWORD_KEY ;;
  if truthy stored
  then ret (py_str stored)
  else
    fresh <- draw_password ;;
    Peers.set_secret env Peers.AppScope MONITORING_PASSWORD_KEY fresh ;;;
    ret fresh.

Definition auth_query (user : string) : string :=
  "SELECT username, password FROM " +:+ user +:+ ".get_auth($1)".

(** Lines 242-259 of [_on_database_created]: create the auth user, install
    the auth function, and write the credential file of the auth user and
    the monitoring user.  Returns the name of the auth user. *)
Definition write_credentials (env : Env) : M string :=
  plaintext_password <- draw_password ;;
  user <- lift (auth_user env) ;;
  let hashed_password := get_hashed_password (py_str user) plaintext_password in
  postgres_create_user env (py_str user) hashed_password true ;;;
  initialise_auth_function env [PGB; PG] ;;;
  monitoring_password <- monitoring_password env ;;
  let hashed_monitoring_password :=
    get_hashed_password (stats_user env) monitoring_password in
  let auth_file :=
    auth_line (py_str user) hashed_password +:+ nl +:+
    auth_line (stats_user env) hashed_monitoring_password in
  Peers.set_secret env Peers.AppScope AUTH_FILE_DATABAG_KEY auth_file ;;;
  render_auth_file env auth_file false ;;;
  ret (py_str user).

(** Lines 261-267: make the canonical config use the auth query of [user]
    and the credential file. *)
Definition update_auth_config (env : Env) (user : string) : M unit :=
  cfg <- read_pgb_config env ;;
  cfg <- cfg_set "pgbouncer" "auth_query" (auth_query user)
           (cfg_add_user (stats_user env) true cfg) ;;
  cfg <- cfg_set "pgbouncer" "auth_file" AUTH_FILE_PATH cfg ;;
  render_pgb_config env cfg false.

(** Lines 242-272, what the hook does once its guards have passed. *)
Definition provision_backend (env : Env) : M unit :=
  user <- write_credentials env ;;
  update_auth_config env user ;;;
  update_postgres_endpoints env true ;;;
  toggle_monitoring_layer env true ;;;
  modify (set_unit_status (ActiveStatus "backend-database relation initialised.")).

Definition _on_database_created (env : Env) : M unit :=
  if negb (is_leader env)
  then ret tt
  else
    modify (set_unit_status (MaintenanceStatus "Initialising backend-database relation")) ;;;
    running <- try_except (r <- check_pgb_running env ;; ret (Some r))
                          ConnectionError (ret None) ;;
    match running with
    | None => emit EvDefer
    | Some false => emit EvDefer
    | Some true =>
        pg <- lift (postgres env) ;;
        match pg, backend_relation env ≫= (fun r => local_app_data r !! "database") with
        | None, _ => emit EvDefer
        | Some _, None => emit EvDefer
        | Some _, Some _ => provision_backend env
        end
    end.

Record RelationDepartedEvent : Set := {
  departing_unit : Unit;
  departed_relation : nat      (* event.relation.id *)
}.

Definition depart_flag (relation : nat) : string :=
  BACKEND_RELATION_NAME +:+ "_" +:+ pretty relation +:+ "_departing".

Definition remove_auth_fail_msg : string :=
  "failed to remove auth user when disconnecting from postgres application.".

(** Lines 298-299, the two calls every departure starts with. *)
Definition refresh_relations (env : Env) : M unit :=
  update_client_connection_info env None ;;;
  update_postgres_endpoints env true.

(** Lines 319-334: remove the auth function, then the auth user. *)
Definition revoke_auth (env : Env) : M unit :=
  removed <- try_except (remove_auth_function env [PGB; PG] ;;; ret true)
                        Psycopg2Error
                        (modify (set_unit_status (BlockedStatus remove_auth_fail_msg)) ;;;
                         ret false) ;;
  if removed
  then
    postgres_delete_user env (auth_user env) ;;;
    user <- lift (auth_user env) ;;
    peers_remove_user env (py_str user)
  else ret tt.

(** [planned_units < len(self.charm.peers.relation.units) and planned_units != 0] *)
Definition scaling_down (env : Env) : bool :=
  (planned_units env <? peer_units env)%nat && negb (planned_units env =? 0)%nat.

Definition _on_relation_departed (env : Env) (event : RelationDepartedEvent) : M unit :=
  refresh_relations env ;;;
  if decide (departing_unit event = charm_unit env)
  then Peers.unit_databag_update (depart_flag (departed_relation event)) "true"
  else
    if negb (is_leader env) || negb (bool_decide (u_app (departing_unit event) = app_name env))
    then ret tt
    else
      if scaling_down env
      then ret tt
      else revoke_auth env.

(** ** Helpers outside the hooks

    [get_read_only_endpoints] (backend_database.py, lines 406-411) and
    [get_hostname_by_unit] (charm.py, lines 401-411), with the string
    methods they use. *)

Definition comma : Ascii.ascii := Ascii.ascii_of_nat 44.
Definition slash : Ascii.ascii := Ascii.ascii_of_nat 47.
Definition hyphen : Ascii.ascii := Ascii.ascii_of_nat 45.

(** [s.split(sep)] for a one-character [sep]: never an empty list. *)
Fixpoint split_at (sep : Ascii.ascii) (s : string) : list string :=
  match s with
  | EmptyString => [EmptyString]
  | String c s' =>
      if decide (c = sep)
      then EmptyString :: split_at sep s'
      else
        match split_at sep s' with
        | [] => [String c EmptyString]
        | part :: parts => String c part :: parts
        end
  end.

(** [set(read_only_endpoints.split(","))], the empty set when the databag
    has no such entry or an empty one; [databag.get] on a missing databag is
    an [AttributeError]. *)
Definition get_read_only_endpoints (env : Env) : Res (gset string) :=
  match postgres_databag env with
  | None => Raise AttributeError
  | Some databag =>
      let read_only_endpoints := databag !! "read-only-endpoints" in
      if negb (truthy read_only_endpoints)
      then Ok ∅
      else Ok (list_to_set (split_at comma (py_str read_only_endpoints)))
  end.

(** [unit_name.split("/")[1]] is an [IndexError] for a name without a
    slash: [None] here. *)
Definition get_hostname_by_unit (env : Env) (unit_name : string) : option string :=
  match split_at slash unit_name !! 1%nat with
  | None => None
  | Some unit_number =>
      Some (app_name env +:+ "-" +:+ unit_number +:+ "." +:+ app_name env +:+ "-endpoints")
  end.

(** [self._has_blocked_status] *)
Definition _has_blocked_status (w : World) : bool :=
  match unit_status w with
  | BlockedStatus _ => true
  | _ => false
  end.
(** ** [backend_database.py]: the hooks of lines 274-289 *)

Definition _on_endpoints_changed (env : Env) : M unit :=
  update_postgres_endpoints env true ;;;
  update_client_connection_info env None.

Definition _on_relation_changed (env : Env) : M unit :=
  running <- try_except (r <- check_pgb_running env ;; ret (Some r))
                        ConnectionError (ret None) ;;
  match running with
  | Some true =>
      update_postgres_endpoints env true ;;;
      update_client_connection_info env None
  | _ => ret tt
  end.
End Charm.

(** ** Definitions used in the statements

    Closed forms of what the loops of the hooks compute. *)

Section Derived.
Context `{Deps}.

(** The per-instance copy of a config whose [PGB] section is [section]. *)
Definition instance_of (service : Service) (section : gmap string string)
    (config : PgbConfig) : PgbConfig :=
  <[PGB := <["pidfile" := dir service +:+ "/pgbouncer.pid"]>
             (<["logfile" := log_dir service +:+ "/pgbouncer.log"]>
                (<["unix_socket_dir" := dir service]> section))]> config.

(** A file as the charm can read it: nothing when the container is away. *)
Definition stored_file (env : Env) (w : World) (path : string) : option string :=
  if can_connect env then fs w !! path else None.

(** The canonical config as [read_pgb_config] finds it. *)
Definition persisted_config (env : Env) (w : World) : option PgbConfig :=
  cfg_parse <$> stored_file env w INI_PATH.

(** The world after [peers.update_cfg]. *)
Definition published (env : Env) (config : PgbConfig) (w : World) : World :=
  if is_leader env
  then set_peer_app (<[CFG_FILE_DATABAG_KEY := cfg_render config]> (peer_app w)) w
  else w.

(** Two worlds that differ in the unit status at most. *)
Definition only_status (w w' : World) : Prop :=
  exists status, w' = set_unit_status status w.

(** What the loop of [render_pgb_config] pushes, and the files it leaves. *)
Definition instance_pushes (services : list Service) (section : gmap string string)
    (config : PgbConfig) : list Event :=
  (fun service =>
     EvPush (ini_path service) (cfg_render (instance_of service section config)) 256%N)
    <$> services.

Definition instance_files (services : list Service) (section : gmap string string)
    (config : PgbConfig) (files : gmap string string) : gmap string string :=
  foldl (fun files service =>
           <[ini_path service := cfg_render (instance_of service section config)]> files)
        files services.
(** A computation that can change nothing but the unit status. *)
Definition status_only {A} (m : M A) : Prop :=
  forall w r w' e, m w = (r, w', e) -> only_status w w'.
(** The world after the pushes of [render_pgb_config] on a reachable
    container. *)
Definition rendered (env : Env) (config : PgbConfig) (section : gmap string string)
    (w : World) : World :=
  set_fs (<[INI_PATH := cfg_render config]>
            (instance_files (_services env) section config (fs w)))
         (published env config w).

(** The status [push_file] leaves when the container is away. *)
Definition push_unavailable : Status :=
  WaitingStatus "Unable to push config to container - container unavailable.".
(** The config [_init_config] starts from: the local file, else the peer
    databag. *)
Definition known_config (env : Env) (w : World) : option PgbConfig :=
  match persisted_config env w with
  | Some config => Some config
  | None => cfg_parse <$> peer_app w !! CFG_FILE_DATABAG_KEY
  end.

(** The relation gives an endpoint, a user name and a password. *)
Definition supplies_credentials (env : Env) : Prop :=
  exists relation databag endpoint user password,
    backend_relation env = Some relation
    /\ remote_data relation = Some databag
    /\ databag !! "endpoints" = Some endpoint
    /\ databag !! "username" = Some user
    /\ databag !! "password" = Some password.

(** There is no relation, or its databag lacks one of the three entries. *)
Definition lacks_credentials (env : Env) : Prop :=
  backend_relation env = None
  \/ exists relation databag,
       backend_relation env = Some relation
       /\ remote_data relation = Some databag
       /\ (databag !! "endpoints" = None \/ databag !! "username" = None
           \/ databag !! "password" = None).

(** A computation that never raises [ex]. *)
Definition no_raise {A} (ex : Exn) (m : M A) : Prop :=
  forall w, result (m w) <> Raise ex.
(** What [revoke_auth] asks of the backend when it answers. *)
Definition revocation (user : string) : list Event :=
  [EvExecute PGB (str_replace "auth_user" user uninstall_script);
   EvExecute PG (str_replace "auth_user" user uninstall_script);
   EvDeleteUser user].

(** The monitoring password [write_credentials] uses: the stored one if it
    is not empty, else the second password drawn. *)
Definition monitoring_secret (w : World) : string :=
  if truthy (peer_app w !! MONITORING_PASSWORD_KEY)
  then py_str (peer_app w !! MONITORING_PASSWORD_KEY)
  else generate_password (S (rng w)).

(** The credential file [write_credentials] writes for the relation user
    [username]. *)
Definition credentials (env : Env) (username : string) (w : World) : string :=
  auth_line (auth_name username)
            (get_hashed_password (auth_name username) (generate_password (rng w)))
  +:+ nl +:+
  auth_line (stats_user env) (get_hashed_password (stats_user env) (monitoring_secret w)).

(** The world [monitoring_password] leaves on the leader. *)
Definition with_monitoring_secret (w : World) : World :=
  if truthy (peer_app w !! MONITORING_PASSWORD_KEY)
  then w
  else set_peer_app (<[MONITORING_PASSWORD_KEY := generate_password (rng w)]> (peer_app w))
         (set_rng (S (rng w)) w).

(** The world [write_credentials] leaves on the leader. *)
Definition credentialed (env : Env) (username : string) (w : World) : World :=
  let file := credentials env username w in
  let w3 := with_monitoring_secret (set_rng (S (rng w)) w) in
  set_peer_app (<[AUTH_FILE_DATABAG_KEY := file]> (<[AUTH_FILE_DATABAG_KEY := file]> (peer_app w3)))
    (set_fs (<[AUTH_FILE_PATH := file]> (fs w3)) w3).

(** The world with the departing flag of [relation] set. *)
Definition flagged (relation : nat) (w : World) : World :=
  set_peer_unit (<[depart_flag relation := "true"]> (peer_unit w)) w.
(** The exporter entry [_generate_monitoring_service(False)] makes. *)
Definition disabled_exporter (env : Env) : ServiceSpec :=
  {| svc_summary := "postgresql metrics exporter";
     svc_command := "true";
     svc_startup := "disabled";
     svc_after := name <$> _services env |}.

(** The world after [container.add_layer]. *)
Definition planned (layer : gmap string ServiceSpec) (w : World) : World :=
  set_plan (plan w ∪ ((fun _ => INACTIVE) <$> layer)) w.


(** [c in s] for a character [c]. *)
Fixpoint occurs (c : Ascii.ascii) (s : string) : bool :=
  match s with
  | EmptyString => false
  | String a s' => bool_decide (a = c) || occurs c s'
  end.

(** [sep.join(parts)] *)
Fixpoint join_with (sep : Ascii.ascii) (parts : list string) : string :=
  match parts with
  | [] => EmptyString
  | [part] => part
  | part :: rest => part +:+ String sep (join_with sep rest)
  end.


(** The services [check_pgb_running] looks at: the pooler instances, and
    the exporter when the backend is ready. *)
Definition required_services (env : Env) (backend_ready : bool) : list string :=
  (name <$> _services env) ++ (if backend_ready then [_metrics_service] else []).
(** The [pgbouncer] section [update_config] makes of [section] when the
    three TLS files are there, and when they are not. *)
Definition tls_section (section : gmap string string) : gmap string string :=
  <["client_tls_sslmode" := "prefer"]>
    (<["client_tls_cert_file" := PGB_DIR +:+ "/" +:+ TLS_CERT_FILE]>
       (<["client_tls_ca_file" := PGB_DIR +:+ "/" +:+ TLS_CA_FILE]>
          (<["client_tls_key_file" := PGB_DIR +:+ "/" +:+ TLS_KEY_FILE]> section))).

Definition plain_section (section : gmap string string) : gmap string string :=
  delete "client_tls_sslmode"
    (delete "client_tls_ca_file"
       (delete "client_tls_cert_file" (delete "client_tls_key_file" section))).

(** The config [update_config] renders. *)
Definition tls_config (env : Env) (config : PgbConfig) (section : gmap string string)
    : PgbConfig :=
  <["pgbouncer" := if tls_enabled env then tls_section section else plain_section section]>
    config.

Definition tls_keys : list string :=
  ["client_tls_key_file"; "client_tls_ca_file"; "client_tls_cert_file"; "client_tls_sslmode"].

(** The path of the logrotate config. *)
Definition logrotate_path : string := "/etc/logrotate.d/pgbouncer".
(** What [container.exists(path)] sees: a directory or a file. *)
Definition exists_in (w : World) (path : string) : Prop :=
  path ∈ dirs w \/ is_Some (fs w !! path).
(** The exporter entry [_generate_monitoring_service(True)] makes in the
    world [w]. *)
Definition enabled_exporter (env : Env) (w : World) : ServiceSpec :=
  {| svc_summary := "postgresql metrics exporter";
     svc_command :=
       "pgbouncer_exporter --web.listen-address=:" +:+ METRICS_PORT +:+
       " --pgBouncer.connectionString=" +:+ dq +:+ "postgres://" +:+
       stats_user env +:+ ":" +:+ py_str (peer_app w !! MONITORING_PASSWORD_KEY) +:+
       "@localhost:" +:+ listen_port env +:+ "/pgbouncer?sslmode=disable" +:+ dq;
     svc_startup := "enabled";
     svc_after := name <$> _services env |}.
End Derived.

(** ** A concrete deployment

    An instance of the dependencies with a line-oriented serializer of
    configs, and a two-core leader unit related to a backend.  The examples
    and the satisfiability lemmas below run the hooks on it. *)

Module Demo.

(** [[section]] header lines followed by [key = value] lines. *)
Definition render_section (entry : string * gmap string string) : string :=
  "[" +:+ entry.1 +:+ "]" +:+ nl +:+
  foldr (fun kv acc => kv.1 +:+ " = " +:+ kv.2 +:+ nl +:+ acc) EmptyString
        (map_to_list entry.2).

Definition render (cfg : PgbConfig) : string :=
  foldr (fun entry acc => render_section entry +:+ acc) EmptyString (map_to_list cfg).

(** The lines of a text, without their newline. *)
Fixpoint lines_from (line : string) (s : string) : list string :=
  match s with
  | EmptyString => match line with EmptyString => [] | _ => [line] end
  | String c s' =>
      if decide (c = Ascii.ascii_of_nat 10)
      then line :: lines_from EmptyString s'
      else lines_from (line +:+ String c EmptyString) s'
  end.

(** [line.split(" = ", 1)] *)
Fixpoint split_assignment (key : string) (s : string) : option (string * string) :=
  match s with
  | EmptyString => None
  | String c s' =>
      if starts_with " = " s
      then Some (key, String.substring 3 (String.length s) s)
      else split_assignment (key +:+ String c EmptyString) s'
  end.

Definition parse_line (state : option string * PgbConfig) (line : string)
    : option string * PgbConfig :=
  if starts_with "[" line
  then
    let section := String.substring 1 (String.length line - 2) line in
    (Some section, <[section := ∅]> state.2)
  else
    match state.1, split_assignment EmptyString line with
    | Some section, Some (key, value) =>
        (state.1, <[section := <[key := value]> (default ∅ (state.2 !! section))]> state.2)
    | _, _ => state
    end.

Definition parse (text : string) : PgbConfig :=
  (foldl parse_line (None, ∅) (lines_from EmptyString text)).2.

Definition user_list (stats : bool) : string :=
  if stats then "stats_users" else "admin_users".

Definition add_user (user : string) (stats : bool) (cfg : PgbConfig) : PgbConfig :=
  <[user_list stats := <[user := "true"]> (default ∅ (cfg !! user_list stats))]> cfg.

Definition remove_user (user : string) (cfg : PgbConfig) : PgbConfig :=
  alter (delete user) "admin_users" (alter (delete user) "stats_users" cfg).

Definition default_section : gmap string string :=
  {[ "listen_port" := "6432"; "so_reuseport" := "1"; "pool_mode" := "session" ]}.

Definition default_config : PgbConfig := {[ "pgbouncer" := default_section ]}.

#[global] Instance deps : Deps := {|
  PGB := "pgbouncer";
  PG := "postgres";
  PGB_DIR := "/var/lib/postgresql/pgbouncer";
  PGB_LOG_DIR := "/var/log/pgbouncer";
  INI_PATH := "/var/lib/postgresql/pgbouncer/pgbouncer.ini";
  AUTH_FILE_PATH := "/var/lib/postgresql/pgbouncer/userlist.txt";
  BACKEND_RELATION_NAME := "backend-database";
  MONITORING_PASSWORD_KEY := "monitoring_password";
  AUTH_FILE_DATABAG_KEY := "auth_file";
  CFG_FILE_DATABAG_KEY := "cfg_file";
  PG_USER := "postgres";
  PG_GROUP := "postgres";
  METRICS_PORT := "9127";
  EXTENSIONS_BLOCKING_MESSAGE := "bad relation request - remote app requested extensions";
  TLS_KEY_FILE := "key.pem";
  TLS_CA_FILE := "ca.pem";
  TLS_CERT_FILE := "cert.pem";
  cfg_parse := parse;
  cfg_render := render;
  cfg_add_user := add_user;
  cfg_remove_user := remove_user;
  DEFAULT_CONFIG := default_config;
  generate_password := fun n => "secret" +:+ pretty n;
  get_hashed_password := fun user password => "md5(" +:+ password +:+ user +:+ ")";
  install_script := "GRANT auth_user;";
  uninstall_script := "REVOKE auth_user;";
  logrotate_config := fun n => "rotate " +:+ pretty n;
  db_update_connection_info := fun _ _ relation port =>
    emit (EvRelationWrite relation "port" port);
  client_update_connection_info := fun env relation =>
    emit (EvRelationWrite relation "endpoints" (app_name env));
  db_update_postgres_endpoints := fun _ _ _ => ret tt;
  client_update_postgres_endpoints := fun _ _ => ret tt;
  peers_remove_user := fun env user =>
    if is_leader env
    then modify (fun w => set_peer_app (delete user (peer_app w)) w)
    else ret tt
|}.

Definition backend_data : Databag :=
  {[ "endpoints" := "postgresql-k8s-primary:5432";
     "username" := "relation-5";
     "password" := "hunter2" ]}.

Definition backend : BackendRelation :=
  {| rel_id := 5;
     rel_remote_app := "postgresql-k8s";
     remote_data := Some backend_data;
     local_app_data := {[ "database" := "pgbouncer" ]} |}.

(** [self.postgres] on the related units. *)
Definition backend_postgres : PostgreSQL :=
  {| primary_host := "postgresql-k8s-primary";
     current_host := "postgresql-k8s-primary";
     pg_user := "relation-5";
     pg_password := "hunter2";
     pg_database := "pgbouncer" |}.

(** The leader unit [pgbouncer-k8s/0] on two cores. *)
Definition leader : Env :=
  {| is_leader := true;
     app_name := "pgbouncer-k8s";
     unit_id := 0;
     cores := 2;
     planned_units := 1;
     peer_units := 0;
     can_connect := true;
     db_reachable := true;
     backend_relation := Some backend;
     listen_port := "6432";
     db_relations := [];
     db_admin_relations := [];
     client_relations := [];
     certificates_relations := [];
     tls_files := (None, None, None);
     pgbouncer_version := "1.18.0" |}.

Definition with_leader (b : bool) (env : Env) : Env :=
  {| is_leader := b; app_name := app_name env; unit_id := unit_id env;
     cores := cores env; planned_units := planned_units env;
     peer_units := peer_units env; can_connect := can_connect env;
     db_reachable := db_reachable env; backend_relation := backend_relation env;
     listen_port := listen_port env; db_relations := db_relations env;
     db_admin_relations := db_admin_relations env;
     client_relations := client_relations env;
     certificates_relations := certificates_relations env;
     tls_files := tls_files env; pgbouncer_version := pgbouncer_version env |}.

Definition with_units (planned peers : nat) (env : Env) : Env :=
  {| is_leader := is_leader env; app_name := app_name env; unit_id := unit_id env;
     cores := cores env; planned_units := planned;
     peer_units := peers; can_connect := can_connect env;
     db_reachable := db_reachable env; backend_relation := backend_relation env;
     listen_port := listen_port env; db_relations := db_relations env;
     db_admin_relations := db_admin_relations env;
     client_relations := client_relations env;
     certificates_relations := certificates_relations env;
     tls_files := tls_files env; pgbouncer_version := pgbouncer_version env |}.

Definition with_backend (r : option BackendRelation) (env : Env) : Env :=
  {| is_leader := is_leader env; app_name := app_name env; unit_id := unit_id env;
     cores := cores env; planned_units := planned_units env;
     peer_units := peer_units env; can_connect := can_connect env;
     db_reachable := db_reachable env; backend_relation := r;
     listen_port := listen_port env; db_relations := db_relations env;
     db_admin_relations := db_admin_relations env;
     client_relations := client_relations env;
     certificates_relations := certificates_relations env;
     tls_files := tls_files env; pgbouncer_version := pgbouncer_version env |}.

(** A freshly started container: nothing written, nothing planned. *)
Definition empty_world : World :=
  {| fs := ∅; dirs := ∅; plan := ∅; peer_app := ∅; peer_unit := ∅;
     unit_status := UnknownStatus; rng := 0; client_data := ∅ |}.

(** Both pooler instances and the exporter are planned and running. *)
Definition running_plan : gmap string ServiceStatus :=
  {[ "pgbouncer_0" := ACTIVE; "pgbouncer_1" := ACTIVE; "metrics_server" := ACTIVE;
     "logrotate" := ACTIVE ]}.

(** The world after pebble-ready on the leader: the default config is
    rendered and the services run. *)
Definition started_world : World :=
  set_plan running_plan (world_of (_init_config leader empty_world)).

(** The world after database-created has run on [started_world]. *)
Definition related_world : World :=
  world_of (_on_database_created leader started_world).
Definition removed : Env := with_units 0 0 leader.

(** Departures seen by [pgbouncer-k8s/0]: its own, the one of its peer
    [pgbouncer-k8s/1] and the one of the backend unit [postgresql-k8s/0]. *)
Definition local_departure : RelationDepartedEvent :=
  {| departing_unit := charm_unit leader; departed_relation := 5 |}.
Definition peer_departure : RelationDepartedEvent :=
  {| departing_unit := {| u_app := "pgbouncer-k8s"; u_id := 1 |}; departed_relation := 5 |}.
Definition backend_departure : RelationDepartedEvent :=
  {| departing_unit := {| u_app := "postgresql-k8s"; u_id := 0 |}; departed_relation := 5 |}.
Definition with_container (b : bool) (env : Env) : Env :=
  {| is_leader := is_leader env; app_name := app_name env; unit_id := unit_id env;
     cores := cores env; planned_units := planned_units env;
     peer_units := peer_units env; can_connect := b;
     db_reachable := db_reachable env; backend_relation := backend_relation env;
     listen_port := listen_port env; db_relations := db_relations env;
     db_admin_relations := db_admin_relations env;
     client_relations := client_relations env;
     certificates_relations := certificates_relations env;
     tls_files := tls_files env; pgbouncer_version := pgbouncer_version env |}.

Definition with_certificates (relations : list nat)
    (files : option string * option string * option string) (env : Env) : Env :=
  {| is_leader := is_leader env; app_name := app_name env; unit_id := unit_id env;
     cores := cores env; planned_units := planned_units env;
     peer_units := peer_units env; can_connect := can_connect env;
     db_reachable := db_reachable env; backend_relation := backend_relation env;
     listen_port := listen_port env; db_relations := db_relations env;
     db_admin_relations := db_admin_relations env;
     client_relations := client_relations env;
     certificates_relations := relations;
     tls_files := files; pgbouncer_version := pgbouncer_version env |}.

(** The leader while its container cannot be reached. *)
Definition unreachable : Env := with_container false leader.

(** The leader related to a certificates provider: before the files are
    issued, and with the three files. *)
Definition uncertified : Env := with_certificates [7] (None, None, None) leader.
Definition secured : Env :=
  with_certificates [7] (Some "KEY", Some "CA", Some "CERT") leader.

(** A backend that publishes two replicas. *)
Definition replica_hosts : list string :=
  ["postgresql-k8s-1.postgresql-k8s-endpoints:5432";
   "postgresql-k8s-2.postgresql-k8s-endpoints:5432"].

Definition replicated_data : Databag :=
  <["read-only-endpoints" := join_with comma replica_hosts]> backend_data.

Definition replicated : Env :=
  with_backend (Some {| rel_id := 5;
                        rel_remote_app := "postgresql-k8s";
                        remote_data := Some replicated_data;
                        local_app_data := {[ "database" := "pgbouncer" ]} |})
    leader.
End Demo.

(** * Properties *)

(** ** Laws of the hook monad *)

Section MonadLaws.
Context {A B : Type}.

Lemma bind_ok (m : M A) (k : A -> M B) w a w1 e1 :
  m w = (Ok a, w1, e1) ->
  bind m k w = (let '(r, w2, e2) := k a w1 in (r, w2, e1 ++ e2)).
Proof. intros Hm. unfold bind. rewrite Hm. reflexivity. Qed.

Lemma bind_raise (m : M A) (k : A -> M B) w e w1 e1 :
  m w = (Raise e, w1, e1) -> bind m k w = (Raise e, w1, e1).
Proof. intros Hm. unfold bind. rewrite Hm. reflexivity. Qed.

Lemma bind_inv_ok (m : M A) (k : A -> M B) w b w2 ev :
  bind m k w = (Ok b, w2, ev) ->
  exists a w1 e1 e2, m w = (Ok a, w1, e1) /\ k a w1 = (Ok b, w2, e2) /\ ev = e1 ++ e2.
Proof.
  unfold bind. destruct (m w) as [[[a|e] w1] e1]; [|discriminate].
  destruct (k a w1) as [[r w2'] e2] eqn:Hk. intros [= -> -> <-].
  exists a, w1, e1, e2. auto.
Qed.

Lemma bind_lift_ok (a : A) (k : A -> M B) w : bind (lift (Ok a)) k w = k a w.
Proof. unfold bind, lift. destruct (k a w) as [[r w2] e2]. reflexivity. Qed.

Lemma bind_lift_raise (e : Exn) (k : A -> M B) w :
  bind (lift (Raise e)) k w = (Raise e, w, []).
Proof. reflexivity. Qed.

Lemma bind_ret (a : A) (k : A -> M B) w : bind (ret a) k w = k a w.
Proof. apply bind_lift_ok. Qed.

Lemma bind_get (k : World -> M B) w : bind get k w = k w w.
Proof. unfold bind, get. destruct (k w w) as [[r w2] e2]. reflexivity. Qed.

Lemma bind_modify (f : World -> World) (k : unit -> M B) w :
  bind (modify f) k w = k tt (f w).
Proof. unfold bind, modify. destruct (k tt (f w)) as [[r w2] e2]. reflexivity. Qed.

End MonadLaws.

Lemma bind_ret_r (m : M unit) w : bind m (fun _ => ret tt) w = m w.
Proof.
  unfold bind, ret. destruct (m w) as [[[[]|e] w1] e1]; [|reflexivity].
  by rewrite app_nil_r.
Qed.

Section Properties.
Context `{Deps}.

(** ** The instance set *)

Lemma length_services env : length (_services env) = cores env.
Proof. unfold _services. by rewrite length_fmap, length_seq. Qed.

Lemma make_service_name_inj i j : name (make_service i) = name (make_service j) -> i = j.
Proof.
  simpl. intros Heq. apply (inj (String.app PGB)) in Heq.
  apply (inj (String.app "_")) in Heq. by apply (inj pretty) in Heq.
Qed.

Lemma NoDup_service_names env : NoDup (name <$> _services env).
Proof.
  unfold _services. rewrite <- list_fmap_compose.
  apply NoDup_fmap_2_strong; [|apply NoDup_seq].
  intros i j _ _. apply make_service_name_inj.
Qed.

Lemma layer_fold_dom (l : list Service) (base : gmap string ServiceSpec) :
  dom (foldl (fun pebble_services service =>
                <[name service := pooler_entry service]> pebble_services) base l)
  = dom base ∪ list_to_set (name <$> l).
Proof.
  revert base. induction l as [|s l IH]; intros base; simpl.
  - set_solver.
  - rewrite IH, dom_insert_L. set_solver.
Qed.

Lemma layer_fold_other (l : list Service) (base : gmap string ServiceSpec) k :
  k ∉ name <$> l ->
  foldl (fun pebble_services service =>
           <[name service := pooler_entry service]> pebble_services) base l !! k
  = base !! k.
Proof.
  revert base. induction l as [|s l IH]; intros base Hk; simpl; [done|].
  rewrite fmap_cons, not_elem_of_cons in Hk. destruct Hk as [Hne Hk].
  rewrite IH by done. by rewrite lookup_insert_ne.
Qed.

Lemma layer_fold_lookup (l : list Service) (base : gmap string ServiceSpec) s :
  NoDup (name <$> l) -> s ∈ l ->
  foldl (fun pebble_services service =>
           <[name service := pooler_entry service]> pebble_services) base l !! name s
  = Some (pooler_entry s).
Proof.
  revert base. induction l as [|x l IH]; intros base Hnd Hin; simpl.
  - by apply elem_of_nil in Hin.
  - rewrite fmap_cons in Hnd. apply NoDup_cons in Hnd as [Hx Hnd].
    apply elem_of_cons in Hin as [->|Hin].
    + rewrite layer_fold_other by done. by rewrite lookup_insert_eq.
    + by apply IH.
Qed.

Lemma generate_monitoring_service_run env enabled w :
  exists service, _generate_monitoring_service env enabled w = (Ok service, w, []).
Proof. destruct enabled; eexists; reflexivity. Qed.

Lemma pgbouncer_layer_run env w layer w' e :
  _pgbouncer_layer env w = (Ok layer, w', e) ->
  exists metrics,
    layer = foldl (fun pebble_services service =>
                     <[name service := pooler_entry service]> pebble_services)
                  (<[_metrics_service := metrics]> {[ "logrotate" := logrotate_entry env ]})
                  (_services env)
    /\ w' = w /\ e = [].
Proof.
  unfold _pgbouncer_layer. destruct (postgres env) as [pg|ex].
  - rewrite bind_lift_ok.
    destruct (generate_monitoring_service_run env (bool_decide (is_Some pg)) w)
      as [metrics Hm].
    rewrite (bind_ok _ _ _ _ _ _ Hm). unfold ret, lift. simpl.
    intros [= <- <- <-]. by exists metrics.
  - rewrite bind_lift_raise. discriminate.
Qed.

Lemma instance_config_some service config section w :
  config !! PGB = Some section ->
  instance_config service config w = (Ok (instance_of service section config), w, []).
Proof.
  intros Hsec. unfold instance_config, cfg_set, cfg_section, instance_of, bind, ret, lift.
  rewrite Hsec. simpl. rewrite lookup_insert_eq. simpl. rewrite lookup_insert_eq. simpl.
  by rewrite !insert_insert_eq.
Qed.

Lemma instance_config_none service config w :
  config !! PGB = None -> instance_config service config w = (Raise KeyError, w, []).
Proof.
  intros Hsec. unfold instance_config, cfg_set, cfg_section. by rewrite Hsec.
Qed.

Lemma instance_of_dom service section config :
  config !! PGB = Some section -> dom (instance_of service section config) = dom config.
Proof.
  intros Hsec. unfold instance_of. rewrite dom_insert_L.
  apply (elem_of_dom_2 (D := gset string)) in Hsec. set_solver.
Qed.

Lemma instance_of_other service section config sec key :
  config !! PGB = Some section ->
  ~ (sec = PGB /\ key ∈ ["unix_socket_dir"; "logfile"; "pidfile"]) ->
  instance_of service section config !! sec ≫= (.!! key) = config !! sec ≫= (.!! key).
Proof.
  intros Hsec Hne. unfold instance_of. destruct (decide (sec = PGB)) as [->|Hs].
  - rewrite lookup_insert_eq, Hsec. simpl.
    rewrite !lookup_insert_ne; [done| | |]; intros <-; apply Hne; set_solver.
  - by rewrite lookup_insert_ne.
Qed.

(** C7. The declared pooler instances are one per detected core, under
    pairwise different names, and the layer handed to the supervisor has an
    entry for each of them beside the log rotation and the exporter; the
    list is a function of the core count alone, so no hook changes it.  The
    config rendered for an instance has the sections of the canonical one
    and the same value under every key except [unix_socket_dir], [logfile]
    and [pidfile] of the [PGB] section. *)
Theorem instance_set_invariant env :
  length (_services env) = cores env
  /\ NoDup (name <$> _services env)
  /\ (forall w layer w' e,
        _pgbouncer_layer env w = (Ok layer, w', e) ->
        dom layer = ({[ "logrotate"; _metrics_service ]} : gset string)
                    ∪ list_to_set (name <$> _services env)
        /\ forall service, service ∈ _services env ->
             layer !! name service = Some (pooler_entry service))
  /\ (forall service config w s_config w' e,
        instance_config service config w = (Ok s_config, w', e) ->
        dom s_config = dom config
        /\ forall section key,
             ~ (section = PGB /\ key ∈ ["unix_socket_dir"; "logfile"; "pidfile"]) ->
             s_config !! section ≫= (.!! key) = config !! section ≫= (.!! key)).
Proof.
  split; [apply length_services|]. split; [apply NoDup_service_names|]. split.
  - intros w layer w' e Hrun.
    apply pgbouncer_layer_run in Hrun as (metrics & -> & _ & _). split.
    + rewrite layer_fold_dom, dom_insert_L, dom_singleton_L. set_solver.
    + intros service Hin. apply layer_fold_lookup; [apply NoDup_service_names|done].
  - intros service config w s_config w' e Hrun.
    destruct (config !! PGB) as [section|] eqn:Hsec.
    + rewrite (instance_config_some _ _ _ _ Hsec) in Hrun.
      injection Hrun as <- _ _. split.
      * by apply instance_of_dom.
      * intros sec key. by apply instance_of_other.
    + rewrite (instance_config_none _ _ _ Hsec) in Hrun. discriminate.
Qed.
End Properties.

(** ** Frames: computations that can only change the unit status *)

Lemma only_status_refl w : only_status w w.
Proof. exists (unit_status w). by destruct w. Qed.

Lemma only_status_trans w1 w2 w3 : only_status w1 w2 -> only_status w2 w3 -> only_status w1 w3.
Proof. intros [s1 ->] [s2 ->]. by exists s2. Qed.

Lemma only_status_set s w : only_status w (set_unit_status s w).
Proof. by exists s. Qed.

Section StatusOnly.
Context {A B : Type}.

Lemma status_only_lift (r : Res A) : status_only (lift r).
Proof. intros w r' w' e [= _ <- _]. apply only_status_refl. Qed.

Lemma status_only_ret (a : A) : status_only (ret a).
Proof. apply status_only_lift. Qed.

Lemma status_only_raise (e : Exn) : status_only (@raise A e).
Proof. apply (status_only_lift (Raise e)). Qed.

Lemma status_only_bind (m : M A) (k : A -> M B) :
  status_only m -> (forall a, status_only (k a)) -> status_only (bind m k).
Proof.
  intros Hm Hk w r w' e. unfold bind.
  destruct (m w) as [[[a|ex] w1] e1] eqn:Em.
  - destruct (k a w1) as [[r2 w2] e2] eqn:Ek. intros [= _ <- _].
    eapply only_status_trans; [by eapply Hm|by eapply Hk].
  - intros [= _ <- _]. by eapply Hm.
Qed.

Lemma status_only_try (m : M A) (ex : Exn) (h : M A) :
  status_only m -> status_only h -> status_only (try_except m ex h).
Proof.
  intros Hm Hh w r w' e. unfold try_except.
  destruct (m w) as [[[a|ex'] w1] e1] eqn:Em.
  - intros [= _ <- _]. by eapply Hm.
  - destruct (decide (ex' = ex)).
    + destruct (h w1) as [[r2 w2] e2] eqn:Eh. intros [= _ <- _].
      eapply only_status_trans; [by eapply Hm|by eapply Hh].
    + intros [= _ <- _]. by eapply Hm.
Qed.
End StatusOnly.

Lemma status_only_get : status_only get.
Proof. intros w r w' e [= _ <- _]. apply only_status_refl. Qed.

Lemma status_only_emit ev : status_only (emit ev).
Proof. intros w r w' e [= _ <- _]. apply only_status_refl. Qed.

Lemma status_only_modify s : status_only (modify (set_unit_status s)).
Proof. intros w r w' e [= _ <- _]. apply only_status_set. Qed.

Lemma status_only_for_each {A} (xs : list A) (body : A -> M unit) :
  (forall x, status_only (body x)) -> status_only (for_each xs body).
Proof.
  intros Hb. induction xs as [|x xs IH]; simpl.
  - apply status_only_ret.
  - apply status_only_bind; auto.
Qed.

Create HintDb frame discriminated.
#[global] Hint Resolve status_only_lift status_only_ret status_only_raise status_only_get
  status_only_emit status_only_modify : frame.

Ltac frame :=
  repeat first
    [ progress auto with frame
    | apply status_only_bind; [|intros ?]
    | apply status_only_try
    | apply status_only_for_each; intros ?
    | match goal with
      | |- status_only (if ?b then _ else _) => destruct b
      | |- status_only (match ?x with _ => _ end) => destruct x
      end ].

Section Frames.
Context `{Deps}.

Lemma status_only_pebble env m : status_only m -> status_only (pebble m env).
Proof. intros Hm. unfold pebble. frame. Qed.

Lemma status_only_read_file env path : status_only (_read_file env path).
Proof. unfold _read_file, container_pull. frame. Qed.

Lemma status_only_get_services env : status_only (container_get_services env).
Proof. unfold container_get_services. frame. Qed.

Lemma status_only_ready env : status_only (ready env).
Proof.
  unfold ready, read_pgb_config, read_auth_file, cfg_section, connect_to_database.
  pose proof (status_only_read_file env). frame.
Qed.

Lemma status_only_check_services env pebble_services services :
  status_only (check_services env pebble_services services).
Proof.
  pose proof (status_only_get_services env).
  induction services as [|s l IH]; simpl; frame.
Qed.

Lemma status_only_check_pgb_running env : status_only (check_pgb_running env).
Proof.
  unfold check_pgb_running.
  pose proof (status_only_get_services env). pose proof (status_only_ready env).
  pose proof (status_only_check_services env). frame.
Qed.

Lemma status_only_reload env : status_only (reload_pgbouncer env).
Proof.
  unfold reload_pgbouncer, container_restart, pebble.
  pose proof (status_only_get_services env). pose proof (status_only_check_pgb_running env).
  frame.
Qed.
End Frames.

Section Render.
Context `{Deps}.

(** ** Reading and writing files *)

Lemma set_fs_id w : set_fs (fs w) w = w.
Proof. by destruct w. Qed.

Lemma read_file_run env path w :
  _read_file env path w
  = (match stored_file env w path with
     | Some contents => Ok contents
     | None => Raise FileNotFoundError
     end, w, []).
Proof.
  unfold _read_file, stored_file, container_pull. destruct (can_connect env); simpl; [|done].
  unfold try_except, bind, get. simpl. by destruct (fs w !! path).
Qed.

Lemma read_pgb_config_run env w :
  read_pgb_config env w
  = (match persisted_config env w with
     | Some config => Ok config
     | None => Raise FileNotFoundError
     end, w, []).
Proof.
  unfold read_pgb_config, persisted_config, bind. rewrite read_file_run.
  by destruct (stored_file env w INI_PATH).
Qed.

Lemma try_read_pgb_config_run env w :
  try_except (c <- read_pgb_config env ;; ret (Some c)) FileNotFoundError (ret None) w
  = (Ok (persisted_config env w), w, []).
Proof.
  unfold try_except, bind. rewrite read_pgb_config_run.
  by destruct (persisted_config env w).
Qed.

Lemma push_file_run env path contents perm w :
  push_file env path contents perm w
  = if can_connect env
    then (Ok tt, set_fs (<[path := contents]> (fs w)) w, [EvPush path contents perm])
    else (Ok tt, set_unit_status push_unavailable w, []).
Proof. unfold push_file, container_push, pebble. by destruct (can_connect env). Qed.

(** ** [render_pgb_config] *)

Lemma render_pgb_config_run env config reload w :
  render_pgb_config env config reload w
  = match persisted_config env w with
    | Some current =>
        if bool_decide (config = current)
        then (Ok tt, w, [])
        else push_pgb_config env config reload w
    | None => push_pgb_config env config reload w
    end.
Proof.
  unfold render_pgb_config, try_except, bind at 1 2. rewrite read_pgb_config_run.
  destruct (persisted_config env w) as [current|]; simpl.
  - destruct (bool_decide (config = current)); [done|].
    by destruct (push_pgb_config env config reload w) as [[r w'] e].
  - by destruct (push_pgb_config env config reload w) as [[r w'] e].
Qed.

Lemma instance_loop_connected env config section (l : list Service) w :
  can_connect env = true ->
  config !! PGB = Some section \/ l = [] ->
  for_each l (fun service =>
    s_config <- instance_config service config ;;
    push_file env (ini_path service) (cfg_render s_config) 256%N) w
  = (Ok tt, set_fs (instance_files l section config (fs w)) w, instance_pushes l section config).
Proof.
  intros Hc Hsec. revert w. induction l as [|s l IH]; intros w; simpl.
  - by rewrite set_fs_id.
  - destruct Hsec as [Hsec|]; [|done].
    unfold bind at 1. unfold bind at 1.
    rewrite (instance_config_some _ _ _ _ Hsec), push_file_run, Hc. simpl.
    rewrite IH by auto. reflexivity.
Qed.

Lemma instance_loop_away env config section (l : list Service) w :
  can_connect env = false ->
  config !! PGB = Some section \/ l = [] ->
  for_each l (fun service =>
    s_config <- instance_config service config ;;
    push_file env (ini_path service) (cfg_render s_config) 256%N) w
  = (Ok tt, match l with [] => w | _ => set_unit_status push_unavailable w end, []).
Proof.
  intros Hc Hsec. revert w. induction l as [|s l IH]; intros w; simpl; [done|].
  destruct Hsec as [Hsec|]; [|done].
  unfold bind at 1. unfold bind at 1.
  rewrite (instance_config_some _ _ _ _ Hsec), push_file_run, Hc. simpl.
  rewrite IH by auto. by destruct l.
Qed.

Lemma instance_loop_no_section env config (s : Service) (l : list Service) w :
  config !! PGB = None ->
  for_each (s :: l) (fun service =>
    s_config <- instance_config service config ;;
    push_file env (ini_path service) (cfg_render s_config) 256%N) w
  = (Raise KeyError, w, []).
Proof.
  intros Hsec. simpl. unfold bind at 1. unfold bind at 1.
  by rewrite (instance_config_none _ _ _ Hsec).
Qed.

Lemma update_cfg_run env config w :
  Peers.update_cfg env config w = (Ok tt, published env config w, []).
Proof. unfold Peers.update_cfg, published. by destruct (is_leader env). Qed.

Lemma published_idem env config w :
  published env config (published env config w) = published env config w.
Proof.
  unfold published. destruct (is_leader env); [|done].
  unfold set_peer_app; simpl. by rewrite insert_insert_eq.
Qed.

Lemma published_status env config status w :
  published env config (set_unit_status status w)
  = set_unit_status status (published env config w).
Proof. unfold published. by destruct (is_leader env). Qed.

Lemma persisted_config_published env config w :
  persisted_config env (published env config w) = persisted_config env w.
Proof. unfold persisted_config, stored_file, published. by destruct (is_leader env). Qed.

Lemma persisted_config_status env status w :
  persisted_config env (set_unit_status status w) = persisted_config env w.
Proof. done. Qed.

(** The three ways [push_pgb_config] can go. *)
Lemma push_pgb_config_connected env config section reload w :
  can_connect env = true ->
  config !! PGB = Some section \/ _services env = [] ->
  push_pgb_config env config reload w
  = if reload
    then (let '(r, w3, e3) := reload_pgbouncer env (rendered env config section w) in
          (r, w3, instance_pushes (_services env) section config
                  ++ EvPush INI_PATH (cfg_render config) 256%N :: e3))
    else (Ok tt, rendered env config section w,
          instance_pushes (_services env) section config
          ++ [EvPush INI_PATH (cfg_render config) 256%N]).
Proof.
  intros Hc Hsec.
  unfold push_pgb_config. unfold bind at 1. rewrite update_cfg_run.
  unfold bind at 1. rewrite (instance_loop_connected _ _ section) by done.
  unfold bind at 1. rewrite push_file_run, Hc.
  assert (set_fs (<[INI_PATH:=cfg_render config]>
                    (fs (set_fs (instance_files (_services env) section config
                                   (fs (published env config w)))
                           (published env config w))))
            (set_fs (instance_files (_services env) section config
                       (fs (published env config w))) (published env config w))
          = rendered env config section w) as ->.
  { unfold rendered, published. by destruct (is_leader env). }
  destruct reload.
  - by destruct (reload_pgbouncer env _) as [[r w3] e3].
  - reflexivity.
Qed.

Lemma persisted_config_rendered env config section w :
  can_connect env = true ->
  persisted_config env (rendered env config section w) = Some (cfg_parse (cfg_render config)).
Proof.
  intros Hc. unfold persisted_config, stored_file, rendered. rewrite Hc. simpl.
  by rewrite lookup_insert_eq.
Qed.

Lemma push_pgb_config_away env config section reload w :
  can_connect env = false ->
  config !! PGB = Some section \/ _services env = [] ->
  exists r, push_pgb_config env config reload w
            = (r, set_unit_status push_unavailable (published env config w), []).
Proof.
  intros Hc Hsec. unfold push_pgb_config. unfold bind at 1. rewrite update_cfg_run.
  unfold bind at 1. rewrite (instance_loop_away _ _ section) by done.
  unfold bind at 1. rewrite push_file_run, Hc.
  assert (forall w', set_unit_status push_unavailable
                       match _services env with
                       | [] => w'
                       | _ :: _ => set_unit_status push_unavailable w'
                       end = set_unit_status push_unavailable w') as ->
    by (intros w'; by destruct (_services env)).
  destruct reload.
  - exists (Raise ConnectionError).
    unfold reload_pgbouncer, container_get_services, bind, raise. by rewrite Hc.
  - by exists (Ok tt).
Qed.

Lemma push_pgb_config_no_section env config reload w :
  config !! PGB = None -> _services env <> [] ->
  push_pgb_config env config reload w = (Raise KeyError, published env config w, []).
Proof.
  intros Hsec Hne. unfold push_pgb_config. unfold bind at 1. rewrite update_cfg_run.
  destruct (_services env) as [|s l]; [done|].
  unfold bind at 1. by rewrite instance_loop_no_section.
Qed.

Lemma render_pgb_config_unchanged env config reload w :
  persisted_config env w = Some config ->
  render_pgb_config env config reload w = (Ok tt, w, []).
Proof. intros Hp. rewrite render_pgb_config_run, Hp. by rewrite bool_decide_eq_true_2. Qed.

(** A second [render_pgb_config] of the same config changes nothing. *)
Lemma render_twice env config reload1 reload2 w :
  cfg_parse (cfg_render config) = config ->
  exists r2,
    render_pgb_config env config reload2 (world_of (render_pgb_config env config reload1 w))
    = (r2, world_of (render_pgb_config env config reload1 w), [])
    /\ (can_connect env = true ->
        result (render_pgb_config env config reload1 w) = Ok tt -> r2 = Ok tt).
Proof.
  intros Hrt.
  assert (Hpush : forall w0,
            (persisted_config env w0 <> Some config) ->
            exists r2,
              render_pgb_config env config reload2 (world_of (push_pgb_config env config reload1 w0))
              = (r2, world_of (push_pgb_config env config reload1 w0), [])
              /\ (can_connect env = true ->
                  result (push_pgb_config env config reload1 w0) = Ok tt -> r2 = Ok tt)).
  { intros w0 Hne.
    destruct (config !! PGB) as [section|] eqn:Hsec;
      [|destruct (_services env) as [|s l] eqn:Hl].
    1,2: destruct (can_connect env) eqn:Hc.
    - (* connected, rendered *)
      rewrite (push_pgb_config_connected env config section reload1 w0 Hc (or_introl Hsec)).
      exists (Ok tt). split; [|done]. apply render_pgb_config_unchanged.
      pose proof (persisted_config_rendered env config section w0 Hc) as Hp2.
      rewrite Hrt in Hp2.
      destruct reload1; [|done].
      destruct (reload_pgbouncer env _) as [[r w3] e3] eqn:Er. unfold world_of. simpl.
      apply status_only_reload in Er as [st ->]. by rewrite persisted_config_status.
    - (* container away *)
      destruct (push_pgb_config_away env config section reload1 w0 Hc (or_introl Hsec))
        as (r1 & ->). unfold world_of. simpl.
      destruct (push_pgb_config_away env config section reload2
                  (set_unit_status push_unavailable (published env config w0)) Hc
                  (or_introl Hsec)) as (r2 & Hrun).
      exists r2. split; [|done]. rewrite render_pgb_config_run.
      unfold persisted_config at 1, stored_file. rewrite Hc. simpl. rewrite Hrun.
      by rewrite published_status, published_idem.
    - (* connected, no instances *)
      rewrite (push_pgb_config_connected env config ∅ reload1 w0 Hc (or_intror Hl)).
      exists (Ok tt). split; [|done]. apply render_pgb_config_unchanged.
      pose proof (persisted_config_rendered env config ∅ w0 Hc) as Hp2.
      rewrite Hrt in Hp2.
      destruct reload1; [|done].
      destruct (reload_pgbouncer env _) as [[r w3] e3] eqn:Er. unfold world_of. simpl.
      apply status_only_reload in Er as [st ->]. by rewrite persisted_config_status.
    - destruct (push_pgb_config_away env config ∅ reload1 w0 Hc (or_intror Hl))
        as (r1 & ->). unfold world_of. simpl.
      destruct (push_pgb_config_away env config ∅ reload2
                  (set_unit_status push_unavailable (published env config w0)) Hc
                  (or_intror Hl)) as (r2 & Hrun).
      exists r2. split; [|done]. rewrite render_pgb_config_run.
      unfold persisted_config at 1, stored_file. rewrite Hc. simpl. rewrite Hrun.
      by rewrite published_status, published_idem.
    - (* no section to copy *)
      assert (Hne' : _services env <> []) by (by rewrite Hl).
      rewrite (push_pgb_config_no_section _ _ _ _ Hsec Hne').
      unfold world_of. simpl. exists (Raise KeyError). split; [|done].
      rewrite render_pgb_config_run, persisted_config_published.
      rewrite (push_pgb_config_no_section _ _ _ _ Hsec Hne'), published_idem.
      destruct (persisted_config env w0) as [current|]; [|done].
      rewrite bool_decide_eq_false_2; [done|]. congruence. }
  pose proof (render_pgb_config_run env config reload1 w) as Hrun.
  destruct (persisted_config env w) as [current|] eqn:Hp.
  - destruct (bool_decide (config = current)) eqn:Hb.
    + apply bool_decide_eq_true_1 in Hb as <-. rewrite Hrun. exists (Ok tt).
      unfold world_of. simpl. split; [|done]. by apply render_pgb_config_unchanged.
    + apply bool_decide_eq_false_1 in Hb. rewrite Hrun. apply Hpush.
      rewrite Hp. congruence.
  - rewrite Hrun. apply Hpush. by rewrite Hp.
Qed.

(** C1. Rendering a config that round-trips through its serialization is
    idempotent.  When the canonical file already holds the serialization of
    [config], [render_pgb_config] returns at once: the world is the same (no
    file, no peer entry, no status changed) and nothing is requested from
    the container, so no restart either.  And after any call with [config],
    a second call with it leaves the world as the first one left it and
    emits no event, whatever the two reload flags are; it also returns
    normally when the first call did on a reachable container. *)
Theorem render_pgb_config_idempotent env config :
  cfg_parse (cfg_render config) = config ->
  (forall reload w,
      can_connect env = true ->
      fs w !! INI_PATH = Some (cfg_render config) ->
      render_pgb_config env config reload w = (Ok tt, w, []))
  /\ (forall reload1 reload2 w,
        exists r2,
          render_pgb_config env config reload2
            (world_of (render_pgb_config env config reload1 w))
          = (r2, world_of (render_pgb_config env config reload1 w), [])
          /\ (can_connect env = true ->
              result (render_pgb_config env config reload1 w) = Ok tt -> r2 = Ok tt)).
Proof.
  intros Hrt. split.
  - intros reload w Hc Hfile. apply render_pgb_config_unchanged.
    unfold persisted_config, stored_file. rewrite Hc, Hfile. simpl. by rewrite Hrt.
  - intros reload1 reload2 w. by apply render_twice.
Qed.
End Render.

(** ** Exceptions that cannot escape *)

Section NoRaise.
Context {A B : Type}.

Lemma no_raise_lift_ok ex (a : A) : no_raise ex (lift (Ok a)).
Proof. intros w. discriminate. Qed.

Lemma no_raise_ret ex (a : A) : no_raise ex (ret a).
Proof. intros w. discriminate. Qed.

Lemma no_raise_raise ex ex' : ex' <> ex -> no_raise ex (@raise A ex').
Proof. intros Hne w. unfold result, raise; simpl. congruence. Qed.

Lemma no_raise_bind ex (m : M A) (k : A -> M B) :
  no_raise ex m -> (forall a, no_raise ex (k a)) -> no_raise ex (bind m k).
Proof.
  intros Hm Hk w. unfold bind. specialize (Hm w).
  destruct (m w) as [[[a|ex'] w1] e1].
  - specialize (Hk a w1). by destruct (k a w1) as [[r2 w2] e2].
  - unfold result in *; simpl in *. congruence.
Qed.

Lemma no_raise_try_same ex (m h : M A) : no_raise ex h -> no_raise ex (try_except m ex h).
Proof.
  intros Hh w. unfold try_except.
  destruct (m w) as [[[a|ex'] w1] e1]; [discriminate|].
  destruct (decide (ex' = ex)) as [->|Hne].
  - specialize (Hh w1). by destruct (h w1) as [[r2 w2] e2].
  - unfold result; simpl. congruence.
Qed.

Lemma no_raise_try_other ex ex' (m h : M A) :
  no_raise ex m -> no_raise ex h -> no_raise ex (try_except m ex' h).
Proof.
  intros Hm Hh w. unfold try_except. specialize (Hm w).
  destruct (m w) as [[[a|ex''] w1] e1]; [discriminate|].
  destruct (decide (ex'' = ex')) as [->|Hne]; [|exact Hm].
  specialize (Hh w1). by destruct (h w1) as [[r2 w2] e2].
Qed.
End NoRaise.

Lemma no_raise_get ex : no_raise ex get.
Proof. intros w. discriminate. Qed.

Lemma no_raise_emit ex ev : no_raise ex (emit ev).
Proof. intros w. discriminate. Qed.

Lemma no_raise_modify ex f : no_raise ex (modify f).
Proof. intros w. discriminate. Qed.

Lemma no_raise_for_each {A} ex (xs : list A) (body : A -> M unit) :
  (forall x, no_raise ex (body x)) -> no_raise ex (for_each xs body).
Proof.
  intros Hb. induction xs as [|x xs IH]; simpl.
  - apply no_raise_ret.
  - apply no_raise_bind; auto.
Qed.

Create HintDb no_raise discriminated.
#[global] Hint Resolve no_raise_lift_ok no_raise_ret no_raise_get no_raise_emit
  no_raise_modify : no_raise.

Ltac no_raise :=
  repeat first
    [ progress auto with no_raise
    | apply no_raise_raise; discriminate
    | apply no_raise_bind; [|intros ?]
    | apply no_raise_try_same
    | apply no_raise_for_each; intros ?
    | match goal with
      | |- no_raise _ (if ?b then _ else _) => destruct b
      | |- no_raise _ (match ?x with _ => _ end) => destruct x
      end ].

Section Init.
Context `{Deps}.

(** ** [_init_config] *)




Lemma init_lookup_run env w :
  try_except (c <- read_pgb_config env ;; ret (Some c)) FileNotFoundError Peers.get_cfg w
  = (Ok (known_config env w), w, []).
Proof.
  unfold try_except, bind at 1. rewrite read_pgb_config_run. unfold known_config.
  by destruct (persisted_config env w).
Qed.

Lemma set_dirs_id w : set_dirs (dirs w) w = w.
Proof. by destruct w. Qed.

Lemma ensure_dir_run env path w :
  can_connect env = true ->
  exists d e, ensure_dir env path w = (Ok tt, set_dirs d w, e).
Proof.
  intros Hc. unfold ensure_dir, container_exists, container_make_dir, pebble. rewrite Hc.
  unfold bind, get, ret, lift. simpl.
  destruct (bool_decide (path ∈ dirs w) || bool_decide (is_Some (fs w !! path))).
  - exists (dirs w), []. by rewrite set_dirs_id.
  - by eexists _, _.
Qed.

Lemma dirs_loop_run env (l : list Service) w :
  can_connect env = true ->
  exists d e,
    for_each l (fun service =>
      ensure_dir env (dir service) ;;; ensure_dir env (log_dir service)) w
    = (Ok tt, set_dirs d w, e).
Proof.
  intros Hc. revert w. induction l as [|s l IH]; intros w; simpl.
  - exists (dirs w), []. by rewrite set_dirs_id.
  - destruct (ensure_dir_run env (dir s) w Hc) as (d1 & e1 & H1).
    destruct (ensure_dir_run env (log_dir s) (set_dirs d1 w) Hc) as (d2 & e2 & H2).
    destruct (IH (set_dirs d2 (set_dirs d1 w))) as (d3 & e3 & H3).
    unfold bind at 1. unfold bind at 1. rewrite H1, H2, H3. by eexists _, _.
Qed.


(** ** [ready] *)

Lemma postgres_supplied env :
  supplies_credentials env <-> exists pg, postgres env = Ok (Some pg).
Proof.
  unfold supplies_credentials, postgres, postgres_databag. split.
  - intros (r & d & ep & u & p & Hr & Hd & He & Hu & Hp).
    rewrite Hr. simpl. rewrite Hd, He, Hu, Hp. by eexists.
  - intros [pg Hpg]. destruct (backend_relation env) as [r|] eqn:Er; [|discriminate].
    simpl in Hpg. destruct (remote_data r) as [d|] eqn:Ed; [|discriminate].
    destruct (d !! "endpoints") as [ep|] eqn:E1; [|discriminate].
    destruct (d !! "username") as [u|] eqn:E2; [|discriminate].
    destruct (d !! "password") as [p|] eqn:E3; [|discriminate].
    exists r, d, ep, u, p. repeat split; done.
Qed.

Lemma postgres_lacking env : lacks_credentials env -> postgres env = Ok None.
Proof.
  unfold lacks_credentials, postgres, postgres_databag.
  intros [->|(r & d & Hr & Hd & Hmiss)]; [done|].
  rewrite Hr. simpl. rewrite Hd.
  destruct Hmiss as [->|[->| ->]]; [done| |].
  - by destruct (d !! "endpoints").
  - by destruct (d !! "endpoints"), (d !! "username").
Qed.

Lemma try_read_auth_file_run env w :
  try_except (a <- read_auth_file env ;; ret (Some a)) FileNotFoundError (ret None) w
  = (Ok (stored_file env w AUTH_FILE_PATH), w, []).
Proof.
  unfold try_except, bind, read_auth_file. rewrite read_file_run.
  by destruct (stored_file env w AUTH_FILE_PATH).
Qed.

Lemma ready_run env w :
  ready env w
  = match postgres env with
    | Raise ex => (Raise ex, w, [])
    | Ok None => (Ok false, w, [])
    | Ok (Some _) =>
        match persisted_config env w with
        | None => (Ok false, w, [])
        | Some cfg =>
            match cfg !! "pgbouncer" with
            | None => (Raise KeyError, w, [])
            | Some section =>
                if negb (bool_decide (is_Some (section !! "auth_query")))
                then (Ok false, w, [])
                else
                  match stored_file env w AUTH_FILE_PATH with
                  | None => (Ok false, w, [])
                  | Some _ =>
                      if db_reachable env
                      then (Ok true, w, [EvExecute PGB "SELECT version();"])
                      else (Ok false, w, [])
                  end
            end
        end
    end.
Proof.
  unfold ready. destruct (postgres env) as [[pg|]|ex] eqn:Hpg; [|done..].
  rewrite bind_lift_ok. unfold bind at 1. rewrite try_read_pgb_config_run.
  destruct (persisted_config env w) as [cfg|]; [|done].
  unfold cfg_section. destruct (cfg !! "pgbouncer") as [section|]; [|done].
  rewrite bind_ret.
  destruct (negb (bool_decide (is_Some (section !! "auth_query")))); [done|].
  unfold bind at 1. rewrite try_read_auth_file_run.
  destruct (stored_file env w AUTH_FILE_PATH); [|done].
  unfold try_except, bind, connect_to_database, lift. rewrite Hpg.
  by destruct (db_reachable env).
Qed.

(** C10. [ready] returns [True] only in a world where the relation gives
    endpoint, user name and password, the canonical config file can be read
    and its [pgbouncer] section has an [auth_query] key, and the credential
    file can be read.  Conversely [ready] returns [False], changing nothing,
    when the relation or one of its three entries is missing, when the
    config file cannot be read, when its [pgbouncer] section has no
    [auth_query], and when the credential file cannot be read. *)
Theorem backend_ready_invariant env w :
  (forall w' e,
      ready env w = (Ok true, w', e) ->
      supplies_credentials env
      /\ (exists text section,
            can_connect env = true
            /\ fs w !! INI_PATH = Some text
            /\ cfg_parse text !! "pgbouncer" = Some section
            /\ is_Some (section !! "auth_query"))
      /\ is_Some (fs w !! AUTH_FILE_PATH))
  /\ (lacks_credentials env -> ready env w = (Ok false, w, []))
  /\ (supplies_credentials env ->
      (persisted_config env w = None -> ready env w = (Ok false, w, []))
      /\ (forall cfg section,
            persisted_config env w = Some cfg ->
            cfg !! "pgbouncer" = Some section ->
            section !! "auth_query" = None \/ stored_file env w AUTH_FILE_PATH = None ->
            ready env w = (Ok false, w, []))).
Proof.
  split; [|split].
  - intros w' e. rewrite ready_run.
    destruct (postgres env) as [[pg|]|ex] eqn:Hpg; [|done..].
    unfold persisted_config, stored_file.
    destruct (can_connect env) eqn:Hc; [|done]. simpl.
    destruct (fs w !! INI_PATH) as [text|] eqn:Htext; [|done]. simpl.
    destruct (cfg_parse text !! "pgbouncer") as [section|] eqn:Hsec; [|done].
    destruct (bool_decide (is_Some (section !! "auth_query"))) eqn:Hq; [|done]. simpl.
    apply bool_decide_eq_true_1 in Hq.
    destruct (fs w !! AUTH_FILE_PATH) eqn:Hauth; [|done].
    intros _. split; [|split].
    + apply postgres_supplied. by exists pg.
    + by exists text, section.
    + done.
  - intros Hlack. rewrite ready_run. by rewrite (postgres_lacking _ Hlack).
  - intros Hsup. apply postgres_supplied in Hsup as [pg Hpg]. split.
    + intros Hp. rewrite ready_run. by rewrite Hpg, Hp.
    + intros cfg section Hp Hsec Hmiss. rewrite ready_run. rewrite Hpg, Hp, Hsec.
      destruct Hmiss as [Hq|Hauth].
      * rewrite bool_decide_eq_false_2; [done|]. rewrite Hq. by intros [? ?].
      * rewrite Hauth. by destruct (negb _).
Qed.
End Init.

Section Departed.
Context `{Deps}.

(** ** [_on_relation_departed] *)

Lemma auth_user_of_postgres env pg :
  postgres env = Ok (Some pg) -> auth_user env = Ok (Some (auth_name (pg_user pg))).
Proof.
  unfold postgres, auth_user, postgres_databag.
  destruct (backend_relation env) as [r|]; [|discriminate]. simpl.
  destruct (remote_data r) as [d|]; [|discriminate].
  destruct (d !! "endpoints"); [|discriminate].
  destruct (d !! "username"); [|discriminate].
  destruct (d !! "password"); [|discriminate].
  intros Heq. injection Heq as <-. reflexivity.
Qed.

Lemma connect_run env pg dbname w :
  postgres env = Ok (Some pg) -> db_reachable env = true ->
  connect_to_database env dbname w = (Ok tt, w, []).
Proof. intros Hpg Hdb. unfold connect_to_database. by rewrite Hpg, bind_lift_ok, Hdb. Qed.

Lemma connect_unreachable env pg dbname w :
  postgres env = Ok (Some pg) -> db_reachable env = false ->
  connect_to_database env dbname w = (Raise Psycopg2Error, w, []).
Proof. intros Hpg Hdb. unfold connect_to_database. by rewrite Hpg, bind_lift_ok, Hdb. Qed.

Lemma run_auth_script_run env pg script dbs w :
  postgres env = Ok (Some pg) -> db_reachable env = true ->
  run_auth_script env script dbs w
  = (Ok tt, w,
     (fun dbname => EvExecute dbname (str_replace "auth_user" (auth_name (pg_user pg)) script))
       <$> dbs).
Proof.
  intros Hpg Hdb. unfold run_auth_script. induction dbs as [|db dbs IH]; simpl; [done|].
  assert (Hstep : bind (connect_to_database env db)
                    (fun _ => bind (lift (auth_user env))
                      (fun user => match user with
                                   | Some user =>
                                       emit (EvExecute db (str_replace "auth_user" user script))
                                   | None => raise TypeError
                                   end)) w
                  = (Ok tt, w,
                     [EvExecute db (str_replace "auth_user" (auth_name (pg_user pg)) script)])).
  { rewrite (bind_ok _ _ _ _ _ _ (connect_run env pg db w Hpg Hdb)).
    by rewrite (auth_user_of_postgres _ _ Hpg), bind_lift_ok. }
  rewrite (bind_ok _ _ _ _ _ _ Hstep). by rewrite IH.
Qed.

Lemma run_auth_script_unreachable env pg script db dbs w :
  postgres env = Ok (Some pg) -> db_reachable env = false ->
  run_auth_script env script (db :: dbs) w = (Raise Psycopg2Error, w, []).
Proof.
  intros Hpg Hdb. unfold run_auth_script. simpl.
  assert (Hstep : bind (connect_to_database env db)
                    (fun _ => bind (lift (auth_user env))
                      (fun user => match user with
                                   | Some user =>
                                       emit (EvExecute db (str_replace "auth_user" user script))
                                   | None => raise TypeError
                                   end)) w
                  = (Raise Psycopg2Error, w, [])).
  { by rewrite (bind_raise _ _ _ _ _ _ (connect_unreachable env pg db w Hpg Hdb)). }
  by rewrite (bind_raise _ _ _ _ _ _ Hstep).
Qed.

Lemma delete_user_run env pg w :
  postgres env = Ok (Some pg) -> db_reachable env = true ->
  postgres_delete_user env (auth_user env) w
  = (Ok tt, w, [EvDeleteUser (auth_name (pg_user pg))]).
Proof.
  intros Hpg Hdb. unfold postgres_delete_user.
  by rewrite Hpg, bind_lift_ok, (auth_user_of_postgres _ _ Hpg), bind_lift_ok, Hdb.
Qed.

Lemma revoke_auth_run env pg w :
  postgres env = Ok (Some pg) -> db_reachable env = true ->
  revoke_auth env w
  = (let '(r, w2, e2) := peers_remove_user env (auth_name (pg_user pg)) w in
     (r, w2, revocation (auth_name (pg_user pg)) ++ e2)).
Proof.
  intros Hpg Hdb. unfold revoke_auth, remove_auth_function.
  assert (Htry : try_except (bind (run_auth_script env uninstall_script [PGB; PG])
                               (fun _ => ret true))
                   Psycopg2Error
                   (bind (modify (set_unit_status (BlockedStatus remove_auth_fail_msg)))
                      (fun _ => ret false)) w
                 = (Ok true, w,
                    [EvExecute PGB (str_replace "auth_user" (auth_name (pg_user pg))
                                      uninstall_script);
                     EvExecute PG (str_replace "auth_user" (auth_name (pg_user pg))
                                     uninstall_script)])).
  { unfold try_except.
    by rewrite (bind_ok _ _ _ _ _ _ (run_auth_script_run env pg _ _ w Hpg Hdb)). }
  rewrite (bind_ok _ _ _ _ _ _ Htry).
  rewrite (bind_ok _ _ _ _ _ _ (delete_user_run env pg w Hpg Hdb)).
  rewrite (auth_user_of_postgres _ _ Hpg), bind_lift_ok. simpl.
  by destruct (peers_remove_user env (auth_name (pg_user pg)) w) as [[r w2] e2].
Qed.

Lemma revoke_auth_unreachable env pg w :
  postgres env = Ok (Some pg) -> db_reachable env = false ->
  revoke_auth env w = (Ok tt, set_unit_status (BlockedStatus remove_auth_fail_msg) w, []).
Proof.
  intros Hpg Hdb. unfold revoke_auth, remove_auth_function.
  assert (Htry : try_except (bind (run_auth_script env uninstall_script [PGB; PG])
                               (fun _ => ret true))
                   Psycopg2Error
                   (bind (modify (set_unit_status (BlockedStatus remove_auth_fail_msg)))
                      (fun _ => ret false)) w
                 = (Ok false, set_unit_status (BlockedStatus remove_auth_fail_msg) w, [])).
  { unfold try_except.
    by rewrite (bind_raise _ _ _ _ _ _ (run_auth_script_unreachable env pg _ _ _ w Hpg Hdb)). }
  by rewrite (bind_ok _ _ _ _ _ _ Htry).
Qed.

Lemma scaling_down_spec env :
  scaling_down env = true <-> (0 < planned_units env < peer_units env)%nat.
Proof.
  unfold scaling_down. rewrite andb_true_iff, negb_true_iff, Nat.ltb_lt, Nat.eqb_neq. lia.
Qed.


(** The departure of another unit: what follows the refresh. *)
Lemma departed_other_unit env event w :
  departing_unit event <> charm_unit env ->
  _on_relation_departed env event w
  = bind (refresh_relations env)
         (fun _ => if is_leader env
                      && bool_decide (u_app (departing_unit event) = app_name env)
                      && negb (scaling_down env)
                   then revoke_auth env else ret tt) w.
Proof.
  intros Hne. unfold _on_relation_departed. rewrite decide_False by done.
  destruct (is_leader env); [|done]. simpl.
  destruct (bool_decide (u_app (departing_unit event) = app_name env)); [|done]. simpl.
  by destruct (scaling_down env).
Qed.


Lemma refresh_without_backend env w :
  postgres env = Ok None -> refresh_relations env w = (Ok tt, w, []).
Proof.
  intros Hpg. unfold refresh_relations, update_client_connection_info,
    update_postgres_endpoints. rewrite Hpg. unfold bind, lift, ret. by simpl.
Qed.

(** C3 (as the code has it).  When the departing unit is the local one, the
    hook first refreshes the relations like for every departure; if the
    refresh raises, so does the hook, and otherwise the hook returns with
    the world the refresh left, to which it adds the departing flag of the
    relation in the unit's peer databag, and with the events of the refresh
    only.  Nothing is revoked.  When the relation gives no connection data
    the refresh does nothing, and the flag is all the hook changes. *)
Theorem departed_local_unit env event w :
  departing_unit event = charm_unit env ->
  _on_relation_departed env event w
  = match refresh_relations env w with
    | (Ok _, w1, e1) => (Ok tt, flagged (departed_relation event) w1, e1)
    | (Raise ex, w1, e1) => (Raise ex, w1, e1)
    end
  /\ (postgres env = Ok None ->
      _on_relation_departed env event w = (Ok tt, flagged (departed_relation event) w, [])).
Proof.
  intros Hself.
  assert (Hrun : _on_relation_departed env event w
                 = match refresh_relations env w with
                   | (Ok _, w1, e1) => (Ok tt, flagged (departed_relation event) w1, e1)
                   | (Raise ex, w1, e1) => (Raise ex, w1, e1)
                   end).
  { unfold _on_relation_departed. rewrite decide_True by done.
    unfold bind, Peers.unit_databag_update, modify.
    destruct (refresh_relations env w) as [[[[]|ex] w1] e1]; [|done].
    by rewrite app_nil_r. }
  split; [exact Hrun|].
  intros Hpg. by rewrite Hrun, (refresh_without_backend _ _ Hpg).
Qed.

(** C4 (as the code has it).  When another unit departs, the refresh has
    returned and the backend answers, the hook deletes the auth user exactly
    when the local unit is the leader, the departing unit belongs to the
    local application, the one the charm runs in, and the planned-unit count
    is zero or not below the number of peer units.  A follower, and the
    departure of a unit of any other application, the backend included, end
    the hook right after the refresh. *)
Theorem departed_revocation_gate env event w w1 e1 pg :
  departing_unit event <> charm_unit env ->
  refresh_relations env w = (Ok tt, w1, e1) ->
  postgres env = Ok (Some pg) ->
  db_reachable env = true ->
  exists r w2 e2,
    _on_relation_departed env event w = (r, w2, e1 ++ e2)
    /\ (In (EvDeleteUser (auth_name (pg_user pg))) e2
        <-> is_leader env = true
            /\ u_app (departing_unit event) = app_name env
            /\ ~ (0 < planned_units env < peer_units env)%nat)
    /\ (is_leader env = false \/ u_app (departing_unit event) <> app_name env ->
        r = Ok tt /\ w2 = w1 /\ e2 = []).
Proof.
  intros Hne Hrefresh Hpg Hdb. rewrite (departed_other_unit _ _ _ Hne).
  rewrite (bind_ok _ _ _ _ _ _ Hrefresh).
  destruct (is_leader env) eqn:Hl; simpl.
  - destruct (bool_decide (u_app (departing_unit event) = app_name env)) eqn:Happ; simpl.
    + apply bool_decide_eq_true_1 in Happ.
      destruct (scaling_down env) eqn:Hs; simpl.
      * exists (Ok tt), w1, []. split; [done|]. split; [|by intros [|]].
        apply scaling_down_spec in Hs. split; [done|]. by intros (_ & _ & Hn).
      * rewrite (revoke_auth_run _ pg) by done.
        destruct (peers_remove_user env (auth_name (pg_user pg)) w1) as [[r w2] e2].
        exists r, w2, (revocation (auth_name (pg_user pg)) ++ e2).
        split; [done|]. split; [|by intros [|]].
        split.
        -- intros _. repeat split; [done|]. rewrite <- scaling_down_spec. congruence.
        -- intros _. apply in_or_app. left. simpl. auto.
    + apply bool_decide_eq_false_1 in Happ.
      exists (Ok tt), w1, []. split; [done|]. split; [|done].
      split; [done|]. by intros (_ & ? & _).
  - exists (Ok tt), w1, []. split; [done|]. split; [|done].
    split; [done|]. by intros (? & _).
Qed.
End Departed.

Lemma bind_assoc {A B C} (m : M A) (k : A -> M B) (k' : B -> M C) w :
  bind (bind m k) k' w = bind m (fun a => bind (k a) k') w.
Proof.
  unfold bind. destruct (m w) as [[[a|e] w1] e1]; [|done].
  destruct (k a w1) as [[[b|e] w2] e2]; [|done].
  destruct (k' b w2) as [[r w3] e3]. by rewrite app_assoc.
Qed.

Section Broken.
Context `{Deps}.

(** ** [_on_relation_broken] *)

Lemma set_plan_id w : set_plan (plan w) w = w.
Proof. by destruct w. Qed.





Lemma instance_files_keeps (l : list Service) section config files path :
  is_Some (files !! path) -> is_Some (instance_files l section config files !! path).
Proof.
  unfold instance_files. revert files. induction l as [|s l IH]; intros files Hf; simpl.
  - done.
  - apply IH. destruct (decide (ini_path s = path)) as [->|Hne].
    + rewrite lookup_insert_eq. by eexists.
    + by rewrite lookup_insert_ne.
Qed.


Lemma rendered_keeps env config section w path :
  is_Some (fs w !! path) -> is_Some (fs (rendered env config section w) !! path).
Proof.
  intros Hf. unfold rendered. simpl. destruct (decide (INI_PATH = path)) as [->|Hne].
  - rewrite lookup_insert_eq. by eexists.
  - rewrite lookup_insert_ne by done. by apply instance_files_keeps.
Qed.

Lemma rendered_peer_app env config section w :
  peer_app (rendered env config section w) = peer_app (published env config w).
Proof. done. Qed.


End Broken.

Section Helpers.
Context `{Deps}.

(** ** Strings *)

Lemma occurs_app c s t : occurs c (s +:+ t) = occurs c s || occurs c t.
Proof. induction s as [|a s IH]; simpl; [done|]. by rewrite IH, orb_assoc. Qed.

Lemma split_at_nonempty sep s : split_at sep s <> [].
Proof.
  destruct s as [|c s]; simpl; [done|].
  destruct (decide (c = sep)); [done|]. by destruct (split_at sep s).
Qed.

Lemma split_at_clean sep s : occurs sep s = false -> split_at sep s = [s].
Proof.
  induction s as [|c s IH]; simpl; [done|].
  intros Hc. apply orb_false_iff in Hc as [Hc Hs].
  apply bool_decide_eq_false_1 in Hc. rewrite decide_False by done.
  by rewrite IH.
Qed.

Lemma split_at_app sep s t :
  occurs sep s = false -> split_at sep (s +:+ String sep t) = s :: split_at sep t.
Proof.
  induction s as [|c s IH]; simpl.
  - intros _. by rewrite decide_True.
  - intros Hc. apply orb_false_iff in Hc as [Hc Hs].
    apply bool_decide_eq_false_1 in Hc. rewrite decide_False by done.
    by rewrite IH.
Qed.

Lemma split_join sep parts :
  parts <> [] -> Forall (fun part => occurs sep part = false) parts ->
  split_at sep (join_with sep parts) = parts.
Proof.
  induction parts as [|p parts IH]; [done|]. intros _ Hall.
  apply Forall_cons in Hall as [Hp Hall]. destruct parts as [|q parts].
  - simpl. by apply split_at_clean.
  - change (join_with sep (p :: q :: parts)) with (p +:+ String sep (join_with sep (q :: parts))).
    rewrite split_at_app by done. by rewrite IH.
Qed.

Lemma split_at_parts sep s part : part ∈ split_at sep s -> occurs sep part = false.
Proof.
  revert part. induction s as [|c s IH]; simpl; intros part Hin.
  - apply list_elem_of_singleton in Hin as ->. done.
  - destruct (decide (c = sep)) as [->|Hne].
    + apply elem_of_cons in Hin as [->|Hin]; [done|by apply IH].
    + destruct (split_at sep s) as [|p ps] eqn:Hs.
      * apply list_elem_of_singleton in Hin as ->. simpl.
        by rewrite bool_decide_eq_false_2.
      * apply elem_of_cons in Hin as [->|Hin].
        -- simpl. rewrite bool_decide_eq_false_2 by done. apply IH. by left.
        -- apply IH. by right.
Qed.

Lemma replace_hyphen_clean s : occurs hyphen (str_replace "-" "_" s) = false.
Proof.
  unfold str_replace. induction s as [|c s IH]; [done|].
  simpl. destruct (decide (Ascii.Ascii true false true true false true false false = c))
    as [<-|Hne]; simpl.
  - exact IH.
  - rewrite IH, orb_false_r. apply bool_decide_eq_false_2. intros ->. by apply Hne.
Qed.

Lemma replace_hyphen_id s : occurs hyphen s = false -> str_replace "-" "_" s = s.
Proof.
  unfold str_replace. induction s as [|c s IH]; [done|].
  simpl. intros Hc. apply orb_false_iff in Hc as [Hc Hs].
  apply bool_decide_eq_false_1 in Hc.
  destruct (decide (Ascii.Ascii true false true true false true false false = c))
    as [<-|Hne]; [by destruct Hc|].
  by rewrite IH.
Qed.

(** X1. The names of the auth user and of the stats user never contain a
    hyphen, whatever the user name of the relation and the name of the
    application are; a user name without hyphen is kept as it is behind the
    prefix [pgbouncer_auth_].  The auth user of a unit is such a name. *)
Theorem auth_names_without_hyphen env :
  (forall username,
      occurs hyphen (auth_name username) = false
      /\ (occurs hyphen username = false ->
          auth_name username = "pgbouncer_auth_" +:+ username))
  /\ occurs hyphen (stats_user env) = false
  /\ (forall user, auth_user env = Ok (Some user) -> occurs hyphen user = false).
Proof.
  split; [|split].
  - intros username. split; [apply replace_hyphen_clean|].
    intros Hclean. unfold auth_name. apply replace_hyphen_id.
    by rewrite occurs_app, Hclean.
  - apply replace_hyphen_clean.
  - intros user. unfold auth_user. destruct (postgres_databag env) as [d|]; [|done].
    destruct (d !! "username"); [|done]. intros [= <-]. apply replace_hyphen_clean.
Qed.

(** X2. The read-only endpoints are the comma-separated entries of the
    databag of the backend: a non-empty list of names without comma that was
    joined with commas is read back as the set of these names.  A missing or
    empty entry gives the empty set, no endpoint that is returned contains a
    comma, and without a databag the call fails with [AttributeError]. *)
Theorem read_only_endpoints_round_trip env :
  (forall databag hosts,
      postgres_databag env = Some databag ->
      hosts <> [] ->
      Forall (fun host => occurs comma host = false) hosts ->
      join_with comma hosts <> EmptyString ->
      databag !! "read-only-endpoints" = Some (join_with comma hosts) ->
      get_read_only_endpoints env = Ok (list_to_set hosts))
  /\ (forall databag,
        postgres_databag env = Some databag ->
        databag !! "read-only-endpoints" = None
        \/ databag !! "read-only-endpoints" = Some EmptyString ->
        get_read_only_endpoints env = Ok ∅)
  /\ (forall endpoints host,
        get_read_only_endpoints env = Ok endpoints -> host ∈ endpoints ->
        occurs comma host = false)
  /\ (postgres_databag env = None -> get_read_only_endpoints env = Raise AttributeError).
Proof.
  unfold get_read_only_endpoints. split; [|split; [|split]].
  - intros databag hosts -> Hne Hclean Hjoin Hentry. rewrite Hentry.
    assert (truthy (Some (join_with comma hosts)) = true) as ->
      by (by destruct (join_with comma hosts)).
    simpl. by rewrite split_join.
  - intros databag -> [-> | ->]; done.
  - intros endpoints host. destruct (postgres_databag env) as [databag|]; [|done].
    destruct (negb (truthy (databag !! "read-only-endpoints"))).
    + intros [= <-]. set_solver.
    + intros [= <-] Hin. apply elem_of_list_to_set in Hin. by eapply split_at_parts.
  - by intros ->.
Qed.

(** X3. The DNS name of a unit is made of the application name of the
    charm and of what follows the slash of the unit name; a unit name
    without a slash has no second component, and the call fails. *)
Theorem hostname_by_unit env :
  (forall app number,
      occurs slash app = false -> occurs slash number = false ->
      get_hostname_by_unit env (app +:+ "/" +:+ number)
      = Some (app_name env +:+ "-" +:+ number +:+ "." +:+ app_name env +:+ "-endpoints"))
  /\ (forall unit_name,
        occurs slash unit_name = false -> get_hostname_by_unit env unit_name = None).
Proof.
  unfold get_hostname_by_unit. split.
  - intros app number Happ Hnumber.
    change (app +:+ "/" +:+ number) with (app +:+ String slash number).
    rewrite split_at_app by done. by rewrite split_at_clean.
  - intros unit_name Hclean. by rewrite split_at_clean.
Qed.
End Helpers.

Section Files.
Context `{Deps}.

(** ** File management *)

(** X4. On a reachable container a file that was pushed is read back as it
    was pushed, the files under other paths read as before and the unit
    status stays.  On an unreachable container nothing is pushed: the unit
    goes to a waiting status, and reading the file fails with
    [FileNotFoundError]. *)
Theorem push_file_then_read env path contents perms w :
  (can_connect env = true ->
   push_file env path contents perms w
   = (Ok tt, set_fs (<[path := contents]> (fs w)) w, [EvPush path contents perms])
   /\ result (_read_file env path (world_of (push_file env path contents perms w)))
      = Ok contents
   /\ (forall other, other <> path ->
         result (_read_file env other (world_of (push_file env path contents perms w)))
         = result (_read_file env other w)))
  /\ (can_connect env = false ->
      push_file env path contents perms w = (Ok tt, set_unit_status push_unavailable w, [])
      /\ result (_read_file env path (world_of (push_file env path contents perms w)))
         = Raise FileNotFoundError).
Proof.
  split; intros Hc; rewrite push_file_run, Hc.
  - split; [done|]. unfold world_of. simpl. split.
    + rewrite read_file_run. unfold stored_file. rewrite Hc. simpl.
      by rewrite lookup_insert_eq.
    + intros other Hne. rewrite !read_file_run. unfold stored_file. rewrite Hc. simpl.
      by rewrite lookup_insert_ne.
  - split; [done|]. rewrite read_file_run. unfold stored_file. by rewrite Hc.
Qed.

(** X5. Reading a file changes nothing and asks nothing of the container
    but the file.  It returns the contents stored under the path when the
    container is reachable and has the file, and in every other case it
    fails with [FileNotFoundError], never with the [PathError] or the
    [ConnectionError] of the container. *)
Theorem read_file_outcomes env path w :
  exists r,
    _read_file env path w = (r, w, [])
    /\ ((r = Raise FileNotFoundError /\ (can_connect env = false \/ fs w !! path = None))
        \/ (exists contents,
              r = Ok contents /\ can_connect env = true /\ fs w !! path = Some contents)).
Proof.
  rewrite read_file_run. unfold stored_file.
  destruct (can_connect env); [destruct (fs w !! path) as [contents|] eqn:Hf|].
  - eexists. split; [done|]. right. by exists contents.
  - eexists. split; [done|]. left. auto.
  - eexists. split; [done|]. left. auto.
Qed.

End Files.

Section Supervision.
Context `{Deps}.

(** ** [check_pgb_running] and [reload_pgbouncer] *)

Lemma get_services_run env w :
  can_connect env = true -> container_get_services env w = (Ok (plan w), w, []).
Proof. intros Hc. unfold container_get_services. by rewrite Hc, bind_get. Qed.

Lemma ready_pure env w r w' e : ready env w = (r, w', e) -> w' = w.
Proof.
  rewrite ready_run.
  repeat match goal with
         | |- context [match ?x with _ => _ end] => destruct x
         end; by intros [= _ <- _].
Qed.

Lemma check_services_true env l w w' e :
  can_connect env = true ->
  check_services env (plan w) l w = (Ok true, w', e) ->
  w' = w /\ e = [] /\ forall service, service ∈ l -> plan w !! service = Some ACTIVE.
Proof.
  intros Hc. induction l as [|s l IH]; simpl.
  - intros [= <- <-]. split; [done|]. split; [done|]. intros service Hin.
    by apply elem_of_nil in Hin.
  - destruct (plan w !! s) as [st|] eqn:Hs; [|discriminate].
    rewrite (bind_ok _ _ _ _ _ _ (get_services_run env w Hc)). rewrite Hs.
    destruct (decide (st = ACTIVE)) as [->|Hne].
    + destruct (check_services env (plan w) l w) as [[r1 w1] e1]. simpl.
      intros [= -> -> ->]. destruct IH as (-> & -> & Hall); [done|].
      split; [done|]. split; [done|]. intros service Hin.
      apply elem_of_cons in Hin as [->|Hin]; [done|by apply Hall].
    + rewrite bind_modify. discriminate.
Qed.

Lemma check_services_false env l w w' e :
  can_connect env = true ->
  check_services env (plan w) l w = (Ok false, w', e) ->
  e = [] /\ exists service st,
    service ∈ l /\ plan w !! service = Some st /\ st <> ACTIVE
    /\ w' = set_unit_status
              (BlockedStatus ("PgBouncer service " +:+ service +:+
                              " not running: service status = " +:+ service_status_str st)) w.
Proof.
  intros Hc. induction l as [|s l IH]; simpl.
  - discriminate.
  - destruct (plan w !! s) as [st|] eqn:Hs; [|discriminate].
    rewrite (bind_ok _ _ _ _ _ _ (get_services_run env w Hc)). rewrite Hs.
    destruct (decide (st = ACTIVE)) as [->|Hne].
    + destruct (check_services env (plan w) l w) as [[r1 w1] e1]. simpl.
      intros [= -> -> ->]. destruct IH as (-> & service & st & Hin & Hst & Hne & ->); [done|].
      split; [done|]. exists service, st. split; [by right|done].
    + rewrite bind_modify. intros [= <- <-]. split; [done|].
      exists s, st. split; [by left|done].
Qed.

Lemma check_services_active env l w :
  can_connect env = true ->
  (forall service, service ∈ l -> plan w !! service = Some ACTIVE) ->
  check_services env (plan w) l w = (Ok true, w, []).
Proof.
  intros Hc. induction l as [|s l IH]; simpl; intros Hall; [done|].
  rewrite (Hall s) by (by left).
  rewrite (bind_ok _ _ _ _ _ _ (get_services_run env w Hc)).
  rewrite (Hall s) by (by left). rewrite decide_True by done.
  rewrite IH; [done|]. intros service Hin. apply Hall. by right.
Qed.

Lemma check_services_missing env l w :
  can_connect env = true ->
  (exists service, service ∈ l /\ plan w !! service = None) ->
  (forall service st, service ∈ l -> plan w !! service = Some st -> st = ACTIVE) ->
  check_services env (plan w) l w = (Raise ConnectionError, w, []).
Proof.
  intros Hc. induction l as [|s l IH]; simpl; intros (missing & Hin & Hmiss) Hact.
  - by apply elem_of_nil in Hin.
  - destruct (plan w !! s) as [st|] eqn:Hs; [|done].
    rewrite (bind_ok _ _ _ _ _ _ (get_services_run env w Hc)). rewrite Hs.
    rewrite (Hact s st) by (done || by left). rewrite decide_True by done.
    rewrite IH; [done| |].
    + apply elem_of_cons in Hin as [->|Hin]; [congruence|]. by exists missing.
    + intros service st' Hin'. apply Hact. by right.
Qed.

(** [check_pgb_running] on a reachable container, once [ready] has
    answered. *)
Lemma check_pgb_running_connected env w :
  can_connect env = true ->
  check_pgb_running env w
  = match ready env w with
    | (Ok backend_ready, _, e1) =>
        let '(r, w2, e2) :=
          check_services env (plan w) (required_services env backend_ready) w in
        (r, w2, e1 ++ e2)
    | (Raise ex, _, e1) => (Raise ex, w, e1)
    end.
Proof.
  intros Hc. unfold check_pgb_running. rewrite Hc. simpl.
  rewrite (bind_ok _ _ _ _ _ _ (get_services_run env w Hc)).
  destruct (ready env w) as [[[b|ex] w1] e1] eqn:Hready;
    pose proof (ready_pure _ _ _ _ _ Hready) as ->.
  - rewrite (bind_ok _ _ _ _ _ _ Hready). unfold required_services.
    by destruct (check_services env (plan w) _ w) as [[r w2] e2].
  - by rewrite (bind_raise _ _ _ _ _ _ Hready).
Qed.

Lemma check_pgb_running_true env w w' e :
  check_pgb_running env w = (Ok true, w', e) ->
  w' = w /\ can_connect env = true
  /\ forall service, service ∈ _services env -> plan w !! name service = Some ACTIVE.
Proof.
  intros Hrun. destruct (can_connect env) eqn:Hc.
  - rewrite (check_pgb_running_connected _ _ Hc) in Hrun.
    destruct (ready env w) as [[[b|ex] w1] e1]; [|discriminate Hrun].
    destruct (check_services env (plan w) (required_services env b) w)
      as [[r2 w2] e2] eqn:Hloop.
    injection Hrun as -> <- <-.
    apply (check_services_true _ _ _ _ _ Hc) in Hloop as (-> & _ & Hall).
    split; [done|]. split; [done|]. intros service Hin. apply Hall.
    unfold required_services. apply elem_of_app. left. by apply list_elem_of_fmap_2.
  - unfold check_pgb_running in Hrun. rewrite Hc in Hrun. simpl in Hrun.
    rewrite bind_modify in Hrun. discriminate Hrun.
Qed.

(** X7. What a verdict of [check_pgb_running] tells.  Whatever it answers,
    nothing but the unit status has changed.  If it returns [True], the
    world is as before, the container is reachable and every pooler
    instance is in the plan and active.  If it returns [False], the unit is
    left in a blocked status. *)
Theorem check_pgb_running_verdict env w r w' e :
  check_pgb_running env w = (r, w', e) ->
  only_status w w'
  /\ (r = Ok true ->
      w' = w /\ can_connect env = true
      /\ forall service, service ∈ _services env -> plan w !! name service = Some ACTIVE)
  /\ (r = Ok false -> _has_blocked_status w' = true).
Proof.
  intros Hrun. split; [by eapply status_only_check_pgb_running|].
  destruct (can_connect env) eqn:Hc.
  - rewrite (check_pgb_running_connected _ _ Hc) in Hrun.
    destruct (ready env w) as [[[b|ex] w1] e1].
    + destruct (check_services env (plan w) (required_services env b) w)
        as [[r2 w2] e2] eqn:Hloop.
      injection Hrun as <- <- <-. split.
      * intros ->. apply (check_services_true _ _ _ _ _ Hc) in Hloop as (-> & _ & Hall).
        split; [done|]. split; [done|]. intros service Hin. apply Hall.
        unfold required_services. apply elem_of_app. left. by apply list_elem_of_fmap_2.
      * intros ->. apply (check_services_false _ _ _ _ _ Hc) in Hloop
          as (_ & service & st & _ & _ & _ & ->). done.
    + injection Hrun as <- <- <-. split; discriminate.
  - unfold check_pgb_running in Hrun. rewrite Hc in Hrun. simpl in Hrun.
    rewrite bind_modify in Hrun. injection Hrun as <- <- <-. split; [discriminate|done].
Qed.

(** X8. When [check_pgb_running] succeeds and when it fails, on a
    reachable container where [ready] has answered [backend_ready]: if all
    the services it looks at (the pooler instances, and the exporter when
    the backend is ready) are active, it returns [True] and leaves the world
    as it is; if one of them is missing from the plan and those that are in
    the plan are active, it fails with [ConnectionError]; and on an
    unreachable container it returns [False] with a blocked status. *)
Theorem check_pgb_running_complete env w :
  (forall backend_ready e1,
      can_connect env = true ->
      ready env w = (Ok backend_ready, w, e1) ->
      ((forall service, service ∈ required_services env backend_ready ->
          plan w !! service = Some ACTIVE) ->
       check_pgb_running env w = (Ok true, w, e1))
      /\ ((exists service,
             service ∈ required_services env backend_ready /\ plan w !! service = None) ->
          (forall service st,
             service ∈ required_services env backend_ready ->
             plan w !! service = Some st -> st = ACTIVE) ->
          check_pgb_running env w = (Raise ConnectionError, w, e1)))
  /\ (can_connect env = false ->
      check_pgb_running env w
      = (Ok false,
         set_unit_status (BlockedStatus "PgBouncer container currently unavailable") w, [])).
Proof.
  split.
  - intros b e1 Hc Hready. rewrite (check_pgb_running_connected _ _ Hc), Hready. split.
    + intros Hall. rewrite (check_services_active _ _ _ Hc Hall). by rewrite app_nil_r.
    + intros Hmiss Hact. rewrite (check_services_missing _ _ _ Hc Hmiss Hact).
      by rewrite app_nil_r.
  - intros Hc. unfold check_pgb_running. rewrite Hc. simpl. by rewrite bind_modify.
Qed.



End Supervision.

Section Status.
Context `{Deps}.

(** ** [update_status] *)

Lemma postgres_raises env ex : postgres env = Raise ex -> ex = AttributeError.
Proof.
  unfold postgres. destruct (backend_relation env); [|done].
  destruct (postgres_databag env) as [d|]; [|by intros [= <-]].
  by destruct (d !! "endpoints"), (d !! "username"), (d !! "password").
Qed.

Lemma ready_raises env w ex w' e :
  ready env w = (Raise ex, w', e) -> ex = AttributeError \/ ex = KeyError.
Proof.
  rewrite ready_run. destruct (postgres env) as [[pg|]|ex'] eqn:Hpg.
  - repeat match goal with
           | |- context [match ?x with _ => _ end] => destruct x
           end; intros [= <-]; auto.
  - discriminate.
  - intros [= <- _ _]. left. by eapply postgres_raises.
Qed.

(** [update_status] once the relation gives its connection data. *)
Lemma update_status_related env pg w :
  postgres env = Ok (Some pg) ->
  update_status env w
  = match ready env w with
    | (Ok false, _, e1) =>
        (Ok tt, set_unit_status (BlockedStatus "backend database relation not ready") w, e1)
    | (Ok true, _, e1) =>
        if decide (status_message (unit_status w) = EXTENSIONS_BLOCKING_MESSAGE)
        then (Ok tt, w, e1)
        else
          match check_pgb_running env w with
          | (Ok true, w2, e2) => (Ok tt, set_unit_status (ActiveStatus EmptyString) w2, e1 ++ e2)
          | (Ok false, w2, e2) => (Ok tt, w2, e1 ++ e2)
          | (Raise ex, w2, e2) =>
              if decide (ex = ConnectionError)
              then (Ok tt, set_unit_status (WaitingStatus "pgbouncer not running") w2, e1 ++ e2)
              else (Raise ex, w2, e1 ++ e2)
          end
    | (Raise ex, _, e1) => (Raise ex, w, e1)
    end.
Proof.
  intros Hpg. unfold update_status. rewrite Hpg, bind_lift_ok.
  destruct (ready env w) as [[[[]|ex] w1] e1] eqn:Hready;
    pose proof (ready_pure _ _ _ _ _ Hready) as ->.
  - rewrite (bind_ok _ _ _ _ _ _ Hready). simpl. rewrite bind_get.
    destruct (decide (status_message (unit_status w) = EXTENSIONS_BLOCKING_MESSAGE)).
    + unfold ret, lift. by rewrite app_nil_r.
    + unfold try_except.
      destruct (check_pgb_running env w) as [[[[]|ex] w2] e2] eqn:Hcheck.
      * rewrite (bind_ok _ _ _ _ _ _ Hcheck). unfold modify. by rewrite app_nil_r.
      * rewrite (bind_ok _ _ _ _ _ _ Hcheck). unfold ret, lift. by rewrite app_nil_r.
      * rewrite (bind_raise _ _ _ _ _ _ Hcheck).
        destruct (decide (ex = ConnectionError)); [|done].
        unfold modify. by rewrite app_nil_r.
  - rewrite (bind_ok _ _ _ _ _ _ Hready). simpl. unfold modify. by rewrite app_nil_r.
  - by rewrite (bind_raise _ _ _ _ _ _ Hready).
Qed.

Lemma status_only_update_status env : status_only (update_status env).
Proof.
  unfold update_status.
  pose proof (status_only_ready env). pose proof (status_only_check_pgb_running env).
  frame.
Qed.

(** X10. The health check [update_status] changes nothing but the unit
    status and never ends with the [ConnectionError] of the supervisor.
    Without connection data of the backend the unit is blocked, waiting for
    the relation; with them, a backend that is not ready blocks the unit; a
    unit that is ready but blocked on the extensions message is left alone;
    and otherwise the unit is active when the pooler runs, and waiting when
    the supervisor does not know the services yet. *)
Theorem update_status_outcomes env w :
  (forall r w' e, update_status env w = (r, w', e) -> only_status w w')
  /\ result (update_status env w) <> Raise ConnectionError
  /\ (postgres env = Ok None ->
      update_status env w
      = (Ok tt,
         set_unit_status
           (BlockedStatus "waiting for backend database relation to initialise") w, []))
  /\ (forall pg e1,
        postgres env = Ok (Some pg) ->
        (ready env w = (Ok false, w, e1) ->
         update_status env w
         = (Ok tt, set_unit_status (BlockedStatus "backend database relation not ready") w, e1))
        /\ (ready env w = (Ok true, w, e1) ->
            (status_message (unit_status w) = EXTENSIONS_BLOCKING_MESSAGE ->
             update_status env w = (Ok tt, w, e1))
            /\ (status_message (unit_status w) <> EXTENSIONS_BLOCKING_MESSAGE ->
                forall w2 e2,
                  (check_pgb_running env w = (Ok true, w2, e2) ->
                   update_status env w
                   = (Ok tt, set_unit_status (ActiveStatus EmptyString) w, e1 ++ e2))
                  /\ (check_pgb_running env w = (Raise ConnectionError, w2, e2) ->
                      update_status env w
                      = (Ok tt, set_unit_status (WaitingStatus "pgbouncer not running") w2,
                         e1 ++ e2))))).
Proof.
  split; [|split; [|split]].
  - intros r w' e Hrun. by eapply status_only_update_status.
  - destruct (postgres env) as [[pg|]|ex] eqn:Hpg.
    + rewrite (update_status_related _ _ _ Hpg).
      destruct (ready env w) as [[[[]|ex] w1] e1] eqn:Hready; [|done|].
      * destruct (decide _); [done|].
        destruct (check_pgb_running env w) as [[[[]|ex] w2] e2]; [done|done|].
        destruct (decide (ex = ConnectionError)); [done|]. unfold result; simpl. congruence.
      * apply ready_raises in Hready. unfold result; simpl.
        destruct Hready as [-> | ->]; discriminate.
    + unfold update_status. by rewrite Hpg, bind_lift_ok.
    + unfold update_status. rewrite Hpg, bind_lift_raise. unfold result; simpl.
      apply postgres_raises in Hpg as ->. discriminate.
  - intros Hpg. unfold update_status. by rewrite Hpg, bind_lift_ok.
  - intros pg e1 Hpg. rewrite (update_status_related _ _ _ Hpg). split.
    + by intros ->.
    + intros ->. split.
      * intros Hmsg. by rewrite decide_True.
      * intros Hmsg w2 e2. rewrite decide_False by done. split.
        -- intros Hcheck. rewrite Hcheck.
           by apply check_pgb_running_true in Hcheck as (-> & _).
        -- intros ->. by rewrite decide_True.
Qed.

(** ** [_on_relation_changed] and [_on_endpoints_changed] *)

Lemma try_check_run env w :
  try_except (r <- check_pgb_running env ;; ret (Some r)) ConnectionError (ret None) w
  = match check_pgb_running env w with
    | (Ok running, w1, e1) => (Ok (Some running), w1, e1)
    | (Raise ex, w1, e1) =>
        if decide (ex = ConnectionError) then (Ok None, w1, e1) else (Raise ex, w1, e1)
    end.
Proof.
  unfold try_except, bind, ret, lift.
  destruct (check_pgb_running env w) as [[[running|ex] w1] e1]; simpl.
  - by rewrite app_nil_r.
  - destruct (decide (ex = ConnectionError)); [|done]. by rewrite app_nil_r.
Qed.

(** X11. The relation-changed hook of the backend relation acts only
    while the pooler runs.  When [check_pgb_running] answers [False] or
    fails with [ConnectionError], the hook returns without an error, with
    what the check has left: nothing but the unit status has changed and
    nothing is restarted.  When the check answers [True], the hook goes on
    as the endpoints-changed hook does. *)
Theorem relation_changed_waits_for_pooler env w r w1 e1 :
  check_pgb_running env w = (r, w1, e1) ->
  (r = Ok false \/ r = Raise ConnectionError ->
   _on_relation_changed env w = (Ok tt, w1, e1) /\ only_status w w1)
  /\ (r = Ok true ->
      _on_relation_changed env w
      = (let '(r2, w2, e2) := _on_endpoints_changed env w in (r2, w2, e1 ++ e2))).
Proof.
  intros Hcheck. pose proof (try_check_run env w) as Htry. rewrite Hcheck in Htry. split.
  - intros Hr. split; [|by eapply status_only_check_pgb_running].
    unfold _on_relation_changed. destruct Hr as [-> | ->].
    + rewrite (bind_ok _ _ _ _ _ _ Htry). unfold ret, lift. by rewrite app_nil_r.
    + rewrite decide_True in Htry by done.
      rewrite (bind_ok _ _ _ _ _ _ Htry). unfold ret, lift. by rewrite app_nil_r.
  - intros ->. unfold _on_relation_changed. rewrite (bind_ok _ _ _ _ _ _ Htry).
    by apply check_pgb_running_true in Hcheck as (-> & _).
Qed.

(** X12. Without connection data of the backend, the two updates of the
    relations, [update_client_connection_info] and
    [update_postgres_endpoints], do nothing at all, and so does the
    endpoints-changed hook.  On a follower the endpoints are never updated
    and the pooler is never reloaded: the endpoints-changed hook is the
    update of the client connection information. *)
Theorem relation_updates_skipped env w :
  (postgres env = Ok None ->
   (forall port, update_client_connection_info env port w = (Ok tt, w, []))
   /\ (forall reload, update_postgres_endpoints env reload w = (Ok tt, w, []))
   /\ _on_endpoints_changed env w = (Ok tt, w, []))
  /\ (is_leader env = false ->
      forall pg,
        postgres env = Ok (Some pg) ->
        (forall reload, update_postgres_endpoints env reload w = (Ok tt, w, []))
        /\ _on_endpoints_changed env w = update_client_connection_info env None w).
Proof.
  split.
  - intros Hpg.
    assert (Hc : forall port, update_client_connection_info env port w = (Ok tt, w, [])).
    { intros port. unfold update_client_connection_info. by rewrite Hpg, bind_lift_ok. }
    assert (He : forall reload, update_postgres_endpoints env reload w = (Ok tt, w, [])).
    { intros reload. unfold update_postgres_endpoints. by rewrite Hpg, bind_lift_ok. }
    split; [exact Hc|]. split; [exact He|].
    unfold _on_endpoints_changed. rewrite (bind_ok _ _ _ _ _ _ (He true)).
    by rewrite (Hc None).
  - intros Hl pg Hpg.
    assert (He : forall reload, update_postgres_endpoints env reload w = (Ok tt, w, [])).
    { intros reload. unfold update_postgres_endpoints. by rewrite Hpg, bind_lift_ok, Hl. }
    split; [exact He|].
    unfold _on_endpoints_changed. rewrite (bind_ok _ _ _ _ _ _ (He true)).
    by destruct (update_client_connection_info env None w) as [[r2 w2] e2].
Qed.
End Status.

Section PebbleReady.
Context `{Deps}.

(** ** [_on_pgbouncer_pebble_ready] *)

(** X13. While a certificates relation exists and the three TLS files are
    not all there, the pebble-ready hook stops after the config is
    initialised: the unit waits for certificates, the event is deferred,
    and no layer is added and nothing is replanned. *)
Theorem pebble_ready_waits_for_certificates env w w1 e1 :
  _init_config env w = (Ok true, w1, e1) ->
  certificates_relations env <> [] ->
  tls_enabled env = false ->
  _on_pgbouncer_pebble_ready env w
  = (Ok tt, set_unit_status (WaitingStatus "Waiting for certificates") w1, e1 ++ [EvDefer]).
Proof.
  intros Hinit Hcert Htls. unfold _on_pgbouncer_pebble_ready.
  rewrite (bind_ok _ _ _ _ _ _ Hinit). simpl.
  rewrite bool_decide_eq_false_2 by done. rewrite Htls. simpl.
  reflexivity.
Qed.

Lemma add_layer_returns env layer w w' e :
  container_add_layer env layer w = (Ok tt, w', e) -> e = [EvAddLayer layer].
Proof.
  unfold container_add_layer, pebble. destruct (can_connect env); [|discriminate].
  by intros [= _ <-].
Qed.

Lemma replan_returns env w w' e :
  container_replan env w = (Ok tt, w', e) -> e = [EvReplan].
Proof.
  unfold container_replan, pebble. destruct (can_connect env); [|discriminate].
  by intros [= _ <-].
Qed.

(** X14. A pebble-ready hook that returns has either deferred the event
    or handed a layer to the supervisor that has an entry for every pooler
    instance, beside the log rotation and the exporter, asked for a replan
    and set the workload version. *)
Theorem pebble_ready_plans_instances env w w' e :
  _on_pgbouncer_pebble_ready env w = (Ok tt, w', e) ->
  In EvDefer e
  \/ exists layer,
       In (EvAddLayer layer) e /\ In EvReplan e
       /\ In (EvSetWorkloadVersion (version env)) e
       /\ dom layer = ({[ "logrotate"; _metrics_service ]} : gset string)
                      ∪ list_to_set (name <$> _services env)
       /\ forall service, service ∈ _services env ->
            layer !! name service = Some (pooler_entry service).
Proof.
  intros Hrun. unfold _on_pgbouncer_pebble_ready in Hrun.
  apply bind_inv_ok in Hrun as (initialised & w1 & e1 & e1' & _ & Hrun & ->).
  destruct initialised; simpl in Hrun.
  - destruct (negb (bool_decide (certificates_relations env = [])) && negb (tls_enabled env)).
    + left. rewrite bind_modify in Hrun. injection Hrun as _ <-.
      apply in_or_app. right. by left.
    + right.
      apply bind_inv_ok in Hrun as ([] & w2 & e2 & e2' & _ & Hrun & ->).
      apply bind_inv_ok in Hrun as (layer & w3 & e3 & e3' & Hlayer & Hrun & ->).
      apply bind_inv_ok in Hrun as ([] & w4 & e4 & e4' & Hadd & Hrun & ->).
      apply bind_inv_ok in Hrun as ([] & w5 & e5 & e5' & Hreplan & Hrun & ->).
      apply bind_inv_ok in Hrun as ([] & w6 & e6 & e6' & _ & Hrun & ->).
      apply bind_inv_ok in Hrun as ([] & w7 & e7 & e7' & Hversion & _ & ->).
      apply add_layer_returns in Hadd as ->. apply replan_returns in Hreplan as ->.
      injection Hversion as _ <-.
      apply pgbouncer_layer_run in Hlayer as (metrics & Hlayer & _ & _).
      exists layer. split; [|split; [|split; [|split]]].
      * rewrite !in_app_iff. simpl. auto 10.
      * rewrite !in_app_iff. simpl. auto 10.
      * rewrite !in_app_iff. simpl. auto 10.
      * rewrite Hlayer, layer_fold_dom, dom_insert_L, dom_singleton_L. set_solver.
      * intros service Hin. rewrite Hlayer.
        apply layer_fold_lookup; [apply NoDup_service_names|done].
  - left. injection Hrun as _ <-. apply in_or_app. right. by left.
Qed.
End PebbleReady.

Section Tls.
Context `{Deps}.

(** ** [update_config] *)

Lemma cfg_set_run section key v cfg kv w :
  cfg !! section = Some kv ->
  cfg_set section key v cfg w = (Ok (<[section := <[key := v]> kv]> cfg), w, []).
Proof. intros Hs. unfold cfg_set, cfg_section. by rewrite Hs, bind_ret. Qed.

Lemma cfg_pop_run section key cfg kv w :
  cfg !! section = Some kv ->
  cfg_pop section key cfg w = (Ok (<[section := delete key kv]> cfg), w, []).
Proof. intros Hs. unfold cfg_pop, cfg_section. by rewrite Hs, bind_ret. Qed.

Lemma tls_keys_set_run config section w :
  config !! "pgbouncer" = Some section ->
  tls_keys_set config w = (Ok (<["pgbouncer" := tls_section section]> config), w, []).
Proof.
  intros Hs. unfold tls_keys_set.
  rewrite (bind_ok _ _ _ _ _ _ (cfg_set_run _ _ _ _ _ w Hs)).
  rewrite (bind_ok _ _ _ _ _ _ (cfg_set_run _ _ _ _ _ w (lookup_insert_eq _ _ _))).
  rewrite (bind_ok _ _ _ _ _ _ (cfg_set_run _ _ _ _ _ w (lookup_insert_eq _ _ _))).
  rewrite (cfg_set_run _ _ _ _ _ w (lookup_insert_eq _ _ _)).
  unfold tls_section. by rewrite !insert_insert_eq.
Qed.

Lemma tls_keys_pop_run config section w :
  config !! "pgbouncer" = Some section ->
  tls_keys_pop config w = (Ok (<["pgbouncer" := plain_section section]> config), w, []).
Proof.
  intros Hs. unfold tls_keys_pop.
  rewrite (bind_ok _ _ _ _ _ _ (cfg_pop_run _ _ _ _ w Hs)).
  rewrite (bind_ok _ _ _ _ _ _ (cfg_pop_run _ _ _ _ w (lookup_insert_eq _ _ _))).
  rewrite (bind_ok _ _ _ _ _ _ (cfg_pop_run _ _ _ _ w (lookup_insert_eq _ _ _))).
  rewrite (cfg_pop_run _ _ _ _ w (lookup_insert_eq _ _ _)).
  unfold plain_section. by rewrite !insert_insert_eq.
Qed.

Lemma tls_keys_no_section config w :
  config !! "pgbouncer" = None ->
  tls_keys_set config w = (Raise KeyError, w, [])
  /\ tls_keys_pop config w = (Raise KeyError, w, []).
Proof.
  intros Hs. unfold tls_keys_set, tls_keys_pop, cfg_set, cfg_pop, cfg_section.
  by rewrite Hs.
Qed.

(** X15. [update_config] follows the TLS files.  When the canonical config
    cannot be read it returns [False] and changes nothing.  Otherwise it
    renders, with a reload, the config whose [pgbouncer] section has the
    four [client_tls] keys set to the paths of the files and to [prefer]
    when the three files are all there, and has none of the four keys when
    one is missing; the other keys of the section are kept.  A config
    without a [pgbouncer] section makes it fail with [KeyError]. *)
Theorem update_config_follows_tls_files env w :
  (persisted_config env w = None -> update_config env w = (Ok false, w, []))
  /\ (forall config section,
        persisted_config env w = Some config ->
        config !! "pgbouncer" = Some section ->
        update_config env w
        = match render_pgb_config env (tls_config env config section) true w with
          | (Ok _, w', e) => (Ok true, w', e)
          | (Raise ex, w', e) => (Raise ex, w', e)
          end
        /\ (tls_enabled env = true ->
            tls_config env config section !! "pgbouncer" ≫= (.!! "client_tls_key_file")
            = Some (PGB_DIR +:+ "/" +:+ TLS_KEY_FILE)
            /\ tls_config env config section !! "pgbouncer" ≫= (.!! "client_tls_ca_file")
               = Some (PGB_DIR +:+ "/" +:+ TLS_CA_FILE)
            /\ tls_config env config section !! "pgbouncer" ≫= (.!! "client_tls_cert_file")
               = Some (PGB_DIR +:+ "/" +:+ TLS_CERT_FILE)
            /\ tls_config env config section !! "pgbouncer" ≫= (.!! "client_tls_sslmode")
               = Some "prefer")
        /\ (tls_enabled env = false ->
            forall key, key ∈ tls_keys ->
              tls_config env config section !! "pgbouncer" ≫= (.!! key) = None)
        /\ (forall key, key ∉ tls_keys ->
              tls_config env config section !! "pgbouncer" ≫= (.!! key) = section !! key))
  /\ (forall config,
        persisted_config env w = Some config ->
        config !! "pgbouncer" = None ->
        update_config env w = (Raise KeyError, w, [])).
Proof.
  split; [|split].
  - intros Hp. unfold update_config. unfold bind at 1.
    by rewrite try_read_pgb_config_run, Hp.
  - intros config section Hp Hs. split; [|split; [|split]].
    + unfold update_config. unfold bind at 1. rewrite try_read_pgb_config_run, Hp.
      unfold tls_config. destruct (tls_enabled env).
      * rewrite (bind_ok _ _ _ _ _ _ (tls_keys_set_run _ _ w Hs)).
        unfold bind. destruct (render_pgb_config env _ true w) as [[[[]|ex] w'] e]; simpl;
          by rewrite ?app_nil_r.
      * rewrite (bind_ok _ _ _ _ _ _ (tls_keys_pop_run _ _ w Hs)).
        unfold bind. destruct (render_pgb_config env _ true w) as [[[[]|ex] w'] e]; simpl;
          by rewrite ?app_nil_r.
    + intros Htls. unfold tls_config, tls_section. rewrite Htls, lookup_insert_eq. simpl.
      repeat split.
      * by rewrite !lookup_insert_ne, lookup_insert_eq by done.
      * by rewrite !lookup_insert_ne, lookup_insert_eq by done.
      * by rewrite !lookup_insert_ne, lookup_insert_eq by done.
      * by rewrite lookup_insert_eq.
    + intros Htls key Hkey. unfold tls_config, plain_section.
      rewrite Htls, lookup_insert_eq. simpl. unfold tls_keys in Hkey.
      repeat (apply elem_of_cons in Hkey as [->|Hkey]).
      * by rewrite !lookup_delete_ne, lookup_delete_eq by done.
      * by rewrite !lookup_delete_ne, lookup_delete_eq by done.
      * by rewrite !lookup_delete_ne, lookup_delete_eq by done.
      * by rewrite lookup_delete_eq.
      * by apply elem_of_nil in Hkey.
    + intros key Hkey. unfold tls_config, tls_section, plain_section.
      rewrite lookup_insert_eq. unfold tls_keys in Hkey.
      rewrite !not_elem_of_cons in Hkey. destruct Hkey as (? & ? & ? & ? & _).
      destruct (tls_enabled env); simpl.
      * by rewrite !lookup_insert_ne by done.
      * by rewrite !lookup_delete_ne by done.
  - intros config Hp Hs. unfold update_config. unfold bind at 1.
    rewrite try_read_pgb_config_run, Hp.
    destruct (tls_keys_no_section config w Hs) as [Hset Hpop].
    destruct (tls_enabled env).
    + by rewrite (bind_raise _ _ _ _ _ _ Hset).
    + by rewrite (bind_raise _ _ _ _ _ _ Hpop).
Qed.

(** X16. [push_tls_files_to_workload] without the update of the config:
    on a reachable container it pushes the files that are there, the key,
    the CA and the certificate in this order, each with mode [0o400], skips
    those that are [None], and returns [True]; the files it pushed can be
    read back. *)
Theorem push_tls_files_pushes_present env w key ca cert :
  can_connect env = true ->
  tls_files env = (key, ca, cert) ->
  exists w',
    push_tls_files_to_workload env false w
    = (Ok true, w',
       (match key with
        | Some k => [EvPush (PGB_DIR +:+ "/" +:+ TLS_KEY_FILE) k 256%N]
        | None => []
        end)
       ++ (match ca with
           | Some c => [EvPush (PGB_DIR +:+ "/" +:+ TLS_CA_FILE) c 256%N]
           | None => []
           end)
       ++ (match cert with
           | Some c => [EvPush (PGB_DIR +:+ "/" +:+ TLS_CERT_FILE) c 256%N]
           | None => []
           end))
    /\ (forall c, cert = Some c ->
          result (_read_file env (PGB_DIR +:+ "/" +:+ TLS_CERT_FILE) w') = Ok c)
    /\ unit_status w' = unit_status w.
Proof.
  intros Hc Hfiles. unfold push_tls_files_to_workload. rewrite Hfiles.
  assert (Hpush : forall path contents w0,
            push_optional env path contents w0
            = (Ok tt,
               match contents with
               | Some c => set_fs (<[path := c]> (fs w0)) w0
               | None => w0
               end,
               match contents with Some c => [EvPush path c 256%N] | None => [] end)).
  { intros path [c|] w0; simpl; [|done]. by rewrite push_file_run, Hc. }
  rewrite (bind_ok _ _ _ _ _ _ (Hpush _ key w)).
  rewrite (bind_ok _ _ _ _ _ _ (Hpush _ ca _)).
  rewrite (bind_ok _ _ _ _ _ _ (Hpush _ cert _)).
  eexists. split; [unfold ret, lift; by rewrite app_nil_r|]. split.
  - intros c ->. rewrite read_file_run. unfold stored_file. rewrite Hc. simpl.
    by rewrite lookup_insert_eq.
  - by destruct key, ca, cert.
Qed.
End Tls.

Section RenderFiles.
Context `{Deps}.

(** ** The files [render_pgb_config] leaves *)








Lemma rendered_frame env config section w :
  dirs (rendered env config section w) = dirs w
  /\ plan (rendered env config section w) = plan w
  /\ unit_status (rendered env config section w) = unit_status w.
Proof. unfold rendered, published. by destruct (is_leader env). Qed.

End RenderFiles.

Section InitDirs.
Context `{Deps}.

(** ** The directories [_init_config] makes *)

Lemma exists_in_mono w w1 path :
  dirs w ⊆ dirs w1 -> (forall p, is_Some (fs w !! p) -> is_Some (fs w1 !! p)) ->
  exists_in w path -> exists_in w1 path.
Proof. intros Hd Hf [Hin|Hfile]; [left; set_solver|right; auto]. Qed.

Lemma ensure_dir_spec env path w :
  can_connect env = true ->
  exists w1 e1,
    ensure_dir env path w = (Ok tt, w1, e1)
    /\ fs w1 = fs w /\ dirs w ⊆ dirs w1 /\ exists_in w1 path
    /\ (forall p, exists_in w p -> ~ In (EvMakeDir p) e1)
    /\ (forall ev, In ev e1 -> exists p, ev = EvMakeDir p).
Proof.
  intros Hc. unfold ensure_dir, container_exists, container_make_dir, pebble. rewrite Hc.
  rewrite bind_assoc, bind_get, bind_ret.
  destruct (bool_decide (path ∈ dirs w) || bool_decide (is_Some (fs w !! path))) eqn:Hex.
  - exists w, []. split; [done|]. split; [done|]. split; [done|]. split; [|split].
    + apply orb_true_iff in Hex as [Hex|Hex]; apply bool_decide_eq_true_1 in Hex;
        [by left|by right].
    + by intros p _ [].
    + by intros ev [].
  - apply orb_false_iff in Hex as [Hd Hf].
    apply bool_decide_eq_false_1 in Hd. apply bool_decide_eq_false_1 in Hf.
    eexists _, _. split; [reflexivity|]. simpl. split; [done|]. split; [set_solver|].
    split; [left; set_solver|]. split.
    + intros p Hp [Heq|[]]. injection Heq as ->. by destruct Hp.
    + intros ev [<-|[]]. by eexists.
Qed.

Lemma dirs_loop_spec env (l : list Service) w :
  can_connect env = true ->
  exists w1 e1,
    for_each l (fun service =>
      ensure_dir env (dir service) ;;; ensure_dir env (log_dir service)) w
    = (Ok tt, w1, e1)
    /\ fs w1 = fs w /\ dirs w ⊆ dirs w1
    /\ (forall service, service ∈ l ->
          exists_in w1 (dir service) /\ exists_in w1 (log_dir service))
    /\ (forall p, exists_in w p -> ~ In (EvMakeDir p) e1)
    /\ (forall ev, In ev e1 -> exists p, ev = EvMakeDir p).
Proof.
  intros Hc. revert w. induction l as [|s l IH]; intros w; simpl.
  - exists w, []. split; [done|]. split; [done|]. split; [done|]. split; [|split].
    + intros service Hin. by apply elem_of_nil in Hin.
    + by intros p _ [].
    + by intros ev [].
  - destruct (ensure_dir_spec env (dir s) w Hc)
      as (w1 & e1 & H1 & Hf1 & Hd1 & Hex1 & Hno1 & Hmk1).
    destruct (ensure_dir_spec env (log_dir s) w1 Hc)
      as (w2 & e2 & H2 & Hf2 & Hd2 & Hex2 & Hno2 & Hmk2).
    destruct (IH w2) as (w3 & e3 & H3 & Hf3 & Hd3 & Hex3 & Hno3 & Hmk3).
    assert (Hmono1 : forall p, exists_in w p -> exists_in w1 p).
    { intros p. apply exists_in_mono; [done|]. by rewrite Hf1. }
    assert (Hmono2 : forall p, exists_in w1 p -> exists_in w2 p).
    { intros p. apply exists_in_mono; [done|]. by rewrite Hf2. }
    assert (Hmono3 : forall p, exists_in w2 p -> exists_in w3 p).
    { intros p. apply exists_in_mono; [done|]. by rewrite Hf3. }
    exists w3, ((e1 ++ e2) ++ e3). split.
    + unfold bind at 1. unfold bind at 1. by rewrite H1, H2, H3.
    + split; [congruence|]. split; [set_solver|]. split; [|split].
      * intros service Hin. apply elem_of_cons in Hin as [->|Hin]; [|by apply Hex3].
        split; [apply Hmono3, Hmono2, Hex1|apply Hmono3, Hex2].
      * intros p Hp Hin. rewrite !in_app_iff in Hin. destruct Hin as [[Hin|Hin]|Hin].
        -- by apply (Hno1 p).
        -- apply (Hno2 p); [by apply Hmono1|done].
        -- apply (Hno3 p); [by apply Hmono2, Hmono1|done].
      * intros ev Hin. rewrite !in_app_iff in Hin. destruct Hin as [[Hin|Hin]|Hin]; auto.
Qed.

Lemma instance_pushes_are_pushes (l : list Service) section config ev :
  In ev (instance_pushes l section config) -> exists path contents, ev = EvPush path contents 256%N.
Proof.
  unfold instance_pushes. rewrite <- list_elem_of_In. intros Hin.
  apply list_elem_of_fmap in Hin as (s & -> & _). by eexists _, _.
Qed.

(** A render without reload that returns, on a reachable container. *)
Lemma render_returns_frame env config w w2 e2 :
  can_connect env = true ->
  render_pgb_config env config false w = (Ok tt, w2, e2) ->
  dirs w2 = dirs w
  /\ (forall p, is_Some (fs w !! p) -> is_Some (fs w2 !! p))
  /\ (forall ev, In ev e2 -> exists path contents, ev = EvPush path contents 256%N).
Proof.
  intros Hc Hrun.
  assert (Hpush : push_pgb_config env config false w = (Ok tt, w2, e2) ->
            dirs w2 = dirs w
            /\ (forall p, is_Some (fs w !! p) -> is_Some (fs w2 !! p))
            /\ (forall ev, In ev e2 -> exists path contents, ev = EvPush path contents 256%N)).
  { assert (Hgen : forall section,
              config !! PGB = Some section \/ _services env = [] ->
              push_pgb_config env config false w = (Ok tt, w2, e2) ->
              dirs w2 = dirs w
              /\ (forall p, is_Some (fs w !! p) -> is_Some (fs w2 !! p))
              /\ (forall ev, In ev e2 ->
                    exists path contents, ev = EvPush path contents 256%N)).
    { intros section Hsec. rewrite (push_pgb_config_connected _ _ section) by done.
      intros [= <- <-]. split; [apply rendered_frame|]. split.
      - intros p. apply rendered_keeps.
      - intros ev Hin. apply in_app_or in Hin as [Hin|[<-|[]]].
        + by eapply instance_pushes_are_pushes.
        + by eexists _, _. }
    destruct (config !! PGB) as [section|] eqn:Hsec;
      [|destruct (_services env) as [|s l] eqn:Hl].
    - apply (Hgen section). by left.
    - apply (Hgen ∅). by right.
    - rewrite push_pgb_config_no_section; [discriminate|done|by rewrite Hl]. }
  rewrite render_pgb_config_run in Hrun.
  destruct (persisted_config env w) as [current|]; [|by apply Hpush].
  destruct (bool_decide (config = current)); [|by apply Hpush].
  injection Hrun as <- <-. split; [done|]. split; [done|]. by intros ev [].
Qed.

(** X18. When [_init_config] returns [True], the container was reachable,
    the directory and the log directory of every pooler instance exist,
    nothing that existed before was made again, and the last request is the
    push of the logrotate config rendered for the number of cores. *)
Theorem init_config_prepares_directories env w w' e :
  _init_config env w = (Ok true, w', e) ->
  can_connect env = true
  /\ (forall service, service ∈ _services env ->
        exists_in w' (dir service) /\ exists_in w' (log_dir service))
  /\ (forall path, exists_in w path -> ~ In (EvMakeDir path) e)
  /\ exists e0, e = e0 ++ [EvPush logrotate_path (logrotate_config (cores env)) 0%N].
Proof.
  intros Hrun. unfold _init_config in Hrun.
  apply bind_inv_ok in Hrun as (known & w0 & e0 & e0' & Hknown & Hrun & ->).
  rewrite init_lookup_run in Hknown. injection Hknown as _ <- <-.
  destruct (if config_truthy known then known
            else if is_leader env then Some DEFAULT_CONFIG else None) as [config|];
    [|discriminate Hrun].
  apply bind_inv_ok in Hrun as ([] & w1 & e1 & e1' & Hdirs & Hrun & ->).
  apply bind_inv_ok in Hrun as ([] & w2 & e2 & e2' & Hrender & Hrun & ->).
  apply bind_inv_ok in Hrun as ([] & w3 & e3 & e3' & Hpush & Hret & ->).
  injection Hret as <- <-.
  assert (Hc : can_connect env = true).
  { unfold container_push, pebble in Hpush. by destruct (can_connect env). }
  unfold container_push, pebble in Hpush. rewrite Hc in Hpush.
  injection Hpush as <- <-.
  destruct (dirs_loop_spec env (_services env) w Hc)
    as (w1' & e1'' & Hloop & Hf1 & Hd1 & Hex1 & Hno1 & Hmk1).
  rewrite Hloop in Hdirs. injection Hdirs as Hw1 He1. subst w1' e1''.
  destruct (render_returns_frame _ _ _ _ _ Hc Hrender) as (Hd2 & Hf2 & Hev2).
  split; [done|]. split; [|split].
  - intros service Hin. destruct (Hex1 service Hin) as [Hdir Hlog].
    assert (Hmono : forall p, exists_in w1 p -> exists_in
                      (set_fs (<[logrotate_path := logrotate_config (cores env)]> (fs w2)) w2) p).
    { intros p [Hp|Hp].
      - left. simpl. by rewrite Hd2.
      - right. simpl. apply Hf2 in Hp. destruct (decide (logrotate_path = p)) as [->|Hne].
        + rewrite lookup_insert_eq. by eexists.
        + by rewrite lookup_insert_ne. }
    split; by apply Hmono.
  - intros path Hpath Hin. simpl in Hin. rewrite !in_app_iff in Hin.
    destruct Hin as [Hin|[Hin|Hin]].
    + by apply (Hno1 path).
    + apply Hev2 in Hin as (p & c & Heq). discriminate Heq.
    + simpl in Hin. intuition discriminate.
  - eexists. simpl. rewrite !app_assoc. reflexivity.
Qed.
End InitDirs.

Section Created.
Context `{Deps}.

(** ** [_on_database_created] *)

Lemma draw_password_run w :
  draw_password w = (Ok (generate_password (rng w)), set_rng (S (rng w)) w, []).
Proof. unfold draw_password. by rewrite bind_get, bind_modify. Qed.

Lemma create_user_run env pg user hashed admin w :
  postgres env = Ok (Some pg) -> db_reachable env = true ->
  postgres_create_user env user hashed admin w = (Ok tt, w, [EvCreateUser user hashed admin]).
Proof. intros Hpg Hdb. unfold postgres_create_user. by rewrite Hpg, bind_lift_ok, Hdb. Qed.

Lemma create_user_unreachable env pg user hashed admin w :
  postgres env = Ok (Some pg) -> db_reachable env = false ->
  postgres_create_user env user hashed admin w = (Raise PostgreSQLError, w, []).
Proof. intros Hpg Hdb. unfold postgres_create_user. by rewrite Hpg, bind_lift_ok, Hdb. Qed.

Lemma set_secret_run env key secret w :
  is_leader env = true ->
  Peers.set_secret env Peers.AppScope key secret w
  = (Ok tt, set_peer_app (<[key := secret]> (peer_app w)) w, []).
Proof. intros Hl. unfold Peers.set_secret. by rewrite Hl. Qed.

Lemma monitoring_password_run env w :
  is_leader env = true ->
  monitoring_password env w
  = (Ok (if truthy (peer_app w !! MONITORING_PASSWORD_KEY)
         then py_str (peer_app w !! MONITORING_PASSWORD_KEY)
         else generate_password (rng w)),
     with_monitoring_secret w, []).
Proof.
  intros Hl. unfold monitoring_password, with_monitoring_secret, Peers.get_secret.
  rewrite bind_assoc, bind_get, bind_ret.
  destruct (truthy (peer_app w !! MONITORING_PASSWORD_KEY)); [done|].
  rewrite (bind_ok _ _ _ _ _ _ (draw_password_run w)).
  by rewrite (bind_ok _ _ _ _ _ _ (set_secret_run env _ _ _ Hl)).
Qed.

Lemma render_auth_file_run env auth_file w :
  is_leader env = true -> can_connect env = true ->
  render_auth_file env auth_file false w
  = (Ok tt,
     set_peer_app (<[AUTH_FILE_DATABAG_KEY := auth_file]> (peer_app w))
       (set_fs (<[AUTH_FILE_PATH := auth_file]> (fs w)) w),
     [EvPush AUTH_FILE_PATH auth_file 256%N]).
Proof.
  intros Hl Hc. unfold render_auth_file.
  pose proof (push_file_run env AUTH_FILE_PATH auth_file 256%N w) as Hpush.
  rewrite Hc in Hpush. rewrite (bind_ok _ _ _ _ _ _ Hpush).
  unfold Peers.update_auth_file. rewrite Hl. by rewrite bind_modify.
Qed.

Lemma write_credentials_run env pg w :
  is_leader env = true -> can_connect env = true ->
  postgres env = Ok (Some pg) -> db_reachable env = true ->
  write_credentials env w
  = (Ok (auth_name (pg_user pg)), credentialed env (pg_user pg) w,
     [EvCreateUser (auth_name (pg_user pg))
        (get_hashed_password (auth_name (pg_user pg)) (generate_password (rng w))) true;
      EvExecute PGB (str_replace "auth_user" (auth_name (pg_user pg)) install_script);
      EvExecute PG (str_replace "auth_user" (auth_name (pg_user pg)) install_script);
      EvPush AUTH_FILE_PATH (credentials env (pg_user pg) w) 256%N]).
Proof.
  intros Hl Hc Hpg Hdb. unfold write_credentials.
  rewrite (bind_ok _ _ _ _ _ _ (draw_password_run w)).
  rewrite (auth_user_of_postgres _ _ Hpg), bind_lift_ok. simpl py_str.
  rewrite (bind_ok _ _ _ _ _ _ (create_user_run env pg _ _ _ _ Hpg Hdb)).
  unfold initialise_auth_function.
  rewrite (bind_ok _ _ _ _ _ _ (run_auth_script_run env pg _ _ _ Hpg Hdb)).
  rewrite (bind_ok _ _ _ _ _ _ (monitoring_password_run env _ Hl)).
  rewrite (bind_ok _ _ _ _ _ _ (set_secret_run env _ _ _ Hl)).
  rewrite (bind_ok _ _ _ _ _ _ (render_auth_file_run env _ _ Hl Hc)).
  reflexivity.
Qed.

Lemma write_credentials_unreachable env pg w :
  postgres env = Ok (Some pg) -> db_reachable env = false ->
  write_credentials env w = (Raise PostgreSQLError, set_rng (S (rng w)) w, []).
Proof.
  intros Hpg Hdb. unfold write_credentials.
  rewrite (bind_ok _ _ _ _ _ _ (draw_password_run w)).
  rewrite (auth_user_of_postgres _ _ Hpg), bind_lift_ok.
  by rewrite (bind_raise _ _ _ _ _ _ (create_user_unreachable env pg _ _ _ _ Hpg Hdb)).
Qed.

Lemma check_running_connected env w w' e :
  check_pgb_running env w = (Ok true, w', e) -> can_connect env = true.
Proof.
  unfold check_pgb_running. destruct (can_connect env); [done|].
  intros Hrun. simpl in Hrun. rewrite bind_modify in Hrun. discriminate Hrun.
Qed.

Lemma cfg_set_returns section key v cfg w cfg' w' e :
  cfg_set section key v cfg w = (Ok cfg', w', e) ->
  exists kv, cfg !! section = Some kv
             /\ cfg' = <[section := <[key := v]> kv]> cfg /\ w' = w /\ e = [].
Proof.
  unfold cfg_set, cfg_section. destruct (cfg !! section) as [kv|].
  - rewrite !bind_ret. intros [= <- <- <-]. by exists kv.
  - intros Hrun. discriminate Hrun.
Qed.

(** What a run of [update_auth_config] that returns has rendered. *)
Lemma update_auth_config_returns env user w w' e :
  can_connect env = true ->
  update_auth_config env user w = (Ok tt, w', e) ->
  exists cfg section,
    cfg !! "pgbouncer" = Some section
    /\ section !! "auth_query" = Some (auth_query user)
    /\ section !! "auth_file" = Some AUTH_FILE_PATH
    /\ (persisted_config env w = Some cfg
        \/ In (EvPush INI_PATH (cfg_render cfg) 256%N) e).
Proof.
  intros Hc Hrun. unfold update_auth_config in Hrun.
  apply bind_inv_ok in Hrun as (cfg0 & w1 & e1 & e1' & Hread & Hrun & ->).
  rewrite read_pgb_config_run in Hread.
  destruct (persisted_config env w) as [cfg0'|] eqn:Hp; [|discriminate Hread].
  injection Hread as -> <- <-.
  apply bind_inv_ok in Hrun as (cfg1 & w2 & e2 & e2' & Hset1 & Hrun & ->).
  apply cfg_set_returns in Hset1 as (section0 & Hsec0 & -> & -> & ->).
  apply bind_inv_ok in Hrun as (cfg & w3 & e3 & e3' & Hset2 & Hrender & ->).
  apply cfg_set_returns in Hset2 as (section1 & Hsec1 & -> & -> & ->).
  rewrite lookup_insert_eq in Hsec1. injection Hsec1 as <-.
  simpl.
  match type of Hrender with
  | render_pgb_config _ ?c _ _ = _ => set (cfg := c) in *
  end.
  exists cfg, (<["auth_file" := AUTH_FILE_PATH]> (<["auth_query" := auth_query user]> section0)).
  split; [apply lookup_insert_eq|].
  split; [rewrite lookup_insert_ne by done; apply lookup_insert_eq|].
  split; [apply lookup_insert_eq|].
  rewrite render_pgb_config_run, Hp in Hrender.
  destruct (bool_decide (cfg = cfg0)) eqn:Hsame.
  - apply bool_decide_eq_true_1 in Hsame. left. congruence.
  - right.
    destruct (cfg !! PGB) as [section'|] eqn:Hsec';
      [|destruct (_services env) as [|s l] eqn:Hl].
    + rewrite (push_pgb_config_connected _ _ section' false _ Hc (or_introl Hsec'))
        in Hrender.
      injection Hrender as _ <-. apply in_or_app. right. by left.
    + rewrite (push_pgb_config_connected _ _ ∅ false _ Hc (or_intror Hl)) in Hrender.
      injection Hrender as _ <-. apply in_or_app. right. by left.
    + rewrite push_pgb_config_no_section in Hrender; [discriminate|done|by rewrite Hl].
Qed.

(** The guards of [_on_database_created] on the leader. *)
Lemma database_created_guards env w :
  is_leader env = true ->
  _on_database_created env w
  = match check_pgb_running env
            (set_unit_status (MaintenanceStatus "Initialising backend-database relation") w)
    with
    | (Ok true, w1, e1) =>
        match postgres env with
        | Ok (Some _) =>
            match backend_relation env ≫= (fun r => local_app_data r !! "database") with
            | Some _ => let '(r, w2, e2) := provision_backend env w1 in (r, w2, e1 ++ e2)
            | None => (Ok tt, w1, e1 ++ [EvDefer])
            end
        | Ok None => (Ok tt, w1, e1 ++ [EvDefer])
        | Raise ex => (Raise ex, w1, e1)
        end
    | (Ok false, w1, e1) => (Ok tt, w1, e1 ++ [EvDefer])
    | (Raise ex, w1, e1) =>
        if decide (ex = ConnectionError) then (Ok tt, w1, e1 ++ [EvDefer])
        else (Raise ex, w1, e1)
    end.
Proof.
  intros Hl. unfold _on_database_created. rewrite Hl.
  change (negb true) with false. cbv iota.
  rewrite bind_modify.
  pose proof (try_check_run env
                (set_unit_status (MaintenanceStatus "Initialising backend-database relation")
                   w)) as Htry.
  destruct (check_pgb_running env _) as [[[[]|ex] w1] e1].
  - rewrite (bind_ok _ _ _ _ _ _ Htry).
    destruct (postgres env) as [[pg|]|ex].
    + rewrite bind_lift_ok. by destruct (backend_relation env ≫= _).
    + by rewrite bind_lift_ok.
    + rewrite bind_lift_raise. by rewrite app_nil_r.
  - by rewrite (bind_ok _ _ _ _ _ _ Htry).
  - destruct (decide (ex = ConnectionError)).
    + by rewrite (bind_ok _ _ _ _ _ _ Htry).
    + by rewrite (bind_raise _ _ _ _ _ _ Htry).
Qed.

(** A run of [provision_backend] that returns. *)
Lemma provision_backend_returns env pg w w' e :
  is_leader env = true -> can_connect env = true ->
  postgres env = Ok (Some pg) ->
  AUTH_FILE_PATH <> INI_PATH ->
  provision_backend env w = (Ok tt, w', e) ->
  db_reachable env = true
  /\ exists e' cfg section,
       e = [EvCreateUser (auth_name (pg_user pg))
              (get_hashed_password (auth_name (pg_user pg)) (generate_password (rng w))) true;
            EvExecute PGB (str_replace "auth_user" (auth_name (pg_user pg)) install_script);
            EvExecute PG (str_replace "auth_user" (auth_name (pg_user pg)) install_script);
            EvPush AUTH_FILE_PATH (credentials env (pg_user pg) w) 256%N] ++ e'
       /\ cfg !! "pgbouncer" = Some section
       /\ section !! "auth_query" = Some (auth_query (auth_name (pg_user pg)))
       /\ section !! "auth_file" = Some AUTH_FILE_PATH
       /\ (persisted_config env w = Some cfg
           \/ In (EvPush INI_PATH (cfg_render cfg) 256%N) e').
Proof.
  intros Hl Hc Hpg Hpaths Hrun. unfold provision_backend in Hrun.
  destruct (db_reachable env) eqn:Hdb.
  - split; [done|].
    apply bind_inv_ok in Hrun as (user & w1 & e1 & e1' & Hcred & Hrest & ->).
    rewrite (write_credentials_run env pg w Hl Hc Hpg Hdb) in Hcred.
    injection Hcred as <- <- <-.
    apply bind_inv_ok in Hrest as ([] & w3 & e3 & e4 & Hcfg & _ & ->).
    apply (update_auth_config_returns _ _ _ _ _ Hc) in Hcfg
      as (cfg & section & Hsec & Hq & Hf & Hdone).
    exists (e3 ++ e4), cfg, section. split; [done|].
    split; [done|]. split; [done|]. split; [done|].
    destruct Hdone as [Hp|Hin].
    + left. rewrite <- Hp. unfold persisted_config, stored_file, credentialed.
      rewrite Hc. simpl. unfold with_monitoring_secret.
      destruct (truthy _); simpl; by rewrite lookup_insert_ne.
    + right. apply in_or_app. by left.
  - by rewrite (bind_raise _ _ _ _ _ _ (write_credentials_unreachable env pg w Hpg Hdb))
      in Hrun.
Qed.

(** X19. The database-created hook acts on the leader only, and waits for
    the pooler and for the relation data.  On a follower it does nothing.
    On the leader it sets a maintenance status and checks the pooler; when
    the check answers [False] or fails with [ConnectionError] the hook
    defers the event and returns, and so it does when the check answers
    [True] but the relation lacks its connection data or the local
    application databag has no [database] entry.  In these cases nothing
    but the unit status has changed. *)
Theorem database_created_defers env w :
  (is_leader env = false -> _on_database_created env w = (Ok tt, w, []))
  /\ (is_leader env = true ->
      forall r w1 e1,
        check_pgb_running env
          (set_unit_status (MaintenanceStatus "Initialising backend-database relation") w)
        = (r, w1, e1) ->
        only_status w w1
        /\ (r = Ok false \/ r = Raise ConnectionError ->
            _on_database_created env w = (Ok tt, w1, e1 ++ [EvDefer]))
        /\ (r = Ok true ->
            postgres env = Ok None
            \/ ((exists pg, postgres env = Ok (Some pg))
                /\ backend_relation env ≫= (fun r => local_app_data r !! "database") = None) ->
            _on_database_created env w = (Ok tt, w1, e1 ++ [EvDefer]))).
Proof.
  split.
  - intros Hl. unfold _on_database_created. by rewrite Hl.
  - intros Hl r w1 e1 Hcheck. split; [|split].
    + eapply only_status_trans; [apply only_status_set|].
      by eapply status_only_check_pgb_running.
    + intros Hr. rewrite (database_created_guards _ _ Hl), Hcheck.
      destruct Hr as [-> | ->]; [done|]. by rewrite decide_True.
    + intros -> Hmiss. rewrite (database_created_guards _ _ Hl), Hcheck.
      destruct Hmiss as [-> |[[pg ->] ->]]; done.
Qed.

(** X20. What a database-created hook that ran to its end has done.  On
    the leader, a hook that returns without deferring the event has found
    the connection data of the relation, has created the auth user as an
    admin with the hash of a fresh password, has pushed a credential file
    of two lines, one for the auth user and one for the stats user, each a
    quoted name and a quoted hash, and has left a canonical config whose
    [pgbouncer] section has the [auth_query] of the auth user and the path
    of the credential file as [auth_file]: that config was persisted
    already or was pushed by the hook. *)
Theorem database_created_provisions env w w' e :
  is_leader env = true ->
  AUTH_FILE_PATH <> INI_PATH ->
  _on_database_created env w = (Ok tt, w', e) ->
  ~ In EvDefer e ->
  exists pg cfg section,
    postgres env = Ok (Some pg)
    /\ In (EvCreateUser (auth_name (pg_user pg))
             (get_hashed_password (auth_name (pg_user pg)) (generate_password (rng w)))
             true) e
    /\ In (EvPush AUTH_FILE_PATH
             (auth_line (auth_name (pg_user pg))
                (get_hashed_password (auth_name (pg_user pg)) (generate_password (rng w)))
              +:+ nl +:+
              auth_line (stats_user env)
                (get_hashed_password (stats_user env) (monitoring_secret w)))
             256%N) e
    /\ cfg !! "pgbouncer" = Some section
    /\ section !! "auth_query" = Some (auth_query (auth_name (pg_user pg)))
    /\ section !! "auth_file" = Some AUTH_FILE_PATH
    /\ (persisted_config env w = Some cfg
        \/ In (EvPush INI_PATH (cfg_render cfg) 256%N) e).
Proof.
  intros Hl Hpaths Hrun Hnodefer. rewrite (database_created_guards _ _ Hl) in Hrun.
  destruct (check_pgb_running env _) as [[[[]|ex] w1] e1] eqn:Hcheck.
  - pose proof (check_running_connected _ _ _ _ Hcheck) as Hc.
    apply status_only_check_pgb_running in Hcheck as [st1 Hw1].
    destruct (postgres env) as [[pg|]|ex] eqn:Hpg.
    + destruct (backend_relation env ≫= _).
      * destruct (provision_backend env w1) as [[r2 w2] e2] eqn:Hprov.
        revert Hrun. intros [= -> -> <-].
        apply (provision_backend_returns _ pg _ _ _ Hl Hc Hpg Hpaths) in Hprov
          as (_ & e' & cfg & section & -> & Hsec & Hq & Hf & Hdone).
        assert (Hcred : credentials env (pg_user pg) w1 = credentials env (pg_user pg) w)
          by (by rewrite Hw1).
        assert (Hrng : rng w1 = rng w) by (by rewrite Hw1).
        assert (Hp : persisted_config env w1 = persisted_config env w) by (by rewrite Hw1).
        rewrite Hcred, Hrng, Hp in *.
        exists pg, cfg, section. split; [done|]. split; [|split].
        -- apply in_or_app. right. by left.
        -- apply in_or_app. right. right. right. right. by left.
        -- split; [done|]. split; [done|]. split; [done|].
           destruct Hdone as [Hdone|Hin]; [by left|right].
           apply in_or_app. right. apply in_or_app. by right.
      * injection Hrun as _ <-. destruct Hnodefer. apply in_or_app. right. by left.
    + injection Hrun as _ <-. destruct Hnodefer. apply in_or_app. right. by left.
    + discriminate Hrun.
  - injection Hrun as _ <-. destruct Hnodefer. apply in_or_app. right. by left.
  - destruct (decide (ex = ConnectionError)); [|discriminate Hrun].
    injection Hrun as _ <-. destruct Hnodefer. apply in_or_app. right. by left.
Qed.

(** X21. The monitoring password is drawn once.  A password that is
    stored and not empty is returned as it is: nothing is drawn and nothing
    is written.  When none is stored, the leader draws a password, stores
    it and returns it; if the password drawn is not empty, asking again
    returns the same password and changes nothing. *)
Theorem monitoring_password_reuse env w :
  (forall stored,
      peer_app w !! MONITORING_PASSWORD_KEY = Some stored -> stored <> EmptyString ->
      monitoring_password env w = (Ok stored, w, []))
  /\ (is_leader env = true ->
      truthy (peer_app w !! MONITORING_PASSWORD_KEY) = false ->
      exists w1,
        monitoring_password env w = (Ok (generate_password (rng w)), w1, [])
        /\ peer_app w1 !! MONITORING_PASSWORD_KEY = Some (generate_password (rng w))
        /\ rng w1 = S (rng w)
        /\ fs w1 = fs w
        /\ (generate_password (rng w) <> EmptyString ->
            monitoring_password env w1 = (Ok (generate_password (rng w)), w1, []))).
Proof.
  assert (Hstored : forall w0 stored,
            peer_app w0 !! MONITORING_PASSWORD_KEY = Some stored -> stored <> EmptyString ->
            monitoring_password env w0 = (Ok stored, w0, [])).
  { intros w0 stored Hs Hne. unfold monitoring_password, Peers.get_secret.
    rewrite bind_assoc, bind_get, bind_ret, Hs. by destruct stored. }
  split; [apply Hstored|].
  intros Hl Hnone. rewrite (monitoring_password_run _ _ Hl), Hnone.
  unfold with_monitoring_secret. rewrite Hnone.
  eexists. split; [reflexivity|]. simpl. split; [by rewrite lookup_insert_eq|].
  split; [done|]. split; [done|].
  intros Hne. apply Hstored; [|done]. simpl. by rewrite lookup_insert_eq.
Qed.
End Created.

Section Monitoring.
Context `{Deps}.

(** ** [toggle_monitoring_layer] *)

End Monitoring.

Section Backend.
Context `{Deps}.

(** ** The connection data of the backend *)

Lemma before_colon_app host port :
  occurs colon host = false -> before_colon (host +:+ String colon port) = host.
Proof.
  induction host as [|c host IH].
  - intros _. reflexivity.
  - simpl. intros Hc. apply orb_false_iff in Hc as [Hc Hhost].
    apply bool_decide_eq_false_1 in Hc. rewrite decide_False by done.
    by rewrite IH.
Qed.

Lemma before_colon_clean s : occurs colon (before_colon s) = false.
Proof.
  induction s as [|c s IH]; simpl; [done|].
  destruct (decide (c = colon)) as [->|Hne]; [done|]. simpl.
  by rewrite IH, bool_decide_eq_false_2.
Qed.

(** X23. The connection data [postgres] reads from the databag of the
    backend.  With an endpoint [host:port], a user name and a password, it
    gives the host (what stands in front of the first colon) as primary and
    as current host, the user and the password as they are, and the
    database [PGB]; the host it gives never contains a colon.  Without a
    relation it gives [None]; with a relation whose data hold no databag of
    the remote application it fails with [AttributeError]. *)
Theorem postgres_connection_data env :
  (forall relation databag host port user password,
      backend_relation env = Some relation ->
      remote_data relation = Some databag ->
      occurs colon host = false ->
      databag !! "endpoints" = Some (host +:+ ":" +:+ port) ->
      databag !! "username" = Some user ->
      databag !! "password" = Some password ->
      postgres env
      = Ok (Some {| primary_host := host; current_host := host; pg_user := user;
                    pg_password := password; pg_database := PGB |}))
  /\ (forall pg,
        postgres env = Ok (Some pg) ->
        occurs colon (primary_host pg) = false
        /\ current_host pg = primary_host pg /\ pg_database pg = PGB)
  /\ (backend_relation env = None -> postgres env = Ok None)
  /\ (forall relation,
        backend_relation env = Some relation -> remote_data relation = None ->
        postgres env = Raise AttributeError).
Proof.
  unfold postgres, postgres_databag. split; [|split; [|split]].
  - intros relation databag host port user password -> Hd Hhost He Hu Hp.
    rewrite Hd, He, Hu, Hp.
    change (host +:+ ":" +:+ port) with (host +:+ String colon port).
    by rewrite before_colon_app.
  - intros pg. destruct (backend_relation env) as [relation|]; [|done].
    destruct (remote_data relation) as [databag|]; [|done].
    destruct (databag !! "endpoints") as [endpoint|]; [|done].
    destruct (databag !! "username"); [|done].
    destruct (databag !! "password"); [|done].
    intros [= <-]. simpl. split; [apply before_colon_clean|done].
  - by intros ->.
  - by intros relation -> ->.
Qed.

(** X24. When [ready] says yes.  With the connection data of the relation,
    a canonical config whose [pgbouncer] section has an [auth_query], and a
    credential file, [ready] asks the backend for its version: it returns
    [True] when the backend answers and [False], with nothing asked, when
    it does not.  In both cases the world is left as it is.  A canonical
    config without a [pgbouncer] section makes it fail with [KeyError]. *)
Theorem ready_when_backend_answers env w pg cfg :
  postgres env = Ok (Some pg) ->
  persisted_config env w = Some cfg ->
  (forall section auth,
      cfg !! "pgbouncer" = Some section ->
      is_Some (section !! "auth_query") ->
      stored_file env w AUTH_FILE_PATH = Some auth ->
      (db_reachable env = true ->
       ready env w = (Ok true, w, [EvExecute PGB "SELECT version();"]))
      /\ (db_reachable env = false -> ready env w = (Ok false, w, [])))
  /\ (cfg !! "pgbouncer" = None -> ready env w = (Raise KeyError, w, [])).
Proof.
  intros Hpg Hp. rewrite ready_run, Hpg, Hp. split.
  - intros section auth Hsec Hq Hauth. rewrite Hsec, Hauth.
    rewrite bool_decide_eq_true_2 by done. simpl. split; by intros ->.
  - by intros ->.
Qed.

(** ** The auth function *)

Lemma run_auth_script_unrelated env script db dbs w :
  postgres env = Ok None ->
  run_auth_script env script (db :: dbs) w = (Raise AttributeError, w, []).
Proof.
  intros Hpg. unfold run_auth_script. simpl. unfold connect_to_database.
  unfold bind at 1. unfold bind at 1. unfold bind at 1. by rewrite Hpg.
Qed.

(** X25. [initialise_auth_function] and [remove_auth_function] run the
    install script and the uninstall script, with every [auth_user] in them
    replaced by the name of the auth user, in each of the given databases
    in the order given, and change nothing in the world.  When the backend
    does not answer they fail with the [psycopg2.Error] of the first
    connection, and when the relation gives no connection data with
    [AttributeError]; in both cases nothing has been executed. *)
Theorem auth_function_scripts env dbs w :
  (forall pg,
      postgres env = Ok (Some pg) ->
      (db_reachable env = true ->
       initialise_auth_function env dbs w
       = (Ok tt, w,
          (fun dbname =>
             EvExecute dbname (str_replace "auth_user" (auth_name (pg_user pg)) install_script))
            <$> dbs)
       /\ remove_auth_function env dbs w
          = (Ok tt, w,
             (fun dbname =>
                EvExecute dbname
                  (str_replace "auth_user" (auth_name (pg_user pg)) uninstall_script))
               <$> dbs))
      /\ (db_reachable env = false -> dbs <> [] ->
          initialise_auth_function env dbs w = (Raise Psycopg2Error, w, [])
          /\ remove_auth_function env dbs w = (Raise Psycopg2Error, w, [])))
  /\ (postgres env = Ok None -> dbs <> [] ->
      initialise_auth_function env dbs w = (Raise AttributeError, w, [])
      /\ remove_auth_function env dbs w = (Raise AttributeError, w, [])).
Proof.
  unfold initialise_auth_function, remove_auth_function. split.
  - intros pg Hpg. split.
    + intros Hdb. split; by apply run_auth_script_run.
    + intros Hdb Hne. destruct dbs as [|db dbs]; [done|].
      split; by eapply run_auth_script_unreachable.
  - intros Hpg Hne. destruct dbs as [|db dbs]; [done|].
    split; by apply run_auth_script_unrelated.
Qed.
End Backend.

Section Restart.
Context `{Deps}.

(** ** [_init_config] on a container that has its config *)

(** X26. On a reachable container that holds a canonical config which is
    not empty, [_init_config] returns [True] and leaves the config alone:
    it makes the directories that are missing and pushes the logrotate
    config, and that is all.  No config file is pushed, the peer data and
    the unit status are as before, and every file but the logrotate config
    is as before. *)
Theorem init_config_keeps_config env w config :
  can_connect env = true ->
  persisted_config env w = Some config ->
  config <> ∅ ->
  exists w' e,
    _init_config env w = (Ok true, w', e)
    /\ peer_app w' = peer_app w /\ unit_status w' = unit_status w
    /\ (forall path, path <> logrotate_path -> fs w' !! path = fs w !! path)
    /\ (forall ev, In ev e ->
          (exists path, ev = EvMakeDir path)
          \/ ev = EvPush logrotate_path (logrotate_config (cores env)) 0%N).
Proof.
  intros Hc Hp Hne.
  destruct (dirs_loop_run env (_services env) w Hc) as (d & e1 & Hdirs).
  destruct (dirs_loop_spec env (_services env) w Hc)
    as (w1 & e1' & Hdirs' & _ & _ & _ & _ & Hmk).
  rewrite Hdirs in Hdirs'. injection Hdirs' as Hw1 He1. subst w1 e1'.
  unfold _init_config. unfold bind at 1. rewrite init_lookup_run.
  unfold known_config. rewrite Hp. simpl. rewrite bool_decide_eq_false_2 by done. simpl.
  unfold bind at 1. rewrite Hdirs.
  assert (Hrender : render_pgb_config env config false (set_dirs d w)
                    = (Ok tt, set_dirs d w, [])).
  { by apply render_pgb_config_unchanged. }
  unfold bind at 1. rewrite Hrender.
  unfold bind, container_push, pebble. rewrite Hc. simpl.
  eexists _, _. split; [reflexivity|]. simpl. split; [done|]. split; [done|]. split.
  - intros path Hpath. by rewrite lookup_insert_ne.
  - intros ev Hin. rewrite !in_app_iff in Hin. simpl in Hin.
    destruct Hin as [Hin|[<-|[]]]; [left; by apply Hmk|by right].
Qed.

(** ** The layer of [_pgbouncer_layer] *)

Lemma service_name_prefix i : starts_with PGB (name (make_service i)) = true.
Proof.
  simpl. generalize ("_" +:+ pretty i). intros s.
  induction PGB as [|c p IH]; simpl; [done|]. by rewrite decide_True.
Qed.

Lemma other_name_not_service env other :
  starts_with PGB other = false -> other ∉ name <$> _services env.
Proof.
  intros Hother Hin. apply list_elem_of_fmap in Hin as (s & -> & Hs).
  unfold _services in Hs. apply list_elem_of_fmap in Hs as (i & -> & _).
  by rewrite service_name_prefix in Hother.
Qed.

(** X27. Beside the pooler instances, the layer of [_pgbouncer_layer] has
    the log rotation, started after all the instances, and the exporter:
    enabled, with the stored monitoring password, exactly when the relation
    gives the connection data of the backend, and disabled otherwise.
    Building the layer changes nothing and asks nothing.  (For names of
    pooler instances that start with [pgbouncer].) *)
Theorem pgbouncer_layer_entries env w layer w' e :
  PGB = "pgbouncer" ->
  _pgbouncer_layer env w = (Ok layer, w', e) ->
  w' = w /\ e = []
  /\ layer !! "logrotate" = Some (logrotate_entry env)
  /\ svc_after (logrotate_entry env) = name <$> _services env
  /\ ((exists pg, postgres env = Ok (Some pg)) ->
      layer !! _metrics_service = Some (enabled_exporter env w))
  /\ (postgres env = Ok None ->
      layer !! _metrics_service = Some (disabled_exporter env)).
Proof.
  intros HPGB Hrun. unfold _pgbouncer_layer in Hrun.
  assert (Hlog : "logrotate" ∉ name <$> _services env)
    by (apply other_name_not_service; by rewrite HPGB).
  assert (Hmetrics : _metrics_service ∉ name <$> _services env)
    by (apply other_name_not_service; by rewrite HPGB).
  destruct (postgres env) as [[pg|]|ex] eqn:Hpg.
  - rewrite bind_lift_ok in Hrun.
    assert (Hgen : _generate_monitoring_service env (bool_decide (is_Some (Some pg))) w
                   = (Ok (enabled_exporter env w), w, [])).
    { rewrite bool_decide_eq_true_2 by (by eexists).
      unfold _generate_monitoring_service, Peers.get_secret.
      by rewrite bind_assoc, bind_get, bind_ret. }
    rewrite (bind_ok _ _ _ _ _ _ Hgen) in Hrun. injection Hrun as <- <- <-.
    split; [done|]. split; [done|]. split; [|split; [done|split]].
    + rewrite layer_fold_other by done. by rewrite lookup_insert_ne.
    + intros _. rewrite layer_fold_other by done. by rewrite lookup_insert_eq.
    + discriminate.
  - rewrite bind_lift_ok in Hrun.
    assert (Hgen : _generate_monitoring_service env (bool_decide (is_Some (@None PostgreSQL))) w
                   = (Ok (disabled_exporter env), w, [])).
    { rewrite bool_decide_eq_false_2 by (by intros [? ?]). done. }
    rewrite (bind_ok _ _ _ _ _ _ Hgen) in Hrun. injection Hrun as <- <- <-.
    split; [done|]. split; [done|]. split; [|split; [done|split]].
    + rewrite layer_fold_other by done. by rewrite lookup_insert_ne.
    + by intros [pg ?].
    + intros _. rewrite layer_fold_other by done. by rewrite lookup_insert_eq.
  - rewrite bind_lift_raise in Hrun. discriminate Hrun.
Qed.
End Restart.







(** * The statements at work on the concrete deployment *)

Lemma run_eta {A} (a : A) (r : Res A * World * list Event) :
  result r = Ok a -> r = (Ok a, world_of r, events r).
Proof. destruct r as [[r w] e]. unfold result, world_of, events. simpl. by intros ->. Qed.

Lemma run_eta_value {A} (d : A) (r : Res A * World * list Event) :
  returned r = true -> r = (Ok (value d r), world_of r, events r).
Proof.
  destruct r as [[[a|ex] w] e]; unfold returned, value, result, world_of, events; simpl;
    [done|discriminate].
Qed.

Lemma some_default {A} (d : A) (x : option A) :
  bool_decide (is_Some x) = true -> x = Some (default d x).
Proof. intros Hx. apply bool_decide_eq_true_1 in Hx as [a ->]. done. Qed.

(** Decide a closed proposition by running its decision procedure. *)
Ltac decide_by_computation :=
  match goal with
  | |- ?P => apply (bool_decide_eq_true_1 P); vm_compute; reflexivity
  end.

Lemma run_split {A} (r : Res A * World * list Event) :
  r = (result r, world_of r, events r).
Proof. by destruct r as [[r w] e]. Qed.

Section ReadyEta.
Context `{Deps}.
Lemma ready_eta env w b :
  result (ready env w) = Ok b -> ready env w = (Ok b, w, events (ready env w)).
Proof.
  intros Hr. destruct (ready env w) as [[r w'] e] eqn:Hready.
  apply ready_pure in Hready as ->. unfold result in Hr. simpl in Hr. by rewrite Hr.
Qed.
End ReadyEta.

Section Foreign.
Context `{Deps}.
Lemma departed_foreign_unit env event w :
  departing_unit event <> charm_unit env ->
  u_app (departing_unit event) <> app_name env ->
  _on_relation_departed env event w = refresh_relations env w.
Proof.
  intros Hne Happ. rewrite (departed_other_unit _ _ _ Hne).
  rewrite (bool_decide_eq_false_2 _ Happ), andb_false_r. apply bind_ret_r.
Qed.
End Foreign.

(** The invariant at work on the two-core leader. *)
Lemma instance_set_invariant_witness :
  length (_services Demo.leader) = 2
  /\ (dom (value ∅ (_pgbouncer_layer Demo.leader Demo.empty_world))
      = ({[ "logrotate"; _metrics_service ]} : gset string)
        ∪ list_to_set (name <$> _services Demo.leader)
      /\ value ∅ (_pgbouncer_layer Demo.leader Demo.empty_world) !! name (make_service 1)
         = Some (pooler_entry (make_service 1)))
  /\ dom (value ∅ (instance_config (make_service 0) Demo.default_config Demo.empty_world))
     = dom Demo.default_config.
Proof.
  destruct (instance_set_invariant Demo.leader) as (Hlen & _ & Hlayer & Hinst).
  split; [exact Hlen|]. split.
  - assert (Hrun : returned (_pgbouncer_layer Demo.leader Demo.empty_world) = true)
      by (vm_compute; reflexivity).
    destruct (Hlayer Demo.empty_world _ _ _ (run_eta_value ∅ _ Hrun)) as [Hdom Hlookup].
    split; [exact Hdom|]. apply Hlookup.
    apply list_elem_of_fmap. exists 1. split; [reflexivity|].
    apply elem_of_seq. simpl. lia.
  - assert (Hrun : returned (instance_config (make_service 0) Demo.default_config
                               Demo.empty_world) = true)
      by (vm_compute; reflexivity).
    exact (proj1 (Hinst (make_service 0) Demo.default_config Demo.empty_world _ _ _
                    (run_eta_value ∅ _ Hrun))).
Defined.

(** Rendering the default config twice on the leader. *)
Lemma render_pgb_config_idempotent_witness :
  render_pgb_config Demo.leader Demo.default_config true Demo.started_world
  = (Ok tt, Demo.started_world, [])
  /\ exists r2,
       render_pgb_config Demo.leader Demo.default_config true
         (world_of (render_pgb_config Demo.leader Demo.default_config false Demo.empty_world))
       = (r2, world_of (render_pgb_config Demo.leader Demo.default_config false
                          Demo.empty_world), [])
       /\ (can_connect Demo.leader = true ->
           result (render_pgb_config Demo.leader Demo.default_config false Demo.empty_world)
           = Ok tt -> r2 = Ok tt).
Proof.
  destruct (render_pgb_config_idempotent Demo.leader Demo.default_config) as [Hskip Htwice].
  - decide_by_computation.
  - split.
    + apply Hskip; [reflexivity|]. vm_compute. reflexivity.
    + apply Htwice.
Defined.


(** [ready] on the related leader, without a relation, and before the
    relation was initialised. *)
Lemma backend_ready_invariant_witness :
  (supplies_credentials Demo.leader
   /\ (exists text section,
         can_connect Demo.leader = true
         /\ fs Demo.related_world !! INI_PATH = Some text
         /\ cfg_parse text !! "pgbouncer" = Some section
         /\ is_Some (section !! "auth_query"))
   /\ is_Some (fs Demo.related_world !! AUTH_FILE_PATH))
  /\ ready (Demo.with_backend None Demo.leader) Demo.related_world
     = (Ok false, Demo.related_world, [])
  /\ ready Demo.leader Demo.started_world = (Ok false, Demo.started_world, []).
Proof.
  split; [|split].
  - assert (Hrun : result (ready Demo.leader Demo.related_world) = Ok true)
      by (vm_compute; reflexivity).
    exact (proj1 (backend_ready_invariant Demo.leader Demo.related_world) _ _
             (run_eta true _ Hrun)).
  - apply (proj1 (proj2 (backend_ready_invariant (Demo.with_backend None Demo.leader)
                           Demo.related_world))).
    left. reflexivity.
  - refine (proj2 (proj2 (proj2 (backend_ready_invariant Demo.leader Demo.started_world)) _)
              Demo.default_config Demo.default_section _ _ _).
    + exists Demo.backend, Demo.backend_data, "postgresql-k8s-primary:5432",
        "relation-5", "hunter2".
      repeat split; vm_compute; reflexivity.
    + decide_by_computation.
    + decide_by_computation.
    + left. vm_compute. reflexivity.
Defined.


(** The local unit departs: on the related leader, and on a unit without
    backend relation. *)
Lemma departed_local_unit_witness :
  _on_relation_departed Demo.leader Demo.local_departure Demo.related_world
  = match refresh_relations Demo.leader Demo.related_world with
    | (Ok _, w1, e1) => (Ok tt, flagged 5 w1, e1)
    | (Raise ex, w1, e1) => (Raise ex, w1, e1)
    end
  /\ _on_relation_departed (Demo.with_backend None Demo.leader) Demo.local_departure
       Demo.started_world
     = (Ok tt, flagged 5 Demo.started_world, []).
Proof.
  split.
  - exact (proj1 (departed_local_unit Demo.leader Demo.local_departure Demo.related_world
                    eq_refl)).
  - exact (proj2 (departed_local_unit (Demo.with_backend None Demo.leader)
                    Demo.local_departure Demo.started_world eq_refl) eq_refl).
Defined.

(** On the related leader the departure of the local unit restarts both
    pooler instances and probes the backend before the flag is set: the
    flag is not its only effect. *)
Lemma departed_local_unit_not_silent :
  events (_on_relation_departed Demo.leader Demo.local_departure Demo.related_world)
  = [EvRestart "pgbouncer_0"; EvRestart "pgbouncer_1";
     EvExecute "pgbouncer" "SELECT version();"]
  /\ _on_relation_departed Demo.leader Demo.local_departure Demo.related_world
     <> (Ok tt, flagged 5 Demo.related_world, []).
Proof.
  assert (Hevents :
    events (_on_relation_departed Demo.leader Demo.local_departure Demo.related_world)
    = [EvRestart "pgbouncer_0"; EvRestart "pgbouncer_1";
       EvExecute "pgbouncer" "SELECT version();"])
    by (vm_compute; reflexivity).
  split; [exact Hevents|].
  intros Heq. rewrite Heq in Hevents. discriminate Hevents.
Defined.

(** The gate on the leader while the application is removed. *)
Lemma departed_revocation_gate_witness :
  exists r w2 e2,
    _on_relation_departed Demo.removed Demo.peer_departure Demo.related_world
    = (r, w2, events (refresh_relations Demo.removed Demo.related_world) ++ e2)
    /\ (In (EvDeleteUser (auth_name (pg_user Demo.backend_postgres))) e2
        <-> is_leader Demo.removed = true
            /\ u_app (departing_unit Demo.peer_departure) = app_name Demo.removed
            /\ ~ (0 < planned_units Demo.removed < peer_units Demo.removed)%nat)
    /\ (is_leader Demo.removed = false
        \/ u_app (departing_unit Demo.peer_departure) <> app_name Demo.removed ->
        r = Ok tt /\ w2 = world_of (refresh_relations Demo.removed Demo.related_world)
        /\ e2 = []).
Proof.
  assert (Hne : departing_unit Demo.peer_departure <> charm_unit Demo.removed)
    by (by intros [=]).
  assert (Hpg : postgres Demo.removed = Ok (Some Demo.backend_postgres))
    by (vm_compute; reflexivity).
  assert (Hrefresh : result (refresh_relations Demo.removed Demo.related_world) = Ok tt)
    by (vm_compute; reflexivity).
  exact (departed_revocation_gate Demo.removed Demo.peer_departure Demo.related_world
           _ _ _ Hne (run_eta tt _ Hrefresh) Hpg eq_refl).
Defined.

(** On the leader of an application that is being removed, the departure of
    a unit of the backend application revokes nothing, and the departure of
    a peer, which is not of the backend application, deletes the auth
    user. *)
Lemma departed_backend_unit_keeps_auth :
  (is_leader Demo.removed = true
   /\ u_app (departing_unit Demo.backend_departure) = rel_remote_app Demo.backend
   /\ _on_relation_departed Demo.removed Demo.backend_departure Demo.related_world
      = refresh_relations Demo.removed Demo.related_world
   /\ ~ In (EvDeleteUser (auth_name "relation-5"))
          (events (_on_relation_departed Demo.removed Demo.backend_departure
                     Demo.related_world)))
  /\ (u_app (departing_unit Demo.peer_departure) <> rel_remote_app Demo.backend
      /\ In (EvDeleteUser (auth_name "relation-5"))
           (events (_on_relation_departed Demo.removed Demo.peer_departure
                      Demo.related_world))).
Proof.
  split; [split; [reflexivity|split; [reflexivity|split]]|split].
  - apply departed_foreign_unit; by intros [=].
  - rewrite <- list_elem_of_In. decide_by_computation.
  - by intros [=].
  - rewrite <- list_elem_of_In. decide_by_computation.
Defined.



(** The names made for the relation user [relation-5] and for the
    application [pgbouncer-k8s]. *)
Lemma auth_names_without_hyphen_witness :
  occurs hyphen (auth_name "relation-5") = false
  /\ auth_name "relation_5" = "pgbouncer_auth_" +:+ "relation_5"
  /\ occurs hyphen (stats_user Demo.leader) = false
  /\ occurs hyphen (auth_name "relation-5") = false.
Proof.
  destruct (auth_names_without_hyphen Demo.leader) as (Hname & Hstats & Huser).
  split; [exact (proj1 (Hname "relation-5"))|].
  split; [exact (proj2 (Hname "relation_5") eq_refl)|].
  split; [exact Hstats|].
  apply Huser. vm_compute. reflexivity.
Defined.

(** The replicas of the replicated backend, and a backend without any. *)
Lemma read_only_endpoints_round_trip_witness :
  get_read_only_endpoints Demo.replicated = Ok (list_to_set Demo.replica_hosts)
  /\ get_read_only_endpoints Demo.leader = Ok ∅.
Proof.
  split.
  - apply (proj1 (read_only_endpoints_round_trip Demo.replicated) Demo.replicated_data).
    + reflexivity.
    + discriminate.
    + repeat constructor.
    + discriminate.
    + apply lookup_insert_eq.
  - apply (proj1 (proj2 (read_only_endpoints_round_trip Demo.leader)) Demo.backend_data).
    + reflexivity.
    + left. vm_compute. reflexivity.
Defined.

(** The host name of [pgbouncer-k8s/1], and a name without a slash. *)
Lemma hostname_by_unit_witness :
  get_hostname_by_unit Demo.leader ("pgbouncer-k8s" +:+ "/" +:+ "1")
  = Some ("pgbouncer-k8s" +:+ "-" +:+ "1" +:+ "." +:+ "pgbouncer-k8s" +:+ "-endpoints")
  /\ get_hostname_by_unit Demo.leader "pgbouncer-k8s" = None.
Proof.
  split.
  - apply (proj1 (hostname_by_unit Demo.leader)); reflexivity.
  - apply (proj2 (hostname_by_unit Demo.leader)). reflexivity.
Defined.

(** A file pushed to the container of the leader, reachable or not. *)
Lemma push_file_then_read_witness :
  result (_read_file Demo.leader "/tmp/motd"
            (world_of (push_file Demo.leader "/tmp/motd" "hello" 256%N Demo.empty_world)))
  = Ok "hello"
  /\ push_file Demo.unreachable "/tmp/motd" "hello" 256%N Demo.empty_world
     = (Ok tt, set_unit_status push_unavailable Demo.empty_world, []).
Proof.
  split.
  - exact (proj1 (proj2 (proj1 (push_file_then_read Demo.leader "/tmp/motd" "hello" 256%N
                                  Demo.empty_world) eq_refl))).
  - exact (proj1 (proj2 (push_file_then_read Demo.unreachable "/tmp/motd" "hello" 256%N
                           Demo.empty_world) eq_refl)).
Defined.


(** The check on the related leader, where everything runs. *)
Lemma check_pgb_running_verdict_witness :
  world_of (check_pgb_running Demo.leader Demo.related_world) = Demo.related_world
  /\ can_connect Demo.leader = true
  /\ forall service, service ∈ _services Demo.leader ->
       plan Demo.related_world !! name service = Some ACTIVE.
Proof.
  assert (Hr : result (check_pgb_running Demo.leader Demo.related_world) = Ok true)
    by (vm_compute; reflexivity).
  exact (proj1 (proj2 (check_pgb_running_verdict Demo.leader Demo.related_world _ _ _
                         (run_split _))) Hr).
Defined.

(** The check on the started leader, whose backend is not ready, and
    before the services are planned. *)
Lemma check_pgb_running_complete_witness :
  check_pgb_running Demo.leader Demo.started_world
  = (Ok true, Demo.started_world, events (ready Demo.leader Demo.started_world))
  /\ check_pgb_running Demo.unreachable Demo.started_world
     = (Ok false,
        set_unit_status (BlockedStatus "PgBouncer container currently unavailable")
          Demo.started_world, []).
Proof.
  split.
  - assert (Hr : result (ready Demo.leader Demo.started_world) = Ok false)
      by (vm_compute; reflexivity).
    apply (proj1 (proj1 (check_pgb_running_complete Demo.leader Demo.started_world)
                    false _ eq_refl (ready_eta _ _ _ Hr))).
    apply Forall_forall. decide_by_computation.
  - exact (proj2 (check_pgb_running_complete Demo.unreachable Demo.started_world) eq_refl).
Defined.


(** The health check without a backend relation, and on the started leader
    whose backend is not ready. *)
Lemma update_status_outcomes_witness :
  update_status (Demo.with_backend None Demo.leader) Demo.started_world
  = (Ok tt,
     set_unit_status (BlockedStatus "waiting for backend database relation to initialise")
       Demo.started_world, [])
  /\ update_status Demo.leader Demo.started_world
     = (Ok tt,
        set_unit_status (BlockedStatus "backend database relation not ready")
          Demo.started_world,
        events (ready Demo.leader Demo.started_world)).
Proof.
  split.
  - exact (proj1 (proj2 (proj2 (update_status_outcomes (Demo.with_backend None Demo.leader)
                                  Demo.started_world))) eq_refl).
  - assert (Hpg : postgres Demo.leader = Ok (Some Demo.backend_postgres))
      by (vm_compute; reflexivity).
    assert (Hr : result (ready Demo.leader Demo.started_world) = Ok false)
      by (vm_compute; reflexivity).
    exact (proj1 (proj2 (proj2 (proj2 (update_status_outcomes Demo.leader Demo.started_world))
                    ) _ _ Hpg) (ready_eta _ _ _ Hr)).
Defined.

(** A relation-changed event before the services are planned. *)
Lemma relation_changed_waits_for_pooler_witness :
  _on_relation_changed Demo.leader Demo.empty_world
  = (Ok tt, world_of (check_pgb_running Demo.leader Demo.empty_world),
     events (check_pgb_running Demo.leader Demo.empty_world))
  /\ only_status Demo.empty_world (world_of (check_pgb_running Demo.leader Demo.empty_world)).
Proof.
  assert (Hr : result (check_pgb_running Demo.leader Demo.empty_world)
               = Raise ConnectionError)
    by (vm_compute; reflexivity).
  exact (proj1 (relation_changed_waits_for_pooler Demo.leader Demo.empty_world _ _ _
                  (run_split _)) (or_intror Hr)).
Defined.

(** The updates without a backend relation, and on a follower. *)
Lemma relation_updates_skipped_witness :
  _on_endpoints_changed (Demo.with_backend None Demo.leader) Demo.started_world
  = (Ok tt, Demo.started_world, [])
  /\ _on_endpoints_changed (Demo.with_leader false Demo.leader) Demo.related_world
     = update_client_connection_info (Demo.with_leader false Demo.leader) None
         Demo.related_world.
Proof.
  split.
  - exact (proj2 (proj2 (proj1 (relation_updates_skipped (Demo.with_backend None Demo.leader)
                                  Demo.started_world) eq_refl))).
  - assert (Hpg : postgres (Demo.with_leader false Demo.leader)
                  = Ok (Some Demo.backend_postgres))
      by (vm_compute; reflexivity).
    exact (proj2 (proj2 (relation_updates_skipped (Demo.with_leader false Demo.leader)
                           Demo.related_world) eq_refl _ Hpg)).
Defined.

(** Pebble-ready on the leader that waits for its certificates. *)
Lemma pebble_ready_waits_for_certificates_witness :
  _on_pgbouncer_pebble_ready Demo.uncertified Demo.empty_world
  = (Ok tt,
     set_unit_status (WaitingStatus "Waiting for certificates")
       (world_of (_init_config Demo.uncertified Demo.empty_world)),
     events (_init_config Demo.uncertified Demo.empty_world) ++ [EvDefer]).
Proof.
  assert (Hr : result (_init_config Demo.uncertified Demo.empty_world) = Ok true)
    by (vm_compute; reflexivity).
  apply (pebble_ready_waits_for_certificates Demo.uncertified Demo.empty_world _ _
           (run_eta true _ Hr)).
  - discriminate.
  - reflexivity.
Defined.

(** Pebble-ready on the leader with an empty container. *)
Lemma pebble_ready_plans_instances_witness :
  In EvDefer (events (_on_pgbouncer_pebble_ready Demo.leader Demo.empty_world))
  \/ exists layer,
       In (EvAddLayer layer) (events (_on_pgbouncer_pebble_ready Demo.leader Demo.empty_world))
       /\ In EvReplan (events (_on_pgbouncer_pebble_ready Demo.leader Demo.empty_world))
       /\ In (EvSetWorkloadVersion (version Demo.leader))
            (events (_on_pgbouncer_pebble_ready Demo.leader Demo.empty_world))
       /\ dom layer = ({[ "logrotate"; _metrics_service ]} : gset string)
                      ∪ list_to_set (name <$> _services Demo.leader)
       /\ forall service, service ∈ _services Demo.leader ->
            layer !! name service = Some (pooler_entry service).
Proof.
  assert (Hr : result (_on_pgbouncer_pebble_ready Demo.leader Demo.empty_world) = Ok tt)
    by (vm_compute; reflexivity).
  exact (pebble_ready_plans_instances Demo.leader Demo.empty_world _ _ (run_eta tt _ Hr)).
Defined.

(** [update_config] before the config exists, and on the started leader
    without TLS files. *)
Lemma update_config_follows_tls_files_witness :
  update_config Demo.leader Demo.empty_world = (Ok false, Demo.empty_world, [])
  /\ forall key, key ∈ tls_keys ->
       tls_config Demo.leader
         (default ∅ (persisted_config Demo.leader Demo.started_world))
         (default ∅ (default ∅ (persisted_config Demo.leader Demo.started_world)
                     !! "pgbouncer"))
       !! "pgbouncer" ≫= (.!! key) = None.
Proof.
  split.
  - apply (proj1 (update_config_follows_tls_files Demo.leader Demo.empty_world)).
    vm_compute. reflexivity.
  - assert (Hp : persisted_config Demo.leader Demo.started_world
                 = Some (default ∅ (persisted_config Demo.leader Demo.started_world)))
      by (apply some_default; vm_compute; reflexivity).
    assert (Hs : default ∅ (persisted_config Demo.leader Demo.started_world) !! "pgbouncer"
                 = Some (default ∅ (default ∅ (persisted_config Demo.leader
                                                    Demo.started_world) !! "pgbouncer")))
      by (apply some_default; vm_compute; reflexivity).
    exact (proj1 (proj2 (proj2 (proj1 (proj2 (update_config_follows_tls_files Demo.leader
                                                 Demo.started_world)) _ _ Hp Hs)))
             eq_refl).
Defined.

(** The three TLS files of the secured leader are pushed. *)
Lemma push_tls_files_pushes_present_witness :
  exists w',
    push_tls_files_to_workload Demo.secured false Demo.started_world
    = (Ok true, w',
       [EvPush (PGB_DIR +:+ "/" +:+ TLS_KEY_FILE) "KEY" 256%N]
       ++ [EvPush (PGB_DIR +:+ "/" +:+ TLS_CA_FILE) "CA" 256%N]
       ++ [EvPush (PGB_DIR +:+ "/" +:+ TLS_CERT_FILE) "CERT" 256%N])
    /\ (forall c, Some "CERT" = Some c ->
          result (_read_file Demo.secured (PGB_DIR +:+ "/" +:+ TLS_CERT_FILE) w') = Ok c)
    /\ unit_status w' = unit_status Demo.started_world.
Proof.
  exact (push_tls_files_pushes_present Demo.secured Demo.started_world
           (Some "KEY") (Some "CA") (Some "CERT") eq_refl eq_refl).
Defined.


(** [_init_config] on the empty container of the leader. *)
Lemma init_config_prepares_directories_witness :
  can_connect Demo.leader = true
  /\ (forall service, service ∈ _services Demo.leader ->
        exists_in (world_of (_init_config Demo.leader Demo.empty_world)) (dir service)
        /\ exists_in (world_of (_init_config Demo.leader Demo.empty_world)) (log_dir service))
  /\ (forall path, exists_in Demo.empty_world path ->
        ~ In (EvMakeDir path) (events (_init_config Demo.leader Demo.empty_world)))
  /\ exists e0,
       events (_init_config Demo.leader Demo.empty_world)
       = e0 ++ [EvPush logrotate_path (logrotate_config (cores Demo.leader)) 0%N].
Proof.
  assert (Hr : result (_init_config Demo.leader Demo.empty_world) = Ok true)
    by (vm_compute; reflexivity).
  exact (init_config_prepares_directories Demo.leader Demo.empty_world _ _
           (run_eta true _ Hr)).
Defined.

(** Database-created on a follower, and on the leader before the services
    are planned. *)
Lemma database_created_defers_witness :
  _on_database_created (Demo.with_leader false Demo.leader) Demo.started_world
  = (Ok tt, Demo.started_world, [])
  /\ _on_database_created Demo.leader Demo.empty_world
     = (Ok tt,
        world_of (check_pgb_running Demo.leader
                    (set_unit_status
                       (MaintenanceStatus "Initialising backend-database relation")
                       Demo.empty_world)),
        events (check_pgb_running Demo.leader
                  (set_unit_status
                     (MaintenanceStatus "Initialising backend-database relation")
                     Demo.empty_world))
        ++ [EvDefer]).
Proof.
  split.
  - exact (proj1 (database_created_defers (Demo.with_leader false Demo.leader)
                    Demo.started_world) eq_refl).
  - assert (Hr : result (check_pgb_running Demo.leader
                           (set_unit_status
                              (MaintenanceStatus "Initialising backend-database relation")
                              Demo.empty_world))
                 = Raise ConnectionError)
      by (vm_compute; reflexivity).
    exact (proj1 (proj2 (proj2 (database_created_defers Demo.leader Demo.empty_world)
                           eq_refl _ _ _ (run_split _)))
             (or_intror Hr)).
Defined.

(** Database-created on the started leader. *)
Lemma database_created_provisions_witness :
  exists pg cfg section,
    postgres Demo.leader = Ok (Some pg)
    /\ In (EvCreateUser (auth_name (pg_user pg))
             (get_hashed_password (auth_name (pg_user pg))
                (generate_password (rng Demo.started_world)))
             true)
          (events (_on_database_created Demo.leader Demo.started_world))
    /\ In (EvPush AUTH_FILE_PATH
             (auth_line (auth_name (pg_user pg))
                (get_hashed_password (auth_name (pg_user pg))
                   (generate_password (rng Demo.started_world)))
              +:+ nl +:+
              auth_line (stats_user Demo.leader)
                (get_hashed_password (stats_user Demo.leader)
                   (monitoring_secret Demo.started_world)))
             256%N)
          (events (_on_database_created Demo.leader Demo.started_world))
    /\ cfg !! "pgbouncer" = Some section
    /\ section !! "auth_query" = Some (auth_query (auth_name (pg_user pg)))
    /\ section !! "auth_file" = Some AUTH_FILE_PATH
    /\ (persisted_config Demo.leader Demo.started_world = Some cfg
        \/ In (EvPush INI_PATH (cfg_render cfg) 256%N)
             (events (_on_database_created Demo.leader Demo.started_world))).
Proof.
  assert (Hr : result (_on_database_created Demo.leader Demo.started_world) = Ok tt)
    by (vm_compute; reflexivity).
  apply (database_created_provisions Demo.leader Demo.started_world
           (world_of (_on_database_created Demo.leader Demo.started_world))
           (events (_on_database_created Demo.leader Demo.started_world)) eq_refl).
  - discriminate.
  - exact (run_eta tt _ Hr).
  - rewrite <- list_elem_of_In. decide_by_computation.
Defined.

(** The monitoring password of the related leader is kept, and the one the
    started leader draws is stored. *)
Lemma monitoring_password_reuse_witness :
  monitoring_password Demo.leader Demo.related_world
  = (Ok (default EmptyString (peer_app Demo.related_world !! MONITORING_PASSWORD_KEY)),
     Demo.related_world, [])
  /\ exists w1,
       monitoring_password Demo.leader Demo.started_world
       = (Ok (generate_password (rng Demo.started_world)), w1, [])
       /\ peer_app w1 !! MONITORING_PASSWORD_KEY
          = Some (generate_password (rng Demo.started_world))
       /\ rng w1 = S (rng Demo.started_world)
       /\ fs w1 = fs Demo.started_world
       /\ (generate_password (rng Demo.started_world) <> EmptyString ->
           monitoring_password Demo.leader w1
           = (Ok (generate_password (rng Demo.started_world)), w1, [])).
Proof.
  split.
  - apply (proj1 (monitoring_password_reuse Demo.leader Demo.related_world)).
    + apply some_default. vm_compute. reflexivity.
    + decide_by_computation.
  - apply (proj2 (monitoring_password_reuse Demo.leader Demo.started_world)).
    + reflexivity.
    + vm_compute. reflexivity.
Defined.


(** The connection data of the related leader. *)
Lemma postgres_connection_data_witness :
  postgres Demo.leader
  = Ok (Some {| primary_host := "postgresql-k8s-primary";
                current_host := "postgresql-k8s-primary";
                pg_user := "relation-5";
                pg_password := "hunter2";
                pg_database := PGB |})
  /\ postgres (Demo.with_backend None Demo.leader) = Ok None.
Proof.
  split.
  - apply (proj1 (postgres_connection_data Demo.leader) Demo.backend Demo.backend_data
             "postgresql-k8s-primary" "5432").
    + reflexivity.
    + reflexivity.
    + reflexivity.
    + vm_compute. reflexivity.
    + vm_compute. reflexivity.
    + vm_compute. reflexivity.
  - exact (proj1 (proj2 (proj2 (postgres_connection_data (Demo.with_backend None Demo.leader))))
             eq_refl).
Defined.

(** [ready] on the related leader. *)
Lemma ready_when_backend_answers_witness :
  ready Demo.leader Demo.related_world
  = (Ok true, Demo.related_world, [EvExecute PGB "SELECT version();"]).
Proof.
  assert (Hpg : postgres Demo.leader = Ok (Some Demo.backend_postgres))
    by (vm_compute; reflexivity).
  assert (Hp : persisted_config Demo.leader Demo.related_world
               = Some (default ∅ (persisted_config Demo.leader Demo.related_world)))
    by (apply some_default; vm_compute; reflexivity).
  assert (Hs : default ∅ (persisted_config Demo.leader Demo.related_world) !! "pgbouncer"
               = Some (default ∅ (default ∅ (persisted_config Demo.leader
                                                  Demo.related_world) !! "pgbouncer")))
    by (apply some_default; vm_compute; reflexivity).
  assert (Ha : stored_file Demo.leader Demo.related_world AUTH_FILE_PATH
               = Some (default EmptyString
                         (stored_file Demo.leader Demo.related_world AUTH_FILE_PATH)))
    by (apply some_default; vm_compute; reflexivity).
  apply (proj1 (proj1 (ready_when_backend_answers Demo.leader Demo.related_world _ _ Hpg Hp)
                  _ _ Hs ltac:(decide_by_computation) Ha)).
  reflexivity.
Defined.

(** The auth function is installed in the two databases of the related
    leader. *)
Lemma auth_function_scripts_witness :
  initialise_auth_function Demo.leader [PGB; PG] Demo.related_world
  = (Ok tt, Demo.related_world,
     (fun dbname =>
        EvExecute dbname
          (str_replace "auth_user" (auth_name (pg_user Demo.backend_postgres))
             install_script))
       <$> [PGB; PG])
  /\ remove_auth_function Demo.leader [PGB; PG] Demo.related_world
     = (Ok tt, Demo.related_world,
        (fun dbname =>
           EvExecute dbname
             (str_replace "auth_user" (auth_name (pg_user Demo.backend_postgres))
                uninstall_script))
          <$> [PGB; PG]).
Proof.
  assert (Hpg : postgres Demo.leader = Ok (Some Demo.backend_postgres))
    by (vm_compute; reflexivity).
  exact (proj1 (proj1 (auth_function_scripts Demo.leader [PGB; PG] Demo.related_world)
                  _ Hpg) eq_refl).
Defined.

(** [_init_config] on the started leader, whose container has its config. *)
Lemma init_config_keeps_config_witness :
  exists w' e,
    _init_config Demo.leader Demo.started_world = (Ok true, w', e)
    /\ peer_app w' = peer_app Demo.started_world
    /\ unit_status w' = unit_status Demo.started_world
    /\ (forall path, path <> logrotate_path ->
          fs w' !! path = fs Demo.started_world !! path)
    /\ (forall ev, In ev e ->
          (exists path, ev = EvMakeDir path)
          \/ ev = EvPush logrotate_path (logrotate_config (cores Demo.leader)) 0%N).
Proof.
  assert (Hp : persisted_config Demo.leader Demo.started_world
               = Some (default ∅ (persisted_config Demo.leader Demo.started_world)))
    by (apply some_default; vm_compute; reflexivity).
  apply (init_config_keeps_config Demo.leader Demo.started_world _ eq_refl Hp).
  decide_by_computation.
Defined.

(** The layer of the related leader. *)
Lemma pgbouncer_layer_entries_witness :
  world_of (_pgbouncer_layer Demo.leader Demo.related_world) = Demo.related_world
  /\ events (_pgbouncer_layer Demo.leader Demo.related_world) = []
  /\ value ∅ (_pgbouncer_layer Demo.leader Demo.related_world) !! "logrotate"
     = Some (logrotate_entry Demo.leader)
  /\ svc_after (logrotate_entry Demo.leader) = name <$> _services Demo.leader
  /\ ((exists pg, postgres Demo.leader = Ok (Some pg)) ->
      value ∅ (_pgbouncer_layer Demo.leader Demo.related_world) !! _metrics_service
      = Some (enabled_exporter Demo.leader Demo.related_world))
  /\ (postgres Demo.leader = Ok None ->
      value ∅ (_pgbouncer_layer Demo.leader Demo.related_world) !! _metrics_service
      = Some (disabled_exporter Demo.leader)).
Proof.
  assert (Hr : returned (_pgbouncer_layer Demo.leader Demo.related_world) = true)
    by (vm_compute; reflexivity).
  exact (pgbouncer_layer_entries Demo.leader Demo.related_world _ _ _ eq_refl
           (run_eta_value ∅ _ Hr)).
Defined.
